(** * Streamy: a shallow embedding of [streamy.py]

    The development follows the source file top-down: the Python values the
    program manipulates (text, JSON documents, exceptions), the class
    [PrinterConfig], the function [get_next_snapshot_number] and the class
    [StreamyApp]; the notions the statements use and the function
    [check_and_install_dependencies] come after them.  Everything outside
    the Python process is an explicit input of the function that consults
    it:

    - text is a sequence of code points below 256, written as a Rocq
      [string] (one [ascii] per code point);
    - the file [streamy_config.json] is a [file_state]; what [json.load]
      returns for it is part of that state, and [json.dump] followed by
      [json.load] is the identity on documents;
    - the Desktop directory is the list of the names of its entries;
      when its path holds one of the magic characters of [glob], which
      directories the path matches as a pattern, and what they hold, is
      an input too ([matched_dirs]);
    - OpenCV reports failure through its return values ([isOpened], the
      [ret] flag of [read], the result of [imwrite]) as documented, and
      raises nothing;
    - which modules [importlib.util.find_spec] finds and whether pip
      returns 0 are inputs of the dependency check; what is printed is
      not modelled;
    - Qt delivers one event at a time: a handler runs to completion before
      the next timer tick or click is dispatched (the nested event loops of
      [processEvents] and of the modal message boxes deliver none). *)

From Stdlib Require Import ZArith NArith Ascii String DecimalString DecimalN.
From stdpp Require Import gmap strings list fin_maps.

Set Warnings "-register-all".
Local Open Scope string_scope.
Local Open Scope list_scope.

(** ** Text *)

(** [str.isspace] on the code points below 256: TAB..CR, FS..US, SPACE,
    NEL (0x85) and NBSP (0xA0). *)
Definition isspace (c : ascii) : bool :=
  let n := N_of_ascii c in
  ((9 <=? n) && (n <=? 13) || (28 <=? n) && (n <=? 32)
   || (n =? 133) || (n =? 160))%N.

Fixpoint lstrip (s : string) : string :=
  match s with
  | String c s' => if isspace c then lstrip s' else s
  | EmptyString => EmptyString
  end.

Fixpoint rstrip (s : string) : string :=
  match s with
  | EmptyString => EmptyString
  | String c s' =>
      match rstrip s' with
      | EmptyString => if isspace c then EmptyString else String c EmptyString
      | r => String c r
      end
  end.

(** [str.strip()] with no argument. *)
Definition strip (s : string) : string := rstrip (lstrip s).

(** All characters of [s] are whitespace. *)
Fixpoint all_space (s : string) : bool :=
  match s with
  | EmptyString => true
  | String c s' => isspace c && all_space s'
  end.

(** [needle in hay] for two [str] operands: substring test. *)
Fixpoint str_contains (needle hay : string) : bool :=
  String.prefix needle hay
  || match hay with
     | String _ hay' => str_contains needle hay'
     | EmptyString => false
     end.

(** [s.endswith(suffix)]. *)
Definition endswith (suffix s : string) : bool :=
  let n := String.length s in
  let k := String.length suffix in
  (k <=? n)%nat && String.eqb (String.substring (n - k) k s) suffix.

(** [x is None]. *)
Definition is_None {A : Type} (x : option A) : bool :=
  match x with
  | None => true
  | Some _ => false
  end.

(** Truth value of a [str]: non-empty. *)
Definition str_truthy (s : string) : bool :=
  match s with EmptyString => false | String _ _ => true end.

Definition newline : string := String (ascii_of_nat 10) EmptyString.

(** ** JSON documents and Python exceptions *)

(** What [json.load] produces. *)
Inductive json :=
| JNull
| JBool (b : bool)
| JInt (n : Z)
| JFloat (mantissa exponent : Z)
| JStr (s : string)
| JArr (l : list json)
| JObj (d : gmap string json).

Inductive exn_class :=
| TypeError | AttributeError | KeyError | OSError | JSONDecodeError.

(** A raised exception: its class and [str(e)]. *)
Record exn := Raise { exn_type : exn_class; exn_str : string }.

(** Computations that may raise. *)
Abbreviation result := (sum exn).

Definition bind {A B : Type} (m : result A) (f : A → result B) : result B :=
  match m with
  | inl e => inl e
  | inr x => f x
  end.

Notation "'let!' x := m 'in' k" := (bind m (fun x => k))
  (at level 10, x name, m at level 100, k at level 200).

Definition type_name (v : json) : string :=
  match v with
  | JNull => "NoneType"
  | JBool _ => "bool"
  | JInt _ => "int"
  | JFloat _ _ => "float"
  | JStr _ => "str"
  | JArr _ => "list"
  | JObj _ => "dict"
  end.

(** [x == s] for a JSON value [x] and a [str] [s]. *)
Definition eq_str (s : string) (x : json) : bool :=
  match x with
  | JStr t => String.eqb t s
  | _ => false
  end.

(** [key in c] for a [str] key: key membership on a dict, element
    membership on a list, substring on a str, [TypeError] otherwise. *)
Definition py_in (key : string) (c : json) : result bool :=
  match c with
  | JObj d => inr (bool_decide (is_Some (d !! key)))
  | JArr l => inr (existsb (eq_str key) l)
  | JStr s => inr (str_contains key s)
  | _ => inl (Raise TypeError
                ("argument of type '" +:+ type_name c +:+ "' is not iterable"))
  end.

(** [c[key]] for a [str] key; the messages are those of Python 3.11. *)
Definition py_getitem (c : json) (key : string) : result json :=
  match c with
  | JObj d =>
      match d !! key with
      | Some v => inr v
      | None => inl (Raise KeyError ("'" +:+ key +:+ "'"))
      end
  | JArr _ =>
      inl (Raise TypeError "list indices must be integers or slices, not str")
  | JStr _ =>
      inl (Raise TypeError "string indices must be integers, not 'str'")
  | _ => inl (Raise TypeError
                ("'" +:+ type_name c +:+ "' object is not subscriptable"))
  end.

(** [c[key] = v] for a [str] key. *)
Definition py_setitem (c : json) (key : string) (v : json) : result json :=
  match c with
  | JObj d => inr (JObj (<[key := v]> d))
  | JArr _ =>
      inl (Raise TypeError "list indices must be integers or slices, not str")
  | _ => inl (Raise TypeError
                ("'" +:+ type_name c +:+
                 "' object does not support item assignment"))
  end.

Definition no_attribute (c : json) (attr : string) : exn :=
  Raise AttributeError
    ("'" +:+ type_name c +:+ "' object has no attribute '" +:+ attr +:+ "'").

(** [list.remove(s)]: the first element equal to [s] goes. *)
Fixpoint remove_first (s : string) (l : list json) : list json :=
  match l with
  | [] => []
  | x :: l' => if eq_str s x then l' else x :: remove_first s l'
  end.

(** [c.remove(s)], called only after [s in c] held. *)
Definition py_remove (c : json) (s : string) : result json :=
  match c with
  | JArr l => inr (JArr (remove_first s l))
  | _ => inl (no_attribute c "remove")
  end.

(** [c.insert(0, s)]. *)
Definition py_insert0 (c : json) (s : string) : result json :=
  match c with
  | JArr l => inr (JArr (JStr s :: l))
  | _ => inl (no_attribute c "insert")
  end.

(** [c[:5]]; [c] is a list whenever this is reached. *)
Definition py_slice5 (c : json) : result json :=
  match c with
  | JArr l => inr (JArr (take 5 l))
  | JStr s => inr (JStr (String.substring 0 5 s))
  | _ => inl (Raise TypeError
                ("'" +:+ type_name c +:+ "' object is not subscriptable"))
  end.

(** ** The configuration file *)

(** [streamy_config.json]: absent; present but [open] or [read] raises;
    present with text [json.load] rejects; present with a document. *)
Inductive file_state :=
| NoFile
| Unreadable
| Malformed
| Document (doc : json).

(** How an attempt to write the file ends: written, [open] raised (file
    untouched), or the write raised after the file was truncated. *)
Inductive save_outcome := SaveOk | SaveOpenFails | SaveWriteFails.

Module PrinterConfig.

(** The object's [config] attribute and the file behind [CONFIG_FILE]. *)
Record t := Build { config : json; disk : file_state }.

Definition default_config : gmap string json :=
  <["recent_printers" := JArr []]>
    (<["last_used_printer" := JStr ""]>
       (<["include_timestamp" := JBool true]> ∅)).

(** Iteration order of [for key in default_config]. *)
Definition default_keys : list string :=
  ["recent_printers"; "last_used_printer"; "include_timestamp"].

(** One round of the back-fill loop. *)
Definition ensure_key (c : result json) (key : string) : result json :=
  let! config := c in
  let! present := py_in key config in
  if present then inr config
  else
    let! v := py_getitem (JObj default_config) key in
    py_setitem config key v.

(** The body of the [try] in [load_config]. *)
Definition load_config_try (f : file_state) : result json :=
  match f with
  | NoFile | Unreadable => inl (Raise OSError "streamy_config.json")
  | Malformed => inl (Raise JSONDecodeError "Expecting value")
  | Document config => foldl ensure_key (inr config) default_keys
  end.

Definition load_config (f : file_state) : result json :=
  match f with
  | NoFile => inr (JObj default_config)
  | _ =>
      match load_config_try f with
      | inr config => inr config
      | inl _ => inr (JObj default_config)
      end
  end.

Definition save_config (io : save_outcome) (p : t) : t :=
  match io with
  | SaveOk => Build (config p) (Document (config p))
  | SaveOpenFails => p
  | SaveWriteFails => Build (config p) Malformed
  end.

Definition add_printer (ip_address : string) (io : save_outcome) (p : t)
  : result t :=
  if str_truthy ip_address then
    let! recent := py_getitem (config p) "recent_printers" in
    let! present := py_in ip_address recent in
    let! recent :=
      (if present then py_remove recent ip_address else inr recent) in
    let! recent := py_insert0 recent ip_address in
    let! recent := py_slice5 recent in
    let! c := py_setitem (config p) "recent_printers" recent in
    let! c := py_setitem c "last_used_printer" (JStr ip_address) in
    inr (save_config io (Build c (disk p)))
  else inr p.

Definition get_recent_printers (p : t) : result json :=
  py_getitem (config p) "recent_printers".

Definition get_last_used_printer (p : t) : result json :=
  py_getitem (config p) "last_used_printer".

Definition set_include_timestamp (value : bool) (io : save_outcome) (p : t)
  : result t :=
  let! c := py_setitem (config p) "include_timestamp" (JBool value) in
  inr (save_config io (Build c (disk p))).

Definition get_include_timestamp (p : t) : result json :=
  match config p with
  | JObj d => inr (default (JBool true) (d !! "include_timestamp"))
  | c => inl (no_attribute c "get")
  end.

(** [PrinterConfig()]. *)
Definition init (f : file_state) : result t :=
  let! c := load_config f in
  inr (Build c f).

End PrinterConfig.

(** ** Snapshot numbering *)

(** [\d] on the code points below 256: the ASCII digits. *)
Definition isdigit (c : ascii) : bool :=
  let n := N_of_ascii c in ((48 <=? n) && (n <=? 57))%N.

(** [s] without the prefix [p], when it starts with it. *)
Fixpoint strip_prefix (p s : string) : option string :=
  match p, s with
  | EmptyString, _ => Some s
  | String a p', String b s' =>
      if Ascii.eqb a b then strip_prefix p' s' else None
  | String _ _, EmptyString => None
  end.

(** The shell pattern [streamy-*.png] of [glob.glob], on one file name:
    the name starts with [streamy-] and what follows ends with [.png]. *)
Definition fnmatch_snapshot (name : string) : bool :=
  match strip_prefix "streamy-" name with
  | Some rest => endswith ".png" rest
  | None => false
  end.

(** The longest prefix of digits and what follows it. *)
Fixpoint span_digits (s : string) : string * string :=
  match s with
  | String c s' =>
      if isdigit c then
        let '(ds, rest) := span_digits s' in (String c ds, rest)
      else (EmptyString, s)
  | EmptyString => (EmptyString, EmptyString)
  end.

(** The pattern [streamy-(\d+)\.png] anchored at the start of [s]; the
    result is group 1.  [\d+] is greedy and [.] is no digit, so the only
    candidate is the longest run of digits. *)
Definition re_match_here (s : string) : option string :=
  match strip_prefix "streamy-" s with
  | Some rest =>
      let '(ds, rest') := span_digits rest in
      if str_truthy ds && String.prefix ".png" rest' then Some ds else None
  | None => None
  end.

(** [re.search(pattern, s)]: the leftmost match; group 1 of it. *)
Fixpoint re_search (s : string) : option string :=
  match re_match_here s with
  | Some g => Some g
  | None =>
      match s with
      | String _ s' => re_search s'
      | EmptyString => None
      end
  end.

(** [int(s)] on decimal digits; [None] stands for [ValueError]. *)
Definition py_int (s : string) : option N :=
  if str_truthy s && forallb isdigit (list_ascii_of_string s)
  then N.of_uint <$> NilEmpty.uint_of_string s
  else None.

(** [max(numbers)] on a non-empty list. *)
Definition py_max (first : N) (others : list N) : N :=
  foldl N.max first others.

(** One round of the loop over [existing_files]. *)
Definition collect_number (numbers : list N) (file : string) : list N :=
  match re_search file with
  | Some group1 =>
      match py_int group1 with
      | Some number => numbers ++ [number]
      | None => numbers
      end
  | None => numbers
  end.

(** [glob.has_magic]: one of [*], [?] and [[] occurs in [s]. *)
Definition has_magic (s : string) : bool :=
  existsb (λ c, Ascii.eqb c "*" || Ascii.eqb c "?" || Ascii.eqb c "[")
    (list_ascii_of_string s).

(** What the file system answers when [glob.glob] reads the directory
    part of its argument as a pattern: whether the directory of that very
    name is among the directories matched, and the other directories
    matched, each with the names of its entries. *)
Record matched_dirs := MatchedDirs {
  matches_itself : bool;
  other_dirs : list (string * list string)
}.

(** The directories [glob.glob] looks into, each with the names of its
    entries: the directory itself when its path has no magic character,
    and otherwise the directories its path matches as a pattern.  A
    directory that does not exist has no entries.  The order is that of
    the file system; the number computed below is a maximum and does not
    depend on it. *)
Definition glob_dirs (desktop_path : string) (listing : list string)
    (matches : matched_dirs) : list (string * list string) :=
  if has_magic desktop_path then
    (if matches_itself matches then [(desktop_path, listing)] else [])
    ++ other_dirs matches
  else [(desktop_path, listing)].

(** The entries of one directory that match [streamy-*.png], joined to
    its path. *)
Definition glob_in_dir (dir : string * list string) : list string :=
  (λ name, dir.1 +:+ "/" +:+ name) <$> List.filter fnmatch_snapshot dir.2.

(** [glob.glob(os.path.join(desktop_path, "streamy-*.png"))]. *)
Definition existing_files (desktop_path : string) (listing : list string)
    (matches : matched_dirs) : list string :=
  concat (glob_in_dir <$> glob_dirs desktop_path listing matches).

(** [desktop_path] is [os.path.join(os.path.expanduser('~'), 'Desktop')],
    [listing] the names of the entries of that directory, and [matches]
    what its path matches when it is read as a pattern. *)
Definition get_next_snapshot_number (desktop_path : string)
    (listing : list string) (matches : matched_dirs) : N :=
  let existing_files := existing_files desktop_path listing matches in
  match existing_files with
  | [] => 1
  | _ =>
      match foldl collect_number [] existing_files with
      | [] => 1
      | first :: others => py_max first others + 1
      end
  end%N.

(** [str(n)] for a natural number. *)
Definition decimal (n : N) : string := NilEmpty.string_of_uint (N.to_uint n).

Fixpoint zeros (k : nat) : string :=
  match k with
  | O => EmptyString
  | S k' => String "0" (zeros k')
  end.

(** The format [{n:04d}] on a natural number. *)
Definition format_04d (n : N) : string :=
  let digits := decimal n in
  zeros (4 - String.length digits) +:+ digits.

(** [f"streamy-{snapshot_num:04d}.png"]. *)
Definition snapshot_filename (snapshot_num : N) : string :=
  "streamy-" +:+ format_04d snapshot_num +:+ ".png".

(** ** The application *)

(** The colours of [StatusIndicator]. *)
Inductive color := RED | YELLOW | GREEN | GRAY.

Definition color_eqb (a b : color) : bool :=
  match a, b with
  | RED, RED | YELLOW, YELLOW | GREEN, GREEN | GRAY, GRAY => true
  | _, _ => false
  end.

(** Images as the program builds them: pixel data delivered by
    [camera.read()], [np.zeros((h, w, c))], and [cv2.putText] at a
    position. *)
Inductive image :=
| Captured (id : nat)
| Zeros (height width channels : nat)
| PutText (img : image) (text : string) (x y : Z).

Inductive icon := Critical | Warning.

(** A [QMessageBox] shown to the user. *)
Record dialog := MessageBox {
  box_icon : icon;
  box_title : string;
  box_text : string
}.

(** Calls that reach OpenCV or the frame timer. *)
Inductive io_event :=
| EvOpen (h : nat) (url : string)
| EvOpenFailed (url : string)
| EvRead (h : nat)
| EvRelease (h : nat)
| EvTimerStart
| EvTimerStop
| EvImwrite (path : string) (img : image).

(** What [cv2.VideoCapture(url)] turns out to be: not opened, or opened
    with the result of the first [read()] and the frame size it reports. *)
Inductive capture_outcome :=
| NotOpened
| Opened (ret : bool) (test_frame : option image) (width height : Z).

Module StreamyApp.

Record t := Build {
  (** attributes set by [__init__] *)
  config : PrinterConfig.t;
  camera : option nat;
  camera_url : option string;
  is_running : bool;
  current_frame : option image;
  frame_width : Z;
  frame_height : Z;
  previous_status : string;
  (** Qt objects: is the 33 ms timer active; milliseconds left on the
      single-shot status timer; the widgets the handlers touch *)
  timer : bool;
  status_timer : option N;
  status_indicator : color;
  status_label : string;
  snapshot_btn : bool;
  timestamp_checkbox : bool;
  video_frame : option image;
  ip_combo : list string;
  (** outside the process: message boxes shown, calls made on OpenCV and
      the frame timer (oldest first), sources now open, the next fresh
      source, the Desktop directory: its path, the names of its entries,
      and what its path matches when [glob.glob] reads it as a pattern *)
  dialogs : list dialog;
  trace : list io_event;
  open_sources : list nat;
  next_handle : nat;
  desktop_path : string;
  desktop : list string;
  desktop_matches : matched_dirs
}.

(** Field updates. *)
Definition set_config (v : PrinterConfig.t) (s : t) : t :=
   Build v (camera s) (camera_url s) (is_running s) (current_frame s)
     (frame_width s) (frame_height s) (previous_status s) (timer s)
     (status_timer s) (status_indicator s) (status_label s)
     (snapshot_btn s) (timestamp_checkbox s) (video_frame s) (ip_combo s)
     (dialogs s) (trace s) (open_sources s) (next_handle s)
     (desktop_path s) (desktop s)
     (desktop_matches s).
Definition set_camera (v : option nat) (s : t) : t :=
   Build (config s) v (camera_url s) (is_running s) (current_frame s)
     (frame_width s) (frame_height s) (previous_status s) (timer s)
     (status_timer s) (status_indicator s) (status_label s)
     (snapshot_btn s) (timestamp_checkbox s) (video_frame s) (ip_combo s)
     (dialogs s) (trace s) (open_sources s) (next_handle s)
     (desktop_path s) (desktop s)
     (desktop_matches s).
Definition set_camera_url (v : option string) (s : t) : t :=
   Build (config s) (camera s) v (is_running s) (current_frame s)
     (frame_width s) (frame_height s) (previous_status s) (timer s)
     (status_timer s) (status_indicator s) (status_label s)
     (snapshot_btn s) (timestamp_checkbox s) (video_frame s) (ip_combo s)
     (dialogs s) (trace s) (open_sources s) (next_handle s)
     (desktop_path s) (desktop s)
     (desktop_matches s).
Definition set_is_running (v : bool) (s : t) : t :=
   Build (config s) (camera s) (camera_url s) v (current_frame s)
     (frame_width s) (frame_height s) (previous_status s) (timer s)
     (status_timer s) (status_indicator s) (status_label s)
     (snapshot_btn s) (timestamp_checkbox s) (video_frame s) (ip_combo s)
     (dialogs s) (trace s) (open_sources s) (next_handle s)
     (desktop_path s) (desktop s)
     (desktop_matches s).
Definition set_current_frame (v : option image) (s : t) : t :=
   Build (config s) (camera s) (camera_url s) (is_running s) v
     (frame_width s) (frame_height s) (previous_status s) (timer s)
     (status_timer s) (status_indicator s) (status_label s)
     (snapshot_btn s) (timestamp_checkbox s) (video_frame s) (ip_combo s)
     (dialogs s) (trace s) (open_sources s) (next_handle s)
     (desktop_path s) (desktop s)
     (desktop_matches s).
Definition set_frame_width (v : Z) (s : t) : t :=
   Build (config s) (camera s) (camera_url s) (is_running s)
     (current_frame s) v (frame_height s) (previous_status s) (timer s)
     (status_timer s) (status_indicator s) (status_label s)
     (snapshot_btn s) (timestamp_checkbox s) (video_frame s) (ip_combo s)
     (dialogs s) (trace s) (open_sources s) (next_handle s)
     (desktop_path s) (desktop s)
     (desktop_matches s).
Definition set_frame_height (v : Z) (s : t) : t :=
   Build (config s) (camera s) (camera_url s) (is_running s)
     (current_frame s) (frame_width s) v (previous_status s) (timer s)
     (status_timer s) (status_indicator s) (status_label s)
     (snapshot_btn s) (timestamp_checkbox s) (video_frame s) (ip_combo s)
     (dialogs s) (trace s) (open_sources s) (next_handle s)
     (desktop_path s) (desktop s)
     (desktop_matches s).
Definition set_previous_status (v : string) (s : t) : t :=
   Build (config s) (camera s) (camera_url s) (is_running s)
     (current_frame s) (frame_width s) (frame_height s) v (timer s)
     (status_timer s) (status_indicator s) (status_label s)
     (snapshot_btn s) (timestamp_checkbox s) (video_frame s) (ip_combo s)
     (dialogs s) (trace s) (open_sources s) (next_handle s)
     (desktop_path s) (desktop s)
     (desktop_matches s).
Definition set_timer (v : bool) (s : t) : t :=
   Build (config s) (camera s) (camera_url s) (is_running s)
     (current_frame s) (frame_width s) (frame_height s)
     (previous_status s) v (status_timer s) (status_indicator s)
     (status_label s) (snapshot_btn s) (timestamp_checkbox s)
     (video_frame s) (ip_combo s) (dialogs s) (trace s) (open_sources s)
     (next_handle s) (desktop_path s) (desktop s)
     (desktop_matches s).
Definition set_status_timer (v : option N) (s : t) : t :=
   Build (config s) (camera s) (camera_url s) (is_running s)
     (current_frame s) (frame_width s) (frame_height s)
     (previous_status s) (timer s) v (status_indicator s) (status_label s)
     (snapshot_btn s) (timestamp_checkbox s) (video_frame s) (ip_combo s)
     (dialogs s) (trace s) (open_sources s) (next_handle s)
     (desktop_path s) (desktop s)
     (desktop_matches s).
Definition set_status_indicator (v : color) (s : t) : t :=
   Build (config s) (camera s) (camera_url s) (is_running s)
     (current_frame s) (frame_width s) (frame_height s)
     (previous_status s) (timer s) (status_timer s) v (status_label s)
     (snapshot_btn s) (timestamp_checkbox s) (video_frame s) (ip_combo s)
     (dialogs s) (trace s) (open_sources s) (next_handle s)
     (desktop_path s) (desktop s)
     (desktop_matches s).
Definition set_status_label (v : string) (s : t) : t :=
   Build (config s) (camera s) (camera_url s) (is_running s)
     (current_frame s) (frame_width s) (frame_height s)
     (previous_status s) (timer s) (status_timer s) (status_indicator s) v
     (snapshot_btn s) (timestamp_checkbox s) (video_frame s) (ip_combo s)
     (dialogs s) (trace s) (open_sources s) (next_handle s)
     (desktop_path s) (desktop s)
     (desktop_matches s).
Definition set_snapshot_btn (v : bool) (s : t) : t :=
   Build (config s) (camera s) (camera_url s) (is_running s)
     (current_frame s) (frame_width s) (frame_height s)
     (previous_status s) (timer s) (status_timer s) (status_indicator s)
     (status_label s) v (timestamp_checkbox s) (video_frame s)
     (ip_combo s) (dialogs s) (trace s) (open_sources s) (next_handle s)
     (desktop_path s) (desktop s)
     (desktop_matches s).
Definition set_timestamp_checkbox (v : bool) (s : t) : t :=
   Build (config s) (camera s) (camera_url s) (is_running s)
     (current_frame s) (frame_width s) (frame_height s)
     (previous_status s) (timer s) (status_timer s) (status_indicator s)
     (status_label s) (snapshot_btn s) v (video_frame s) (ip_combo s)
     (dialogs s) (trace s) (open_sources s) (next_handle s)
     (desktop_path s) (desktop s)
     (desktop_matches s).
Definition set_video_frame (v : option image) (s : t) : t :=
   Build (config s) (camera s) (camera_url s) (is_running s)
     (current_frame s) (frame_width s) (frame_height s)
     (previous_status s) (timer s) (status_timer s) (status_indicator s)
     (status_label s) (snapshot_btn s) (timestamp_checkbox s) v
     (ip_combo s) (dialogs s) (trace s) (open_sources s) (next_handle s)
     (desktop_path s) (desktop s)
     (desktop_matches s).
Definition set_ip_combo (v : list string) (s : t) : t :=
   Build (config s) (camera s) (camera_url s) (is_running s)
     (current_frame s) (frame_width s) (frame_height s)
     (previous_status s) (timer s) (status_timer s) (status_indicator s)
     (status_label s) (snapshot_btn s) (timestamp_checkbox s)
     (video_frame s) v (dialogs s) (trace s) (open_sources s)
     (next_handle s) (desktop_path s) (desktop s)
     (desktop_matches s).
Definition set_dialogs (v : list dialog) (s : t) : t :=
   Build (config s) (camera s) (camera_url s) (is_running s)
     (current_frame s) (frame_width s) (frame_height s)
     (previous_status s) (timer s) (status_timer s) (status_indicator s)
     (status_label s) (snapshot_btn s) (timestamp_checkbox s)
     (video_frame s) (ip_combo s) v (trace s) (open_sources s)
     (next_handle s) (desktop_path s) (desktop s)
     (desktop_matches s).
Definition set_trace (v : list io_event) (s : t) : t :=
   Build (config s) (camera s) (camera_url s) (is_running s)
     (current_frame s) (frame_width s) (frame_height s)
     (previous_status s) (timer s) (status_timer s) (status_indicator s)
     (status_label s) (snapshot_btn s) (timestamp_checkbox s)
     (video_frame s) (ip_combo s) (dialogs s) v (open_sources s)
     (next_handle s) (desktop_path s) (desktop s)
     (desktop_matches s).
Definition set_open_sources (v : list nat) (s : t) : t :=
   Build (config s) (camera s) (camera_url s) (is_running s)
     (current_frame s) (frame_width s) (frame_height s)
     (previous_status s) (timer s) (status_timer s) (status_indicator s)
     (status_label s) (snapshot_btn s) (timestamp_checkbox s)
     (video_frame s) (ip_combo s) (dialogs s) (trace s) v (next_handle s)
     (desktop_path s) (desktop s)
     (desktop_matches s).
Definition set_next_handle (v : nat) (s : t) : t :=
   Build (config s) (camera s) (camera_url s) (is_running s)
     (current_frame s) (frame_width s) (frame_height s)
     (previous_status s) (timer s) (status_timer s) (status_indicator s)
     (status_label s) (snapshot_btn s) (timestamp_checkbox s)
     (video_frame s) (ip_combo s) (dialogs s) (trace s) (open_sources s) v
     (desktop_path s) (desktop s)
     (desktop_matches s).
Definition set_desktop (v : list string) (s : t) : t :=
   Build (config s) (camera s) (camera_url s) (is_running s)
     (current_frame s) (frame_width s) (frame_height s)
     (previous_status s) (timer s) (status_timer s) (status_indicator s)
     (status_label s) (snapshot_btn s) (timestamp_checkbox s)
     (video_frame s) (ip_combo s) (dialogs s) (trace s) (open_sources s)
     (next_handle s) (desktop_path s) v (desktop_matches s).

(** *** Widgets, dialogs and the outside world *)

Definition setColor (c : color) (s : t) : t := set_status_indicator c s.
Definition setText (text : string) (s : t) : t := set_status_label text s.
Definition setEnabled (b : bool) (s : t) : t := set_snapshot_btn b s.

Definition emit (e : io_event) (s : t) : t := set_trace (trace s ++ [e]) s.

Definition QMessageBox_critical (title text : string) (s : t) : t :=
  set_dialogs (dialogs s ++ [MessageBox Critical title text]) s.

Definition QMessageBox_warning (title text : string) (s : t) : t :=
  set_dialogs (dialogs s ++ [MessageBox Warning title text]) s.

(** [self.timer.start()] and [self.timer.stop()]. *)
Definition timer_start (s : t) : t := emit EvTimerStart (set_timer true s).
Definition timer_stop (s : t) : t := emit EvTimerStop (set_timer false s).

(** [cv2.VideoCapture(url)] that opens: a fresh source, now open. *)
Definition VideoCapture_opened (url : string) (s : t) : nat * t :=
  let h := next_handle s in
  (h, emit (EvOpen h url)
        (set_open_sources (open_sources s ++ [h])
           (set_next_handle (S h) s))).

(** [cv2.VideoCapture(url)] that does not open. *)
Definition VideoCapture_failed (url : string) (s : t) : t :=
  emit (EvOpenFailed url) s.

(** [camera.read()]: the call itself; its result is an input. *)
Definition camera_read (h : nat) (s : t) : t := emit (EvRead h) s.

(** [camera.release()]. *)
Definition camera_release (h : nat) (s : t) : t :=
  let others := List.filter (λ h', negb (Nat.eqb h' h)) (open_sources s) in
  emit (EvRelease h) (set_open_sources others s).

(** [cv2.imwrite(filepath, img)], with whether the file got written.  A
    file of that name already there is overwritten: the names in the
    directory stay as they are. *)
Definition imwrite (filename : string) (img : image) (written : bool)
    (s : t) : t :=
  let s := emit (EvImwrite (desktop_path s +:+ "/" +:+ filename) img) s in
  if written && negb (existsb (String.eqb filename) (desktop s))
  then set_desktop (desktop s ++ [filename]) s
  else s.

(** *** Methods of [StreamyApp], in source order *)

(** The pixmap conversion and scaling are rendering; the model keeps the
    image that is shown. *)
Definition display_image (img : option image) (s : t) : t :=
  match img with
  | None => s
  | Some _ => set_video_frame img s
  end.

Definition no_connection_image : image :=
  PutText
    (PutText (Zeros 480 640 3) "No camera connected" 180 220)
    "Enter printer IP address and click Connect" 100 260.

Definition show_no_connection_message (s : t) : t :=
  display_image (Some no_connection_image) s.

(** [QComboBox.addItems] wants a list of [str]. *)
Fixpoint str_items (l : list json) : option (list string) :=
  match l with
  | [] => Some []
  | JStr x :: l' => cons x <$> str_items l'
  | _ :: _ => None
  end.

(** The state reached and the exception raised on the way, if any. *)
Definition populate_printer_combobox (s : t) : t * option exn :=
  match PrinterConfig.get_recent_printers (config s) with
  | inl e => (s, Some e)
  | inr recent_printers =>
      let s := set_ip_combo [] s in
      match recent_printers with
      | JArr l =>
          match str_items l with
          | Some items => (set_ip_combo items s, None)
          | None => (s, Some (Raise TypeError "addItems: 'str' is expected"))
          end
      | _ => (s, Some (Raise TypeError "addItems: 'str' is expected"))
      end
  end.

Definition reset_status (s : t) : t :=
  if str_truthy (previous_status s)
  then setText (previous_status s) s
  else s.

Definition show_temporary_status (message : string) (duration_ms : N)
    (s : t) : t :=
  let s := set_previous_status (status_label s) s in
  let s := setText message s in
  let s := match status_timer s with
           | Some _ => set_status_timer None s
           | None => s
           end in
  set_status_timer (Some duration_ms) s.

Definition disconnect_camera (s : t) : t :=
  match camera s with
  | Some h =>
      let s := timer_stop s in
      let s := set_is_running false s in
      let s := camera_release h s in
      let s := set_camera None s in
      let s := set_camera_url None s in
      let s := setColor GRAY s in
      let s := setText "Not connected" s in
      let s := setEnabled false s in
      show_no_connection_message s
  | None => s
  end.

(** The body of the [try] in [connect_to_camera], from the state in
    which [cv2.VideoCapture(rtsp_url)] is called. *)
Definition connect_try (ip_address rtsp_url : string)
    (cap : capture_outcome) (io : save_outcome) (s : t) : t * option exn :=
  match cap with
  | NotOpened =>
      let s := VideoCapture_failed rtsp_url s in
      let s := setColor RED s in
      let s := setText "Not connected" s in
      (QMessageBox_critical "Connection Error"
         ("Could not connect to the camera at " +:+ rtsp_url +:+ "."
          +:+ newline +:+ newline
          +:+ "Please check that the printer is powered on, "
          +:+ "connected to the network, and has the camera enabled.") s,
       None)
  | Opened ret test_frame width height =>
      let '(h, s) := VideoCapture_opened rtsp_url s in
      let s := camera_read h s in
      if negb ret || is_None test_frame then
        let s := setColor YELLOW s in
        let s := setText "Connected but not able to stream" s in
        let s :=
          QMessageBox_critical "Video Error"
            ("Connected to " +:+ rtsp_url
             +:+ " but could not read video frames."
             +:+ newline +:+ newline
             +:+ "Please check that the printer's camera is "
             +:+ "functioning properly.") s in
        (camera_release h s, None)
      else
        let s := setColor GREEN s in
        let s := setText "Connected" s in
        let s := set_frame_width width s in
        let s := set_frame_height height s in
        let s := set_camera (Some h) s in
        let s := set_camera_url (Some rtsp_url) s in
        match PrinterConfig.add_printer ip_address io (config s) with
        | inl e => (s, Some e)
        | inr config' =>
            let s := set_config config' s in
            match populate_printer_combobox s with
            | (s, Some e) => (s, Some e)
            | (s, None) =>
                let s := setEnabled true s in
                let s := set_is_running true s in
                (timer_start s, None)
            end
        end
  end.

(** [text] is [self.ip_combo.currentText()]. *)
Definition connect_to_camera (text : string) (cap : capture_outcome)
    (io : save_outcome) (s : t) : t :=
  let ip_address := strip text in
  if negb (str_truthy ip_address) then
    QMessageBox_critical "Error" "Please enter a printer IP address" s
  else
    let rtsp_url := "rtsp://" +:+ ip_address +:+ ":554/video" in
    let s := setColor YELLOW s in
    let s := setText "Connecting..." s in
    let s := match camera s with
             | Some _ => disconnect_camera s
             | None => s
             end in
    match connect_try ip_address rtsp_url cap io s with
    | (s, None) => s
    | (s, Some e) =>
        let s := setColor RED s in
        let s := setText ("Error: " +:+ exn_str e) s in
        QMessageBox_critical "Error"
          ("An error occurred while trying to connect:"
           +:+ newline +:+ newline +:+ exn_str e) s
    end.

(** [now] is [datetime.now().strftime(...)], [written] whether
    [cv2.imwrite] wrote the file.  Nothing in the [try] block raises, so
    its [except] clause has no counterpart here. *)
Definition take_snapshot (now : string) (written : bool) (s : t) : t :=
  if negb (is_running s) || is_None (current_frame s) then
    QMessageBox_warning "Snapshot Error" "No video stream is active" s
  else
    match current_frame s with
    | Some frame =>
        let snapshot_num :=
          get_next_snapshot_number (desktop_path s) (desktop s)
            (desktop_matches s) in
        let filename := snapshot_filename snapshot_num in
        let snapshot_frame :=
          if timestamp_checkbox s then PutText frame now 10 30 else frame in
        let s := imwrite filename snapshot_frame written s in
        show_temporary_status ("Snapshot saved: " +:+ filename) 5000 s
    | None => s
    end.

(** [ret, frame] is what [camera.read()] returns if it is called.  As in
    [take_snapshot], the [except] clause is not reachable; nor are the
    [None] branches that follow a guard. *)
Definition update_frame (ret : bool) (frame : option image) (now : string)
    (s : t) : t :=
  if negb (is_running s) || is_None (camera s) then s
  else
    match camera s with
    | Some h =>
        let s := camera_read h s in
        if negb ret || is_None frame then
          let s := setColor YELLOW s in
          let s := setText "Connected but not able to stream" s in
          disconnect_camera s
        else
          let s :=
            if negb (color_eqb (status_indicator s) GREEN) then
              setText "Connected" (setColor GREEN s)
            else s in
          let s := set_current_frame frame s in
          display_image ((λ img, PutText img now 10 30) <$> frame) s
    | None => s
    end.

(** [checked] is [state == Qt.Checked]; the box itself has changed
    before the slot runs.  An exception leaves the slot uncaught. *)
Definition timestamp_checkbox_changed (checked : bool) (io : save_outcome)
    (s : t) : result t :=
  let s := set_timestamp_checkbox checked s in
  let! config' := PrinterConfig.set_include_timestamp checked io (config s) in
  inr (set_config config' s).

Definition closeEvent (s : t) : t :=
  match camera s with
  | Some _ => disconnect_camera s
  | None => s
  end.

(** *** The event loop *)

(** [ms] milliseconds pass on the single-shot status timer; when it
    runs out, [reset_status] is called. *)
Definition elapse (ms : N) (s : t) : t :=
  match status_timer s with
  | Some remaining =>
      if (remaining <=? ms)%N then reset_status (set_status_timer None s)
      else set_status_timer (Some (remaining - ms)%N) s
  | None => s
  end.

(** What the event loop can deliver, with the answers of the outside
    world the handler will get. *)
Inductive command :=
| ClickConnect (text : string) (cap : capture_outcome) (io : save_outcome)
| ClickDisconnect
| ClickSnapshot (now : string) (written : bool)
| ToggleTimestamp (checked : bool) (io : save_outcome)
| TimerTimeout (ret : bool) (frame : option image) (now : string)
| Elapse (ms : N)
| CloseWindow.

(** A disabled button delivers no click and a stopped timer no
    timeout. *)
Definition step (c : command) (s : t) : result t :=
  match c with
  | ClickConnect text cap io => inr (connect_to_camera text cap io s)
  | ClickDisconnect => inr (disconnect_camera s)
  | ClickSnapshot now written =>
      inr (if snapshot_btn s then take_snapshot now written s else s)
  | ToggleTimestamp checked io => timestamp_checkbox_changed checked io s
  | TimerTimeout ret frame now =>
      inr (if timer s then update_frame ret frame now s else s)
  | Elapse ms => inr (elapse ms s)
  | CloseWindow => inr (closeEvent s)
  end.

Fixpoint run (cs : list command) (s : t) : result t :=
  match cs with
  | [] => inr s
  | c :: cs' => let! s' := step c s in run cs' s'
  end.

(** The window after [__init__] when no [--ip] argument was given:
    nothing is connected, both timers are idle, the label reads
    [Not connected] and the placeholder image is shown. *)
Definition init (config0 : PrinterConfig.t) (items : list string)
    (checked : bool) (path : string) (files : list string)
    (matches : matched_dirs) : t :=
  {| config := config0; camera := None; camera_url := None;
     is_running := false; current_frame := None;
     frame_width := 640; frame_height := 480;
     previous_status := "Not connected";
     timer := false; status_timer := None;
     status_indicator := GRAY; status_label := "Not connected";
     snapshot_btn := false; timestamp_checkbox := checked;
     video_frame := Some no_connection_image; ip_combo := items;
     dialogs := []; trace := []; open_sources := []; next_handle := 0;
     desktop_path := path; desktop := files;
     desktop_matches := matches |}.

End StreamyApp.

(** ** Notions used in the statements *)

Section ConfigNotions.
Import PrinterConfig.

(** The object built by [PrinterConfig()] when the file is missing. *)
Definition fresh_config : t := Build (JObj default_config) NoFile.

(** [addresses] added one after the other, every save succeeding. *)
Definition add_all (addresses : list string) (p : t) : result t :=
  foldl (λ r ip, let! p := r in add_printer ip SaveOk p) (inr p) addresses.

(** The recent list and the last used address, as lists of JSON values. *)
Definition recent_and_last (r : result t) : option (json * json) :=
  match r with
  | inr p =>
      match get_recent_printers p, get_last_used_printer p with
      | inr l, inr u => Some (l, u)
      | _, _ => None
      end
  | inl _ => None
  end.

End ConfigNotions.

(** The number a path contributes to the list [numbers], if any. *)
Definition path_number (file : string) : option N :=
  re_search file ≫= py_int.

(** [c] does not occur in [p]. *)
Fixpoint free_of (c : ascii) (p : string) : bool :=
  match p with
  | EmptyString => true
  | String a p' => negb (Ascii.eqb a c) && free_of c p'
  end.

(** The number a file name contributes, if any. *)
Definition name_number (name : string) : option N :=
  re_search name ≫= py_int.

(** The numbers found among the names of a directory. *)
Definition snapshot_numbers (listing : list string) : list N :=
  omap name_number (List.filter fnmatch_snapshot listing).

Section AppNotions.
Import StreamyApp.

(** The sources open and whether the frame timer runs, after one more
    call.  [None] is a call out of order: a source opened while another
    is open or while frames are polled, or a read or release of a source
    that is not open. *)
Definition io_step (w : option (list nat * bool)) (e : io_event)
  : option (list nat * bool) :=
  match w with
  | Some (sources, polling) =>
      match e with
      | EvOpen h _ =>
          match sources with
          | [] => if polling then None else Some ([h], polling)
          | _ :: _ => None
          end
      | EvRead h =>
          if existsb (Nat.eqb h) sources then Some (sources, polling)
          else None
      | EvRelease h =>
          if existsb (Nat.eqb h) sources
          then Some (List.filter (λ h', negb (Nat.eqb h' h)) sources, polling)
          else None
      | EvTimerStart => Some (sources, true)
      | EvTimerStop => Some (sources, false)
      | EvOpenFailed _ | EvImwrite _ _ => Some (sources, polling)
      end
  | None => None
  end.

Definition replay (events : list io_event) : option (list nat * bool) :=
  foldl io_step (Some ([], false)) events.

(** What holds between two handlers: the sources open are exactly the
    one in [self.camera], the frame timer runs exactly when [is_running]
    is set, which needs a camera, and the calls made so far were in
    order. *)
Record session_inv (s : t) : Prop := {
  inv_sources : open_sources s = option_list (camera s);
  inv_timer : timer s = is_running s;
  inv_running : is_running s = true → is_Some (camera s);
  inv_trace : replay (trace s) = Some (open_sources s, timer s)
}.

(** Two states with the same session: camera, flags, sources and calls. *)
Definition same_session (s s' : t) : Prop :=
  camera s' = camera s ∧ is_running s' = is_running s ∧ timer s' = timer s
  ∧ open_sources s' = open_sources s ∧ trace s' = trace s.

(** A window on the defaults, with an empty Desktop. *)
Definition fresh_app : t :=
  init (PrinterConfig.Build (JObj PrinterConfig.default_config) NoFile)
    [] true "/home/user/Desktop" [] (MatchedDirs false []).

(** A camera that opens and delivers frame [id] of 640 by 480. *)
Definition good_camera (id : nat) : capture_outcome :=
  Opened true (Some (Captured id)) 640 480.

(** The state a run ends in, or [fresh_app] if it raised. *)
Definition final (r : result t) : t :=
  match r with
  | inr s => s
  | inl _ => fresh_app
  end.

(** Connected to a good camera. *)
Definition connected_app : t :=
  final (run [ClickConnect "10.0.0.5" (good_camera 0) SaveOk] fresh_app).

(** Connected, and one frame shown. *)
Definition streaming_app : t :=
  final (run [TimerTimeout true (Some (Captured 1)) "2024-01-01 00:00:00"]
           connected_app).

(** Two connects and a disconnect. *)
Definition reconnect_events : list command :=
  [ClickConnect "10.0.0.5" (good_camera 0) SaveOk;
   ClickConnect "10.0.0.6" (good_camera 1) SaveOk;
   ClickDisconnect].

(** The message [take_snapshot] shows in state [s]. *)
Definition snapshot_message (s : t) : string :=
  "Snapshot saved: "
  +:+ snapshot_filename
        (get_next_snapshot_number (desktop_path s) (desktop s)
           (desktop_matches s)).

(** Two states with the same pending revert. *)
Definition same_pending (s s' : t) : Prop :=
  status_timer s' = status_timer s ∧ previous_status s' = previous_status s.

(** The reading of C7 on which a real status change wins: once a
    snapshot has been taken and the camera disconnected, the label stays
    [Not connected] however much time passes. *)
Definition status_change_supersedes_revert : Prop :=
  ∀ (s : t) (h : nat) (frame : image) (now : string) (written : bool) (ms : N),
    camera s = Some h → is_running s = true → current_frame s = Some frame →
    status_label (elapse ms (disconnect_camera (take_snapshot now written s)))
    = "Not connected".

(** [connect_to_camera] up to the [try]: the status is set to
    [Connecting...] and a camera still held is disconnected. *)
Definition connect_prepare (s : t) : t :=
  let s := setText "Connecting..." (setColor YELLOW s) in
  match camera s with
  | Some _ => disconnect_camera s
  | None => s
  end.

(** [connect_to_camera] after the [try]: the [except] clause. *)
Definition connect_finish (r : t * option exn) : t :=
  match r with
  | (s, None) => s
  | (s, Some e) =>
      QMessageBox_critical "Error"
        ("An error occurred while trying to connect:"
         +:+ newline +:+ newline +:+ exn_str e)
        (setText ("Error: " +:+ exn_str e) (setColor RED s))
  end.

Definition rtsp_url (ip_address : string) : string :=
  "rtsp://" +:+ ip_address +:+ ":554/video".

(** The calls that tear the session of [s] down. *)
Definition teardown_events (s : t) : list io_event :=
  match camera s with
  | Some h => [EvTimerStop; EvRelease h]
  | None => []
  end.

End AppNotions.

(** ** Further notions: the configuration record *)

Section ConfigLifeNotions.
Import PrinterConfig.

(** The two calls that change the record. *)
Inductive mutation :=
| AddPrinter (ip_address : string)
| SetIncludeTimestamp (value : bool).

Definition mutate (m : mutation) (io : save_outcome) (p : t) : result t :=
  match m with
  | AddPrinter ip_address => add_printer ip_address io p
  | SetIncludeTimestamp value => set_include_timestamp value io p
  end.

(** Does the call reach [save_config]: [add_printer] with an empty address
    does not. *)
Definition saves (m : mutation) : bool :=
  match m with
  | AddPrinter ip_address => str_truthy ip_address
  | SetIncludeTimestamp _ => true
  end.

(** The calls one after the other, every write succeeding. *)
Fixpoint mutate_all (ms : list mutation) (p : t) : result t :=
  match ms with
  | [] => inr p
  | m :: ms' => let! p' := mutate m SaveOk p in mutate_all ms' p'
  end.

(** A dict with every key of the schema. *)
Definition has_schema (d : gmap string json) : Prop :=
  ∀ k, k ∈ default_keys → is_Some (d !! k).

(** The recent list as the program keeps it: strings, no duplicates, at
    most five, and its first entry recorded as last used. *)
Definition recent_wf (p : t) : Prop :=
  ∃ d l,
    config p = JObj d
    ∧ d !! "recent_printers" = Some (JArr l)
    ∧ is_Some (StreamyApp.str_items l)
    ∧ NoDup l
    ∧ (length l ≤ 5)%nat
    ∧ ∀ x, head l = Some x → d !! "last_used_printer" = Some x.

(** In memory and on disk the same dict, with the whole schema. *)
Definition synced_view (p : t) (d : gmap string json) : Prop :=
  config p = JObj d ∧ has_schema d ∧ disk p = Document (JObj d).

(** The record a sequence of calls ends in, or the defaults if one
    raised. *)
Definition final_config (r : result t) : t :=
  match r with
  | inr p => p
  | inl _ => Build (JObj default_config) NoFile
  end.

End ConfigLifeNotions.

(** ** Further notions: snapshot numbers *)

(** The largest of the numbers, 0 when there are none. *)
Definition highest (numbers : list N) : N := foldr N.max 0%N numbers.

(** ** The dependency check *)

(** [required_packages.items()]: package and module name, in the order
    of the dict. *)
Definition required_packages : list (string * string) :=
  [("opencv-python", "cv2"); ("numpy", "numpy"); ("PyQt5", "PyQt5")].

(** How [subprocess.check_call] ends: pip returned 0, or it returned
    something else and [CalledProcessError] is raised. *)
Inductive pip_outcome := PipOk | PipFails.

(** What [check_and_install_dependencies] does besides printing: the
    list it collects, the arguments it passes to [sys.executable] if it
    runs it, and the status of [sys.exit] if it calls it. *)
Record dependency_check := DependencyCheck {
  missing_packages : list string;
  pip_command : option (list string);
  exit_status : option Z
}.

(** One round of the loop.  [found m] is
    [importlib.util.find_spec(m) is not None]. *)
Definition check_package (found : string → bool)
    (missing_packages : list string) (item : string * string) : list string :=
  let '(package, module_name) := item in
  if String.eqb module_name "cv2" then
    if negb (found "cv2") then missing_packages ++ [package]
    else missing_packages
  else
    if negb (found module_name) then missing_packages ++ [package]
    else missing_packages.

Definition check_and_install_dependencies (found : string → bool)
    (pip : pip_outcome) : dependency_check :=
  let missing_packages := foldl (check_package found) [] required_packages in
  match missing_packages with
  | _ :: _ =>
      let command := ["-m"; "pip"; "install"] ++ missing_packages in
      match pip with
      | PipOk => DependencyCheck missing_packages (Some command) None
      | PipFails => DependencyCheck missing_packages (Some command) (Some 1%Z)
      end
  | [] => DependencyCheck missing_packages None None
  end.

(** ** Further notions: the window *)

Section WindowNotions.
Import StreamyApp.

(** The Snapshot button is enabled, and the indicator green, exactly
    while [is_running] is set. *)
Definition ui_inv (s : t) : Prop :=
  snapshot_btn s = is_running s
  ∧ color_eqb (status_indicator s) GREEN = is_running s.

(** Neither the label nor the text recorded for the revert is empty. *)
Definition labels_inv (s : t) : Prop :=
  status_label s ≠ "" ∧ previous_status s ≠ "".

(** The check box shows what the record holds. *)
Definition flag_inv (s : t) : Prop :=
  PrinterConfig.get_include_timestamp (config s)
  = inr (JBool (timestamp_checkbox s)).

End WindowNotions.

(** ** Further notions: snapshots and frames *)

Section FrameNotions.
Import StreamyApp.


(** The warning of [take_snapshot]. *)
Definition no_stream_warning : dialog :=
  MessageBox Warning "Snapshot Error" "No video stream is active".

(** The events whose handler never opens a message box. *)
Definition silent (c : command) : bool :=
  match c with
  | ClickConnect _ _ _ | ClickSnapshot _ _ => false
  | _ => true
  end.

(** A timer event that delivers a frame. *)
Definition delivers_frame (c : command) : bool :=
  match c with
  | TimerTimeout true (Some _) _ => true
  | _ => false
  end.

End FrameNotions.

(** ** Further notions: connecting and closing *)

Section ConnectNotions.
Import StreamyApp.

(** The source opened and the first read gave a frame. *)
Definition first_frame_read (cap : capture_outcome) : bool :=
  match cap with
  | Opened true (Some _) _ _ => true
  | _ => false
  end.

(** What [save_config] leaves on disk, given the record [c] to write and
    the file [f] as it was. *)
Definition disk_after (io : save_outcome) (c : json) (f : file_state)
  : file_state :=
  match io with
  | SaveOk => Document c
  | SaveOpenFails => f
  | SaveWriteFails => Malformed
  end.

End ConnectNotions.

(** ** Further notions: a record the connect can use *)

Section RecordNotions.
Import StreamyApp.

(** The record is a dict whose recent list is a list and, once
    [ip_address] has been moved to the front and the list cut to five,
    a list of strings. *)
Definition usable_record (ip_address : string) (p : PrinterConfig.t)
  : Prop :=
  ∃ d l,
    PrinterConfig.config p = JObj d
    ∧ d !! "recent_printers" = Some (JArr l)
    ∧ is_Some (str_items (take 5 (JStr ip_address
                                    :: remove_first ip_address l))).


End RecordNotions.

(** * Properties *)

(** ** Text *)

Section Text.

Lemma str_truthy_false (s : string) : str_truthy s = false ↔ s = "".
Proof. destruct s; simpl; split; congruence. Qed.

Lemma str_truthy_true (s : string) : str_truthy s = true ↔ s ≠ "".
Proof. destruct s; simpl; split; congruence. Qed.

Lemma lstrip_all_space (s : string) : all_space s = true → lstrip s = "".
Proof.
  induction s as [|c s IH]; simpl; [done|].
  destruct (isspace c); simpl; [exact IH | discriminate].
Qed.

Lemma rstrip_all_space (s : string) : all_space s = true → rstrip s = "".
Proof.
  induction s as [|c s IH]; simpl; [done|].
  destruct (isspace c); simpl; [|discriminate].
  intros H. by rewrite (IH H).
Qed.

Lemma rstrip_empty (s : string) : rstrip s = "" → all_space s = true.
Proof.
  induction s as [|c s IH]; simpl; [done|].
  destruct (rstrip s); [|discriminate].
  destruct (isspace c); [|discriminate]. intros _. by apply IH.
Qed.

Lemma lstrip_split (s : string) :
  ∃ l, s = l +:+ lstrip s ∧ all_space l = true.
Proof.
  induction s as [|c s [l [Hs Hl]]]; simpl.
  - by exists "".
  - destruct (isspace c) eqn:Hc.
    + exists (String c l). split.
      * change (String c s = String c (l +:+ lstrip s)). by f_equal.
      * simpl. by rewrite Hc, Hl.
    + by exists "".
Qed.

Lemma rstrip_split (s : string) :
  ∃ r, s = rstrip s +:+ r ∧ all_space r = true.
Proof.
  induction s as [|c s [r [Hs Hr]]]; simpl.
  - by exists "".
  - destruct (rstrip s) as [|d u] eqn:Hu.
    + destruct (isspace c) eqn:Hc.
      * exists (String c s). split; [done|].
        simpl. rewrite Hc. by apply rstrip_empty.
      * exists r. split; [|done].
        change (String c s = String c ("" +:+ r)). by f_equal.
    + exists r. split; [|done].
      change (String c s = String c (String d u +:+ r)). by f_equal.
Qed.

Lemma lstrip_head (s : string) c u :
  lstrip s = String c u → isspace c = false.
Proof.
  induction s as [|a s IH]; simpl; [done|].
  destruct (isspace a) eqn:Ha; [exact IH|]. congruence.
Qed.

Lemma rstrip_head (s : string) c u :
  rstrip s = String c u → ∃ v, s = String c v.
Proof.
  destruct s as [|a s]; simpl; [done|].
  destruct (rstrip s); [destruct (isspace a)|]; intros; simplify_eq; eauto.
Qed.

(** What is left of a text without leading whitespace still has none. *)
Lemma strip_head (s : string) c u : strip s = String c u → isspace c = false.
Proof.
  unfold strip. intros H.
  destruct (rstrip_head _ _ _ H) as [v Hv]. by apply lstrip_head in Hv.
Qed.

Lemma rstrip_idem (s : string) : rstrip (rstrip s) = rstrip s.
Proof.
  induction s as [|c s IH]; simpl; [done|].
  destruct (rstrip s) as [|d u] eqn:Hu.
  - destruct (isspace c) eqn:Hc; simpl; [done|]. by rewrite Hc.
  - simpl in *. by rewrite IH.
Qed.

Lemma lstrip_fixed (s : string) :
  (∀ c u, s = String c u → isspace c = false) → lstrip s = s.
Proof.
  destruct s as [|c u]; simpl; [done|].
  intros H. by rewrite (H c u eq_refl).
Qed.

Lemma strip_idem (s : string) : strip (strip s) = strip s.
Proof.
  unfold strip at 1. rewrite lstrip_fixed.
  - apply rstrip_idem.
  - intros c u. apply strip_head.
Qed.

Lemma strip_all_space (s : string) : all_space s = true → strip s = "".
Proof. intros H. unfold strip. by rewrite lstrip_all_space. Qed.

(** [strip] cuts whitespace off both ends and nothing else. *)
Lemma strip_split (s : string) :
  ∃ l r,
    s = l +:+ strip s +:+ r ∧ all_space l = true ∧ all_space r = true.
Proof.
  destruct (lstrip_split s) as [l [Hs Hl]].
  destruct (rstrip_split (lstrip s)) as [r [Hm Hr]].
  exists l, r. unfold strip. by rewrite <- Hm.
Qed.

End Text.

(** ** The configuration record *)

Section Config.
Import PrinterConfig.

Lemma default_config_lookup (k : string) :
  default_config !! k =
    if decide (k = "recent_printers") then Some (JArr [])
    else if decide (k = "last_used_printer") then Some (JStr "")
    else if decide (k = "include_timestamp") then Some (JBool true)
    else None.
Proof.
  unfold default_config.
  repeat case_decide; subst; simplify_map_eq; done.
Qed.

Lemma default_keys_spec (k : string) :
  k ∈ default_keys ↔ is_Some (default_config !! k).
Proof.
  rewrite default_config_lookup. unfold default_keys.
  rewrite !elem_of_cons, elem_of_nil.
  repeat case_decide; subst; split;
    try (intros _; by eexists); try tauto.
  all: intros [? ?]; discriminate.
Qed.

(** One round of the loop on a dict: a missing key gets its default. *)
Lemma ensure_key_dict (d : gmap string json) (key : string) (v : json) :
  default_config !! key = Some v →
  ensure_key (inr (JObj d)) key =
    inr (JObj (if d !! key is Some _ then d else <[key := v]> d)).
Proof.
  intros Hv. unfold ensure_key; simpl. rewrite Hv.
  by destruct (d !! key).
Qed.

(** The loop on a dict is the left-biased union with the defaults. *)
Lemma load_config_dict (d : gmap string json) :
  load_config (Document (JObj d)) = inr (JObj (d ∪ default_config)).
Proof.
  unfold load_config, load_config_try, default_keys. cbn [foldl].
  rewrite (ensure_key_dict d _ (JArr [])) by done.
  rewrite (ensure_key_dict _ _ (JStr "")) by done.
  rewrite (ensure_key_dict _ _ (JBool true)) by done.
  do 2 f_equal. apply map_eq. intros k.
  rewrite lookup_union, default_config_lookup.
  destruct (d !! "recent_printers") eqn:H1;
    destruct (d !! "last_used_printer") eqn:H2;
    destruct (d !! "include_timestamp") eqn:H3.
  all: repeat (rewrite ?lookup_insert_ne by done;
               rewrite ?H1, ?H2, ?H3; cbn match).
  all: repeat (rewrite lookup_insert; repeat case_decide; subst;
               rewrite ?H1, ?H2, ?H3; try done).
  all: repeat case_decide; subst; rewrite ?H1, ?H2, ?H3; try done.
  all: by destruct (d !! k).
Qed.

(** On a document that is no dict the loop raises at the first key it
    misses; if it misses none the document itself is returned. *)
Lemma ensure_key_not_dict (c : json) (key : string) :
  (∀ d, c ≠ JObj d) →
  ensure_key (inr c) key = inr c ∨ ∃ e, ensure_key (inr c) key = inl e.
Proof.
  intros Hc. unfold ensure_key. cbn [bind].
  destruct c as [| | | |s|l|d]; cbn [py_in bind]; try (right; by eexists).
  - destruct (str_contains key s); [by left|].
    destruct (py_getitem (JObj default_config) key); right; by eexists.
  - destruct (existsb (eq_str key) l); [by left|].
    destruct (py_getitem (JObj default_config) key); right; by eexists.
  - by destruct (Hc d).
Qed.

Lemma ensure_key_raised (e : exn) (key : string) :
  ensure_key (inl e) key = inl e.
Proof. done. Qed.

Lemma load_config_not_dict (doc : json) :
  (∀ d, doc ≠ JObj d) →
  load_config (Document doc) = inr (JObj default_config)
  ∨ load_config (Document doc) = inr doc.
Proof.
  intros Hdoc. unfold load_config, load_config_try, default_keys.
  cbn [foldl].
  destruct (ensure_key_not_dict doc "recent_printers" Hdoc) as [->|[e ->]];
    [|rewrite !ensure_key_raised; by left].
  destruct (ensure_key_not_dict doc "last_used_printer" Hdoc) as [->|[e ->]];
    [|rewrite !ensure_key_raised; by left].
  destruct (ensure_key_not_dict doc "include_timestamp" Hdoc) as [->|[e ->]];
    [by right | by left].
Qed.

Lemma load_config_returns (f : file_state) : ∃ c, load_config f = inr c.
Proof.
  unfold load_config.
  destruct f; try destruct (load_config_try _); eauto.
Qed.

Lemma union_default_lookup (d : gmap string json) (k : string) :
  (d ∪ default_config) !! k =
    match d !! k with
    | Some v => Some v
    | None => default_config !! k
    end.
Proof.
  rewrite lookup_union. destruct (d !! k), (default_config !! k); done.
Qed.

Lemma union_default_outside (d : gmap string json) (k : string) :
  k ∉ default_keys → (d ∪ default_config) !! k = d !! k.
Proof.
  rewrite default_keys_spec, union_default_lookup. intros H.
  destruct (d !! k); [done|].
  destruct (default_config !! k) eqn:E; [|done]. destruct H. by eexists.
Qed.

Lemma remove_first_absent (ip : string) (l : list json) :
  existsb (eq_str ip) l = false → remove_first ip l = l.
Proof.
  induction l as [|x l IH]; simpl; [done|].
  destruct (eq_str ip x); simpl; [discriminate|].
  intros H. by rewrite IH.
Qed.

Lemma remove_first_split (ip : string) (l1 l2 : list json) :
  existsb (eq_str ip) l1 = false →
  remove_first ip (l1 ++ JStr ip :: l2) = l1 ++ l2.
Proof.
  induction l1 as [|x l1 IH]; simpl.
  - by rewrite String.eqb_refl.
  - destruct (eq_str ip x); simpl; [discriminate|].
    intros H. by rewrite IH.
Qed.

Lemma eq_str_true (ip : string) (x : json) : eq_str ip x = true ↔ x = JStr ip.
Proof.
  destruct x; simpl; split; try discriminate.
  - intros H. apply String.eqb_eq in H. by subst.
  - intros [= ->]. apply String.eqb_refl.
Qed.

Lemma existsb_eq_str (ip : string) (l : list json) :
  existsb (eq_str ip) l = true ↔ JStr ip ∈ l.
Proof.
  rewrite existsb_exists. split.
  - intros (x & Hx & E). apply eq_str_true in E as ->. by apply list_elem_of_In.
  - intros H. exists (JStr ip). split; [by apply list_elem_of_In|].
    by apply eq_str_true.
Qed.

Lemma remove_first_subset (ip : string) (l : list json) (x : json) :
  x ∈ remove_first ip l → x ∈ l.
Proof.
  induction l as [|y l IH]; simpl; [done|].
  destruct (eq_str ip y); rewrite !elem_of_cons; [by right|].
  intros [->|H]; [by left | right; by apply IH].
Qed.

(** On a list without duplicates no equal entry is left. *)
Lemma remove_first_NoDup (ip : string) (l : list json) :
  NoDup l → (JStr ip ∉ remove_first ip l) ∧ NoDup (remove_first ip l).
Proof.
  induction 1 as [|x l Hx Hl IH]; simpl.
  - split; [apply not_elem_of_nil | constructor].
  - destruct (eq_str ip x) eqn:E.
    + apply eq_str_true in E as ->. done.
    + destruct IH as [IH1 IH2]. split.
      * rewrite elem_of_cons. intros [<-|?]; [|done].
        simpl in E. by rewrite String.eqb_refl in E.
      * constructor; [|done]. intros ?. by apply Hx, (remove_first_subset ip).
Qed.

Lemma add_printer_empty (io : save_outcome) (p : t) :
  add_printer "" io p = inr p.
Proof. done. Qed.

Lemma add_printer_list (ip : string) (io : save_outcome)
    (d : gmap string json) (l : list json) (f : file_state) :
  ip ≠ "" →
  d !! "recent_printers" = Some (JArr l) →
  add_printer ip io (Build (JObj d) f) =
    inr (save_config io
           (Build
              (JObj (<["last_used_printer" := JStr ip]>
                       (<["recent_printers" :=
                            JArr (take 5 (JStr ip :: remove_first ip l))]> d)))
              f)).
Proof.
  intros Hip Hl. apply str_truthy_true in Hip.
  unfold add_printer. rewrite Hip. simpl. rewrite Hl. simpl.
  destruct (existsb (eq_str ip) l) eqn:E; simpl; [done|].
  by rewrite remove_first_absent.
Qed.

End Config.

Section ConfigClaims.
Import PrinterConfig.

(** C5. [add_printer] with an empty address changes nothing.  With a
    non-empty address and a recent list [l] it removes the first entry equal
    to the address (the only one when [l] has no duplicates), puts the
    address in front, keeps the first five, records the address as last used
    and saves.  Adding 10.0.0.5, 10.0.0.6, 10.0.0.5 gives [10.0.0.5;
    10.0.0.6] with 10.0.0.5 last used, and a new address added to five
    others drops the oldest and leaves five. *)
Theorem add_printer_recent_list (ip : string) (io : save_outcome)
    (d : gmap string json) (l : list json) (f : file_state) :
  ip ≠ "" →
  d !! "recent_printers" = Some (JArr l) →
  let recent := take 5 (JStr ip :: remove_first ip l) in
  (∀ p, add_printer "" io p = inr p)
  ∧ add_printer ip io (Build (JObj d) f) =
      inr (save_config io
             (Build (JObj (<["last_used_printer" := JStr ip]>
                             (<["recent_printers" := JArr recent]> d))) f))
  ∧ (existsb (eq_str ip) l = false → remove_first ip l = l)
  ∧ (∀ l1 l2, l = l1 ++ JStr ip :: l2 → existsb (eq_str ip) l1 = false →
       remove_first ip l = l1 ++ l2)
  ∧ (NoDup l → (JStr ip ∉ remove_first ip l) ∧ NoDup recent)
  ∧ (length recent ≤ 5)%nat
  ∧ head recent = Some (JStr ip)
  ∧ (length l = 5 → existsb (eq_str ip) l = false →
       recent = JStr ip :: take 4 l ∧ length recent = 5)
  ∧ recent_and_last
      (add_all ["10.0.0.5"; "10.0.0.6"; "10.0.0.5"] fresh_config)
      = Some (JArr [JStr "10.0.0.5"; JStr "10.0.0.6"], JStr "10.0.0.5")
  ∧ recent_and_last
      (add_all ["10.0.0.1"; "10.0.0.2"; "10.0.0.3"; "10.0.0.4"; "10.0.0.5";
                "10.0.0.6"] fresh_config)
      = Some (JArr [JStr "10.0.0.6"; JStr "10.0.0.5"; JStr "10.0.0.4";
                    JStr "10.0.0.3"; JStr "10.0.0.2"], JStr "10.0.0.6").
Proof.
  intros Hip Hl recent. split_and!; try done.
  - by apply add_printer_list.
  - apply remove_first_absent.
  - intros l1 l2 -> H. by apply remove_first_split.
  - intros H. split; [by apply remove_first_NoDup|].
    eapply sublist_NoDup; [|apply sublist_take].
    constructor; by apply remove_first_NoDup.
  - subst recent. rewrite length_take. lia.
  - intros H5 Hne. subst recent. rewrite remove_first_absent by done.
    split; [done|]. simpl. rewrite length_take. lia.
Qed.

Lemma add_printer_recent_list_witness :
  "10.0.0.7" ≠ "" ∧
  default_config !! "recent_printers" = Some (JArr []) ∧
  add_printer "10.0.0.7" SaveOk fresh_config =
    inr (save_config SaveOk
           (Build (JObj (<["last_used_printer" := JStr "10.0.0.7"]>
                           (<["recent_printers" := JArr [JStr "10.0.0.7"]]>
                              default_config))) NoFile)).
Proof.
  assert (H1 : "10.0.0.7" ≠ "") by discriminate.
  assert (H2 : default_config !! "recent_printers" = Some (JArr []))
    by reflexivity.
  split; [exact H1 | split; [exact H2|]].
  exact (proj1 (proj2
    (add_printer_recent_list "10.0.0.7" SaveOk default_config [] NoFile
       H1 H2))).
Defined.

(** C6. [load_config] always returns.  A missing file, a file that cannot
    be read and a text that does not parse give the defaults: an empty
    recent list, an empty last used address, timestamps included.  A
    document that is an object keeps each key it has and gets each missing
    key of the schema from the defaults, and nothing else.  A document
    that is no object gives the defaults too, unless it is a string or a
    list in which Python's [in] finds all three keys. *)
Theorem load_config_defaults_backfill :
  (∀ f, ∃ c, load_config f = inr c)
  ∧ load_config NoFile = inr (JObj default_config)
  ∧ load_config Unreadable = inr (JObj default_config)
  ∧ load_config Malformed = inr (JObj default_config)
  ∧ default_config !! "recent_printers" = Some (JArr [])
  ∧ default_config !! "last_used_printer" = Some (JStr "")
  ∧ default_config !! "include_timestamp" = Some (JBool true)
  ∧ (∀ k, is_Some (default_config !! k) ↔ k ∈ default_keys)
  ∧ (∀ doc,
       (∀ d, doc ≠ JObj d) →
       load_config (Document doc) = inr (JObj default_config)
       ∨ load_config (Document doc) = inr doc)
  ∧ ∀ d : gmap string json,
      ∃ d', load_config (Document (JObj d)) = inr (JObj d')
            ∧ ∀ k, d' !! k = match d !! k with
                             | Some v => Some v
                             | None => default_config !! k
                             end.
Proof.
  split_and!; try done.
  - apply load_config_returns.
  - intros k. by rewrite default_keys_spec.
  - apply load_config_not_dict.
  - intros d. exists (d ∪ default_config). split.
    + apply load_config_dict.
    + apply union_default_lookup.
Qed.

(** C10. Keys outside the schema survive.  Loading an object keeps every
    key it has and adds only schema keys; saving writes the whole dict;
    loading what was saved gives the same dict back; and after
    [set_include_timestamp] or [add_printer] the dict, and the file once
    saved, still hold the value the document had for any key outside the
    schema. *)
Theorem unknown_keys_preserved (d : gmap string json) (k : string) :
  k ∉ default_keys →
  ∃ d', init (Document (JObj d)) = inr (Build (JObj d') (Document (JObj d)))
    ∧ (∀ k' v, d !! k' = Some v → d' !! k' = Some v)
    ∧ (∀ k', k' ∉ default_keys → d' !! k' = d !! k')
    ∧ (∀ c f, save_config SaveOk (Build c f) = Build c (Document c))
    ∧ load_config (Document (JObj d')) = inr (JObj d')
    ∧ (∀ value f, ∃ d2,
         set_include_timestamp value SaveOk (Build (JObj d') f)
           = inr (Build (JObj d2) (Document (JObj d2)))
         ∧ d2 !! k = d !! k)
    ∧ (∀ ip f p, add_printer ip SaveOk (Build (JObj d') f) = inr p →
         ∃ d3, config p = JObj d3
               ∧ d3 !! k = d !! k
               ∧ (ip ≠ "" → disk p = Document (JObj d3))).
Proof.
  intros Hk. exists (d ∪ default_config).
  assert (Hk1 : k ≠ "recent_printers") by (intros ->; apply Hk; set_solver).
  assert (Hk2 : k ≠ "last_used_printer") by (intros ->; apply Hk; set_solver).
  assert (Hk3 : k ≠ "include_timestamp") by (intros ->; apply Hk; set_solver).
  split_and!; try done.
  - unfold init. by rewrite load_config_dict.
  - intros k' v H. by rewrite union_default_lookup, H.
  - apply union_default_outside.
  - rewrite load_config_dict. do 2 f_equal.
    apply map_eq. intros k'. rewrite !union_default_lookup.
    by destruct (d !! k'), (default_config !! k').
  - intros value f. eexists. split; [reflexivity|].
    rewrite lookup_insert_ne by done. by apply union_default_outside.
  - intros ip f p. destruct (decide (ip = "")) as [->|Hip].
    + intros [= <-]. eexists. split; [done|]. split; [|done].
      by apply union_default_outside.
    + unfold add_printer. rewrite (proj2 (str_truthy_true ip) Hip). simpl.
      destruct ((d ∪ default_config) !! "recent_printers") as [r|]; [|done].
      simpl. destruct r as [| | | |s|l|m]; simpl; try done.
      * destruct (str_contains ip s); done.
      * destruct (existsb (eq_str ip) l); simpl; intros [= <-];
          (eexists; split; [done|]; split; [|done]);
          rewrite !lookup_insert_ne by done; by apply union_default_outside.
      * destruct (bool_decide _); done.
Qed.

Lemma unknown_keys_preserved_witness :
  ("theme" ∉ default_keys) ∧
  ∃ d', init (Document (JObj {["theme" := JStr "dark"]}))
          = inr (Build (JObj d') (Document (JObj {["theme" := JStr "dark"]})))
        ∧ d' !! "theme" = Some (JStr "dark").
Proof.
  assert (H : "theme" ∉ default_keys).
  { unfold default_keys. rewrite !elem_of_cons, elem_of_nil.
    intros [?|[?|[?|[]]]]; discriminate. }
  split; [exact H|].
  destruct (unknown_keys_preserved {["theme" := JStr "dark"]} "theme" H)
    as (d' & Hinit & Hkeep & _).
  exists d'. split; [exact Hinit|]. apply Hkeep. reflexivity.
Defined.

End ConfigClaims.

(** ** Snapshot numbering *)

Section Snapshots.

Lemma collect_number_spec (numbers : list N) (file : string) :
  collect_number numbers file = numbers ++ option_list (path_number file).
Proof.
  unfold collect_number, path_number.
  destruct (re_search file) as [g|]; simpl; [|by rewrite app_nil_r].
  destruct (py_int g); simpl; [done | by rewrite app_nil_r].
Qed.

Lemma collect_numbers_spec (files : list string) (numbers : list N) :
  foldl collect_number numbers files = numbers ++ omap path_number files.
Proof.
  revert numbers. induction files as [|file files IH]; intros numbers; simpl.
  - by rewrite app_nil_r.
  - rewrite IH, collect_number_spec, <- app_assoc. f_equal.
    by destruct (path_number file).
Qed.

Lemma py_max_ge_first (others : list N) (first : N) :
  (first ≤ py_max first others)%N.
Proof.
  unfold py_max. revert first.
  induction others as [|x others IH]; intros first; simpl; [lia|].
  specialize (IH (N.max first x)). lia.
Qed.

Lemma py_max_upper (others : list N) (first n : N) :
  n ∈ first :: others → (n ≤ py_max first others)%N.
Proof.
  unfold py_max. revert first.
  induction others as [|x others IH]; intros first; simpl.
  - rewrite elem_of_cons, elem_of_nil. intros [Hn|[]]. lia.
  - rewrite !elem_of_cons. intros [Hn|[Hn|H]].
    + pose proof (py_max_ge_first others (N.max first x)) as Hge.
      unfold py_max in Hge. lia.
    + pose proof (py_max_ge_first others (N.max first x)) as Hge.
      unfold py_max in Hge. lia.
    + apply IH. rewrite elem_of_cons. by right.
Qed.

Lemma py_max_attained (others : list N) (first : N) :
  py_max first others ∈ first :: others.
Proof.
  unfold py_max. revert first.
  induction others as [|x others IH]; intros first; simpl.
  - rewrite elem_of_cons. by left.
  - specialize (IH (N.max first x)). rewrite !elem_of_cons in *.
    destruct IH as [IH|IH]; [|by right; right].
    rewrite IH. destruct (N.max_spec first x) as [[_ ->]|[_ ->]]; auto.
Qed.

(** The next number, in terms of the numbers found. *)
Lemma get_next_snapshot_number_spec (desktop_path : string)
    (listing : list string) (matches : matched_dirs) :
  get_next_snapshot_number desktop_path listing matches =
    match omap path_number (existing_files desktop_path listing matches) with
    | [] => 1%N
    | first :: others => (py_max first others + 1)%N
    end.
Proof.
  unfold get_next_snapshot_number. cbv zeta.
  rewrite collect_numbers_spec. simpl.
  by destruct (existing_files desktop_path listing matches).
Qed.

(** Without magic characters in its path, only the directory itself is
    looked into. *)
Lemma existing_files_literal (p : string) (listing : list string)
    (matches : matched_dirs) :
  has_magic p = false →
  existing_files p listing matches = glob_in_dir (p, listing).
Proof.
  intros H. unfold existing_files, glob_dirs. rewrite H. simpl.
  by rewrite app_nil_r.
Qed.

(** *** Decimal formatting *)

Lemma list_ascii_app (a b : string) :
  list_ascii_of_string (a +:+ b)
  = list_ascii_of_string a ++ list_ascii_of_string b.
Proof. induction a as [|c a IH]; simpl; [done | by rewrite IH]. Qed.

Lemma length_append (a b : string) :
  String.length (a +:+ b) = (String.length a + String.length b)%nat.
Proof. induction a as [|c a IH]; simpl; [done | by rewrite IH]. Qed.

Lemma length_zeros (k : nat) : String.length (zeros k) = k.
Proof. induction k as [|k IH]; simpl; [done | by rewrite IH]. Qed.

Lemma zeros_digits (k : nat) :
  forallb isdigit (list_ascii_of_string (zeros k)) = true.
Proof. induction k as [|k IH]; simpl; [done | exact IH]. Qed.

Lemma string_of_uint_digits (d : Decimal.uint) :
  forallb isdigit (list_ascii_of_string (NilEmpty.string_of_uint d)) = true.
Proof. induction d; simpl; done. Qed.

Lemma length_string_of_uint (d : Decimal.uint) :
  String.length (NilEmpty.string_of_uint d) = Decimal.nb_digits d.
Proof. induction d; simpl; by rewrite ?IHd. Qed.

Lemma to_uint_nonnil (n : N) : N.to_uint n ≠ Decimal.Nil.
Proof.
  destruct n as [|p]; simpl; [done|].
  apply DecimalPos.Unsigned.to_uint_nonnil.
Qed.

Lemma decimal_nonempty (n : N) : str_truthy (decimal n) = true.
Proof.
  unfold decimal. pose proof (to_uint_nonnil n) as H.
  by destruct (N.to_uint n).
Qed.

Lemma decimal_digits (n : N) :
  forallb isdigit (list_ascii_of_string (decimal n)) = true.
Proof. apply string_of_uint_digits. Qed.

Lemma uint_of_zeros (k : nat) (s : string) (d : Decimal.uint) :
  NilEmpty.uint_of_string s = Some d →
  NilEmpty.uint_of_string (zeros k +:+ s) = Some (Nat.iter k Decimal.D0 d).
Proof.
  intros H. induction k as [|k IH]; simpl; [done|]. by rewrite IH.
Qed.

Lemma of_uint_zeros (k : nat) (d : Decimal.uint) :
  N.of_uint (Nat.iter k Decimal.D0 d) = N.of_uint d.
Proof. induction k as [|k IH]; simpl; [done | exact IH]. Qed.

(** Padding loses nothing: the digits read back as the number. *)
Lemma py_int_format_04d (n : N) : py_int (format_04d n) = Some n.
Proof.
  unfold py_int, format_04d.
  rewrite list_ascii_app, forallb_app, zeros_digits, decimal_digits.
  assert (Ht : str_truthy (zeros (4 - String.length (decimal n)) +:+ decimal n)
               = true).
  { pose proof (decimal_nonempty n) as H.
    destruct (zeros _); simpl; [exact H | done]. }
  rewrite Ht. simpl.
  rewrite (uint_of_zeros _ _ (N.to_uint n)) by apply NilEmpty.usu.
  simpl. by rewrite of_uint_zeros, DecimalN.Unsigned.of_to.
Qed.

Lemma length_format_04d (n : N) :
  String.length (format_04d n) = (4 `max` String.length (decimal n))%nat.
Proof. unfold format_04d. rewrite length_append, length_zeros. lia. Qed.

(** A number read from [k] digits is below [10 ^ k]. *)
Lemma of_uint_acc_bound (d : Decimal.uint) (acc : positive) :
  (N.pos (Pos.of_uint_acc d acc)
   < (N.pos acc + 1) * 10 ^ N.of_nat (Decimal.nb_digits d))%N.
Proof.
  revert acc.
  induction d as [|d IH|d IH|d IH|d IH|d IH|d IH|d IH|d IH|d IH|d IH];
    intros acc; cbn [Pos.of_uint_acc Decimal.nb_digits];
    [rewrite N.pow_0_r; lia|..];
    (eapply N.lt_le_trans; [apply IH|]);
    rewrite Nat2N.inj_succ, N.pow_succ_r';
    rewrite <- ?Pos.mul_xO_r, ?Pos.mul_1_r; nia.
Qed.

Lemma of_uint_bound (d : Decimal.uint) :
  (N.of_uint d < 10 ^ N.of_nat (Decimal.nb_digits d))%N.
Proof.
  unfold N.of_uint.
  induction d as [|d IH|d IH|d IH|d IH|d IH|d IH|d IH|d IH|d IH|d IH];
    cbn [Pos.of_uint Decimal.nb_digits];
    rewrite ?Nat2N.inj_succ, ?N.pow_succ_r'; [simpl; lia | lia |..];
    (eapply N.lt_le_trans; [apply of_uint_acc_bound|]); nia.
Qed.

Lemma of_uint_acc_lower (d : Decimal.uint) (acc : positive) :
  (N.pos acc * 10 ^ N.of_nat (Decimal.nb_digits d)
   ≤ N.pos (Pos.of_uint_acc d acc))%N.
Proof.
  revert acc.
  induction d as [|d IH|d IH|d IH|d IH|d IH|d IH|d IH|d IH|d IH|d IH];
    intros acc; cbn [Pos.of_uint_acc Decimal.nb_digits];
    [rewrite N.pow_0_r; lia|..];
    (eapply N.le_trans; [|apply IH]);
    rewrite Nat2N.inj_succ, N.pow_succ_r';
    rewrite <- ?Pos.mul_xO_r, ?Pos.mul_1_r; nia.
Qed.

(** A positive number printed with [k] digits is at least [10 ^ (k - 1)]. *)
Lemma to_uint_lower (p : positive) :
  (10 ^ N.of_nat (Decimal.nb_digits (Pos.to_uint p) - 1) ≤ N.pos p)%N.
Proof.
  pose proof (DecimalPos.Unsigned.of_to p) as Hof.
  pose proof (DecimalPos.Unsigned.to_of (Pos.to_uint p)) as Hto.
  rewrite Hof in Hto. simpl in Hto.
  destruct (Pos.to_uint p) as [|d|d|d|d|d|d|d|d|d|d] eqn:E;
    cbn [Pos.of_uint] in Hof; try discriminate Hof.
  1: { exfalso. unfold Decimal.unorm in Hto. cbn [Decimal.nzhead] in Hto.
       pose proof (DecimalFacts.nb_digits_nzhead d) as Hle.
       destruct (Decimal.nzhead d) eqn:Ez;
         try (rewrite <- Hto in Hle; cbn [Decimal.nb_digits] in Hle; lia).
       injection Hto as Hd. subst d. discriminate Hof. }
  all: injection Hof as <-;
    cbn [Decimal.nb_digits]; rewrite Nat.sub_1_r, Nat.pred_succ;
    (eapply N.le_trans; [|apply of_uint_acc_lower]); lia.
Qed.

Lemma length_decimal (n : N) :
  String.length (decimal n) = Decimal.nb_digits (N.to_uint n).
Proof. apply length_string_of_uint. Qed.

Lemma length_decimal_small (n : N) :
  (n < 10000)%N → (String.length (decimal n) ≤ 4)%nat.
Proof.
  intros Hn. rewrite length_decimal. destruct n as [|p]; simpl; [lia|].
  pose proof (to_uint_lower p) as Hlow.
  destruct (decide (Decimal.nb_digits (Pos.to_uint p) ≤ 4)%nat) as [|Hgt];
    [done|].
  assert (10 ^ 4 ≤ 10 ^ N.of_nat (Decimal.nb_digits (Pos.to_uint p) - 1))%N
    by (apply N.pow_le_mono_r; lia).
  change (10 ^ 4)%N with 10000%N in *. lia.
Qed.

Lemma length_decimal_large (n : N) :
  (10000 ≤ n)%N → (5 ≤ String.length (decimal n))%nat.
Proof.
  intros Hn. rewrite length_decimal.
  pose proof (of_uint_bound (N.to_uint n)) as Hup.
  rewrite DecimalN.Unsigned.of_to in Hup.
  destruct (decide (5 ≤ Decimal.nb_digits (N.to_uint n))%nat) as [|Hlt];
    [done|].
  assert (10 ^ N.of_nat (Decimal.nb_digits (N.to_uint n)) ≤ 10 ^ 4)%N
    by (apply N.pow_le_mono_r; lia).
  change (10 ^ 4)%N with 10000%N in *. lia.
Qed.

(** Four characters below 10000, as many as the number has from there on. *)
Lemma format_04d_small (n : N) :
  (n < 10000)%N → String.length (format_04d n) = 4%nat.
Proof.
  intros Hn. rewrite length_format_04d.
  pose proof (length_decimal_small n Hn). lia.
Qed.

Lemma format_04d_large (n : N) : (10000 ≤ n)%N → format_04d n = decimal n.
Proof.
  intros Hn. unfold format_04d.
  pose proof (length_decimal_large n Hn).
  by replace (4 - String.length (decimal n))%nat with 0%nat by lia.
Qed.

(** *** The pattern on paths and names *)

(** A prefix without [c] cannot reach past a [c]. *)
Lemma strip_prefix_sep (c : ascii) (p q n rest : string) :
  free_of c p = true →
  strip_prefix p (q +:+ String c n) = Some rest →
  ∃ q', strip_prefix p q = Some q' ∧ rest = q' +:+ String c n.
Proof.
  revert q. induction p as [|a p IH]; intros q Hp; simpl.
  - intros [= <-]. by exists q.
  - simpl in Hp. apply andb_true_iff in Hp as [Ha Hp].
    destruct q as [|b q]; simpl.
    + destruct (Ascii.eqb a c); [done | discriminate].
    + destruct (Ascii.eqb a b); [by apply IH | discriminate].
Qed.

Lemma prefix_sep (c : ascii) (p q n : string) :
  free_of c p = true → str_truthy p = true →
  String.prefix p (q +:+ String c n) = true → String.prefix p q = true.
Proof.
  revert q. induction p as [|a p IH]; intros q Hp Ht; simpl; [done|].
  simpl in Hp. apply andb_true_iff in Hp as [Ha Hp].
  destruct q as [|b q]; simpl.
  - destruct (ascii_dec a c) as [->|Hne]; [|discriminate].
    by rewrite Ascii.eqb_refl in Ha.
  - destruct (ascii_dec a b); [|discriminate].
    destruct p as [|a' p]; [by destruct q|]. by apply IH.
Qed.

Lemma span_digits_sep (c : ascii) (q n : string) :
  isdigit c = false →
  span_digits (q +:+ String c n)
  = ((span_digits q).1, (span_digits q).2 +:+ String c n).
Proof.
  intros Hc. induction q as [|b q IH]; simpl.
  - by rewrite Hc.
  - destruct (isdigit b); [|done]. rewrite IH. by destruct (span_digits q).
Qed.

(** A match that starts before a [/] ends before it. *)
Lemma re_match_here_sep (q n g : string) :
  re_match_here (q +:+ String "/" n) = Some g → re_match_here q = Some g.
Proof.
  unfold re_match_here.
  destruct (strip_prefix "streamy-" (q +:+ String "/" n)) as [rest|] eqn:E;
    [|done].
  apply strip_prefix_sep in E as [q' [-> ->]]; [|done].
  rewrite span_digits_sep by done.
  destruct (span_digits q') as [ds r]. simpl.
  destruct (str_truthy ds); simpl; [|done].
  destruct (String.prefix ".png" (r +:+ String "/" n)) eqn:P; [|done].
  apply prefix_sep in P; [|done..]. by rewrite P.
Qed.

(** With no match inside the directory part, searching the path is
    searching the name. *)
Lemma re_search_sep (p n : string) :
  re_search p = None → re_search (p +:+ String "/" n) = re_search n.
Proof.
  induction p as [|c p IH].
  - intros _. done.
  - intros H. change (String c p +:+ String "/" n)
      with (String c (p +:+ String "/" n)).
    cbn [re_search] in *.
    destruct (re_match_here (String c p)) eqn:M; [done|].
    destruct (re_match_here (String c (p +:+ String "/" n))) eqn:M'.
    + apply (re_match_here_sep (String c p)) in M'. congruence.
    + by apply IH.
Qed.

Lemma path_number_name (p name : string) :
  re_search p = None → path_number (p +:+ "/" +:+ name) = name_number name.
Proof.
  intros H. unfold path_number, name_number.
  change ("/" +:+ name) with (String "/" name). by rewrite re_search_sep.
Qed.

Lemma numbers_in_dir (p : string) (listing : list string) :
  re_search p = None →
  omap path_number (glob_in_dir (p, listing)) = snapshot_numbers listing.
Proof.
  intros H. unfold glob_in_dir, snapshot_numbers. cbn [fst snd].
  induction (List.filter fnmatch_snapshot listing) as [|x l IH]; [done|].
  rewrite fmap_cons. cbn [omap list_omap].
  by rewrite IH, path_number_name.
Qed.

Lemma numbers_of_names (p : string) (listing : list string)
    (matches : matched_dirs) :
  has_magic p = false →
  re_search p = None →
  omap path_number (existing_files p listing matches)
  = snapshot_numbers listing.
Proof.
  intros Hm H. rewrite existing_files_literal by done.
  by apply numbers_in_dir.
Qed.

Lemma span_digits_all (ds rest : string) :
  forallb isdigit (list_ascii_of_string ds) = true →
  (∀ c u, rest = String c u → isdigit c = false) →
  span_digits (ds +:+ rest) = (ds, rest).
Proof.
  intros Hd Hr. induction ds as [|c ds IH].
  - destruct rest as [|c u]; [done|].
    change (span_digits (String c u) = ("", String c u)).
    cbn [span_digits]. by rewrite (Hr c u).
  - cbn [list_ascii_of_string forallb] in Hd.
    apply andb_true_iff in Hd as [Hc Hd].
    change (span_digits (String c (ds +:+ rest)) = (String c ds, rest)).
    cbn [span_digits]. by rewrite Hc, IH.
Qed.

Lemma strip_prefix_app (p s : string) : strip_prefix p (p +:+ s) = Some s.
Proof. induction p as [|a p IH]; simpl; [done|]. by rewrite Ascii.eqb_refl. Qed.

(** A name of the form [streamy-<digits>.png] matches, with its digits. *)
Lemma re_search_exact (ds : string) :
  str_truthy ds = true →
  forallb isdigit (list_ascii_of_string ds) = true →
  re_search ("streamy-" +:+ ds +:+ ".png") = Some ds.
Proof.
  intros Ht Hd.
  assert (M : re_match_here ("streamy-" +:+ ds +:+ ".png") = Some ds).
  { unfold re_match_here. rewrite strip_prefix_app.
    rewrite span_digits_all; [by rewrite Ht | done |].
    by intros c u [= <- <-]. }
  change ("streamy-" +:+ ds +:+ ".png")
    with (String "s" ("treamy-" +:+ ds +:+ ".png")) in *.
  cbn [re_search]. by rewrite M.
Qed.

Lemma substring_app_r (a b : string) :
  String.substring (String.length a) (String.length b) (a +:+ b) = b.
Proof.
  induction a as [|c a IH]; simpl; [|exact IH].
  induction b as [|c b IH]; simpl; [done|].
  destruct b; simpl in *; by rewrite ?IH.
Qed.

Lemma endswith_app (a b : string) : endswith b (a +:+ b) = true.
Proof.
  unfold endswith. rewrite length_append.
  replace (String.length a + String.length b - String.length b)%nat
    with (String.length a) by lia.
  rewrite substring_app_r, String.eqb_refl, andb_true_r.
  apply Nat.leb_le. lia.
Qed.

Lemma fnmatch_exact (x : string) :
  fnmatch_snapshot ("streamy-" +:+ x +:+ ".png") = true.
Proof.
  unfold fnmatch_snapshot. rewrite strip_prefix_app. apply endswith_app.
Qed.

(** *** The next name *)

Lemma get_next_snapshot_number_names (p : string) (listing : list string)
    (matches : matched_dirs) :
  has_magic p = false →
  re_search p = None →
  get_next_snapshot_number p listing matches =
    match snapshot_numbers listing with
    | [] => 1%N
    | first :: others => (py_max first others + 1)%N
    end.
Proof.
  intros Hm H. by rewrite get_next_snapshot_number_spec, numbers_of_names.
Qed.

Lemma snapshot_numbers_skip (l1 l2 : list string) (name : string) :
  fnmatch_snapshot name = false ∨ name_number name = None →
  snapshot_numbers (l1 ++ name :: l2) = snapshot_numbers (l1 ++ l2).
Proof.
  intros H. unfold snapshot_numbers.
  rewrite !List.filter_app, !omap_app. f_equal. cbn [List.filter].
  destruct (fnmatch_snapshot name) eqn:E; [|done].
  destruct H as [H|H]; [done|]. cbn [omap list_omap]. by rewrite H.
Qed.

Lemma format_04d_digits (n : N) :
  str_truthy (format_04d n) = true
  ∧ forallb isdigit (list_ascii_of_string (format_04d n)) = true.
Proof.
  unfold format_04d. split.
  - pose proof (decimal_nonempty n) as H.
    destruct (zeros _); simpl; [exact H | done].
  - by rewrite list_ascii_app, forallb_app, zeros_digits, decimal_digits.
Qed.

Lemma snapshot_filename_number (n : N) :
  fnmatch_snapshot (snapshot_filename n) = true
  ∧ name_number (snapshot_filename n) = Some n.
Proof.
  destruct (format_04d_digits n) as [Ht Hd]. unfold snapshot_filename. split.
  - apply fnmatch_exact.
  - unfold name_number. rewrite re_search_exact by done.
    apply py_int_format_04d.
Qed.

(** The name chosen is not the name of a file already there. *)
Lemma next_name_fresh (p : string) (listing : list string)
    (matches : matched_dirs) :
  has_magic p = false →
  re_search p = None →
  snapshot_filename (get_next_snapshot_number p listing matches) ∉ listing.
Proof.
  intros Hm Hp Hin. rewrite get_next_snapshot_number_names in Hin by done.
  destruct (snapshot_numbers listing) as [|first others] eqn:E.
  - assert (H : 1%N ∈ snapshot_numbers listing); [|by rewrite E in H;
      apply elem_of_nil in H].
    apply list_elem_of_omap. eexists. split; [|apply snapshot_filename_number].
    apply list_elem_of_In, filter_In. split; [by apply list_elem_of_In|].
    apply snapshot_filename_number.
  - set (n := (py_max first others + 1)%N) in *.
    assert (H : n ∈ first :: others).
    { rewrite <- E. apply list_elem_of_omap. eexists.
      split; [|apply snapshot_filename_number].
      apply list_elem_of_In, filter_In. split; [by apply list_elem_of_In|].
      apply snapshot_filename_number. }
    apply py_max_upper in H. lia.
Qed.

(** C4, as the code has it.  The numbers are the groups [re.search]
    finds in the paths [glob.glob] returns: the next number is 1 when
    there are none and their maximum plus one otherwise.  When the
    Desktop path has no magic character and holds no match of the
    pattern itself, these are the numbers of the file names in the
    directory, as the claim says: a file that does not match, such as
    [streamy-abc.png], changes nothing; the name chosen is not in the
    directory; an empty directory gives [streamy-0001.png], and
    [streamy-0001.png] with [streamy-0003.png] gives [streamy-0004.png].
    The name is [streamy-], the number padded with zeros to four digits,
    [.png]; from 10000 on the number is printed in full.  With a home
    directory named [streamy-7.png] every path gives the number 7: a
    Desktop that holds [streamy-0042.png] gets 8, and gets 8 again once
    [streamy-0008.png] is there.  With a home directory [h[1]] the path
    is a pattern that does not match the directory itself: if no other
    directory matches, the number is 1 whatever the Desktop holds. *)
Theorem next_snapshot_name (desktop_path : string) (listing : list string)
    (matches : matched_dirs) :
  let found :=
    omap path_number (existing_files desktop_path listing matches) in
  let next := get_next_snapshot_number desktop_path listing matches in
  (found = [] → next = 1%N)
  ∧ (found ≠ [] →
       (next - 1)%N ∈ found ∧ ∀ n, n ∈ found → (n < next)%N)
  ∧ (has_magic desktop_path = false →
     re_search desktop_path = None →
     found = snapshot_numbers listing
     ∧ (snapshot_filename next ∉ listing)
     ∧ (∀ l1 name l2,
          listing = l1 ++ name :: l2 →
          fnmatch_snapshot name = false ∨ name_number name = None →
          next = get_next_snapshot_number desktop_path (l1 ++ l2) matches)
     ∧ snapshot_filename (get_next_snapshot_number desktop_path [] matches)
       = "streamy-0001.png"
     ∧ snapshot_filename
         (get_next_snapshot_number desktop_path
            ["streamy-0001.png"; "streamy-0003.png"] matches)
       = "streamy-0004.png"
     ∧ snapshot_filename
         (get_next_snapshot_number desktop_path
            ["streamy-0001.png"; "streamy-abc.png"; "streamy-0003.png"]
            matches)
       = "streamy-0004.png")
  ∧ (∀ ds,
       str_truthy ds = true →
       forallb isdigit (list_ascii_of_string ds) = true →
       fnmatch_snapshot ("streamy-" +:+ ds +:+ ".png") = true
       ∧ name_number ("streamy-" +:+ ds +:+ ".png") = py_int ds)
  ∧ fnmatch_snapshot "streamy-abc.png" = true
  ∧ name_number "streamy-abc.png" = None
  ∧ snapshot_filename next = "streamy-" +:+ format_04d next +:+ ".png"
  ∧ (∀ n, (n < 10000)%N → String.length (format_04d n) = 4%nat)
  ∧ (∀ n, (10000 ≤ n)%N → format_04d n = decimal n)
  ∧ (∀ n, py_int (format_04d n) = Some n)
  ∧ snapshot_filename 12345 = "streamy-12345.png"
  ∧ (has_magic "/home/streamy-7.png/Desktop" = false
     ∧ snapshot_numbers ["streamy-0042.png"] = [42%N]
     ∧ get_next_snapshot_number "/home/streamy-7.png/Desktop"
         ["streamy-0042.png"] matches = 8%N
     ∧ get_next_snapshot_number "/home/streamy-7.png/Desktop"
         ["streamy-0042.png"; "streamy-0008.png"] matches = 8%N)
  ∧ (has_magic "/home/h[1]/Desktop" = true
     ∧ re_search "/home/h[1]/Desktop" = None
     ∧ get_next_snapshot_number "/home/h[1]/Desktop" listing
         (MatchedDirs false []) = 1%N).
Proof.
  intros found next.
  assert (Hnext : next = match found with
                         | [] => 1%N
                         | first :: others => (py_max first others + 1)%N
                         end) by apply get_next_snapshot_number_spec.
  split_and!; try done.
  - intros H. by rewrite Hnext, H.
  - intros H. rewrite Hnext. destruct found as [|first others]; [done|].
    replace (py_max first others + 1 - 1)%N with (py_max first others) by lia.
    split; [apply py_max_attained|].
    intros n Hn. apply py_max_upper in Hn. lia.
  - intros Hm Hp. subst next found. split_and!.
    + by apply numbers_of_names.
    + by apply next_name_fresh.
    + intros l1 name l2 -> H.
      rewrite !get_next_snapshot_number_names by done.
      by rewrite snapshot_numbers_skip.
    + by rewrite get_next_snapshot_number_names.
    + by rewrite get_next_snapshot_number_names.
    + by rewrite get_next_snapshot_number_names.
  - intros ds Ht Hd. split; [apply fnmatch_exact|].
    unfold name_number. by rewrite re_search_exact.
  - apply format_04d_small.
  - apply format_04d_large.
  - apply py_int_format_04d.
Qed.

Lemma next_snapshot_name_witness :
  has_magic "/home/user/Desktop" = false
  ∧ re_search "/home/user/Desktop" = None
  ∧ snapshot_filename
      (get_next_snapshot_number "/home/user/Desktop"
         ["notes.txt"; "streamy-0007.png"; "streamy-abc.png";
          "streamy-12.png"] (MatchedDirs false []))
    ∉ ["notes.txt"; "streamy-0007.png"; "streamy-abc.png"; "streamy-12.png"].
Proof.
  assert (Hm : has_magic "/home/user/Desktop" = false) by reflexivity.
  assert (H : re_search "/home/user/Desktop" = None) by reflexivity.
  split; [exact Hm|]. split; [exact H|].
  exact (proj1 (proj2 (proj1 (proj2 (proj2
           (next_snapshot_name "/home/user/Desktop"
              ["notes.txt"; "streamy-0007.png"; "streamy-abc.png";
               "streamy-12.png"] (MatchedDirs false []))))
           Hm H))).
Defined.

End Snapshots.

(** ** Sessions *)

Section Sessions.
Import StreamyApp.

Lemma replay_snoc (events : list io_event) (e : io_event) :
  replay (events ++ [e]) = io_step (replay events) e.
Proof. unfold replay. by rewrite foldl_app. Qed.

Lemma replay_app (t1 t2 : list io_event) :
  replay (t1 ++ t2) = foldl io_step (replay t1) t2.
Proof. unfold replay. by rewrite foldl_app. Qed.

Lemma io_step_None (events : list io_event) : foldl io_step None events = None.
Proof. induction events; simpl; done. Qed.

Lemma io_step_sources (w : option (list nat * bool)) (e : io_event)
    (sources : list nat) (polling : bool) :
  (∀ l p, w = Some (l, p) → (length l ≤ 1)%nat) →
  io_step w e = Some (sources, polling) → (length sources ≤ 1)%nat.
Proof.
  intros Hw. destruct w as [[l p]|]; [|done]. specialize (Hw l p eq_refl).
  destruct e; simpl; repeat case_match; intros; simplify_eq; simpl; try lia.
  destruct l as [|a [|b l]]; simpl in *; try lia.
  destruct (negb (a =? h)%nat); simpl; lia.
Qed.

(** Calls in order never leave two sources open. *)
Lemma replay_sources (events : list io_event) (sources : list nat)
    (polling : bool) :
  replay events = Some (sources, polling) → (length sources ≤ 1)%nat.
Proof.
  revert sources polling.
  induction events as [|e events IH] using rev_ind; intros sources polling.
  - intros [= <- <-]. simpl. lia.
  - rewrite replay_snoc. apply io_step_sources.
    intros l p H. by apply (IH l p).
Qed.

(** Calls in order were in order at every earlier moment. *)
Lemma replay_prefix (t1 t2 : list io_event) :
  is_Some (replay (t1 ++ t2)) →
  ∃ sources polling,
    replay t1 = Some (sources, polling) ∧ (length sources ≤ 1)%nat.
Proof.
  rewrite replay_app. destruct (replay t1) as [[l p]|] eqn:E.
  - intros _. exists l, p. split; [done|]. by apply (replay_sources t1 l p).
  - rewrite io_step_None. by intros [? ?].
Qed.

Lemma init_session_inv config0 items checked path files matches :
  session_inv (init config0 items checked path files matches).
Proof. by constructor. Qed.

Lemma disconnect_camera_inv (s : t) :
  session_inv s → session_inv (disconnect_camera s).
Proof.
  intros [H1 H2 H3 H4]. unfold disconnect_camera.
  destruct (camera s) as [h|] eqn:E; [|constructor; rewrite ?E; done].
  constructor; simpl; try done.
  - rewrite H1. simpl. by rewrite Nat.eqb_refl.
  - rewrite !replay_snoc, H4, H1. simpl. by rewrite Nat.eqb_refl.
Qed.

Lemma same_session_inv (s s' : t) :
  same_session s s' → session_inv s → session_inv s'.
Proof.
  intros (H1 & H2 & H3 & H4 & H5) [I1 I2 I3 I4].
  constructor; rewrite ?H1, ?H2, ?H3, ?H4, ?H5; done.
Qed.

Lemma populate_printer_combobox_session (s : t) :
  same_session s (populate_printer_combobox s).1.
Proof.
  unfold populate_printer_combobox, same_session.
  destruct (PrinterConfig.get_recent_printers (config s)) as [e|r]; [done|].
  destruct r; try done. by destruct (str_items l).
Qed.

Lemma no_session_idle (s : t) :
  session_inv s → camera s = None →
  open_sources s = [] ∧ timer s = false ∧ is_running s = false
  ∧ replay (trace s) = Some ([], false).
Proof.
  intros [H1 H2 H3 H4] E. rewrite E in *.
  assert (is_running s = false) as Hr.
  { destruct (is_running s); [|done]. by destruct (H3 eq_refl). }
  rewrite Hr in *. rewrite H1, H2 in H4. by rewrite H1, H2.
Qed.

Lemma connect_try_inv ip url cap io (s : t) :
  session_inv s → camera s = None →
  session_inv (connect_try ip url cap io s).1.
Proof.
  intros Hs Hc. destruct (no_session_idle s Hs Hc) as (Ho & Ht & Hr & Hp).
  unfold connect_try. destruct cap as [|ret test_frame width height].
  - constructor;
      repeat (progress (simpl; rewrite ?replay_snoc, ?Hc, ?Ho, ?Ht, ?Hr, ?Hp));
      done.
  - cbn [VideoCapture_opened].
    destruct (negb ret || is_None test_frame).
    + constructor;
        repeat (progress (simpl; rewrite ?replay_snoc, ?Nat.eqb_refl,
                            ?Hc, ?Ho, ?Ht, ?Hr, ?Hp));
        done.
    + cbn zeta.
      match goal with
      | |- context [PrinterConfig.add_printer ?a ?b ?c] =>
          destruct (PrinterConfig.add_printer a b c) as [e|config']
      end.
      * constructor;
          repeat (progress (simpl; rewrite ?replay_snoc, ?Nat.eqb_refl,
                              ?Hc, ?Ho, ?Ht, ?Hr, ?Hp));
          done.
      * match goal with
        | |- context [populate_printer_combobox ?x] =>
            pose proof (populate_printer_combobox_session x) as Hpop;
            destruct (populate_printer_combobox x) as [s' [e|]]
        end; destruct Hpop as (P1 & P2 & P3 & P4 & P5); simpl in *.
        -- constructor; rewrite ?P1, ?P2, ?P3, ?P4, ?P5;
             repeat (progress (simpl; rewrite ?replay_snoc, ?Nat.eqb_refl,
                                 ?Hc, ?Ho, ?Ht, ?Hr, ?Hp));
             done.
        -- constructor; simpl; rewrite ?P1, ?P2, ?P3, ?P4, ?P5;
             repeat (progress (simpl; rewrite ?replay_snoc, ?Nat.eqb_refl,
                                 ?Hc, ?Ho, ?Ht, ?Hr, ?Hp));
             done.
Qed.

Lemma connect_to_camera_inv text cap io (s : t) :
  session_inv s → session_inv (connect_to_camera text cap io s).
Proof.
  intros Hs. unfold connect_to_camera.
  destruct (negb (str_truthy (strip text))).
  { by apply (same_session_inv s). }
  set (s1 := match camera _ with Some _ => _ | None => _ end).
  assert (Hs1 : session_inv s1 ∧ camera s1 = None).
  { subst s1. cbn [camera setText setColor set_status_label
                   set_status_indicator].
    destruct (camera s) as [h|] eqn:E.
    - split.
      + apply disconnect_camera_inv. by apply (same_session_inv s).
      + unfold disconnect_camera. cbn. by rewrite E.
    - split; [by apply (same_session_inv s) | done]. }
  destruct Hs1 as [Hs1 Hc1].
  pose proof (connect_try_inv (strip text)
                ("rtsp://" +:+ strip text +:+ ":554/video") cap io s1 Hs1 Hc1)
    as Htry.
  destruct (connect_try _ _ cap io s1) as [s2 [e|]]; simpl in Htry.
  - by apply (same_session_inv s2).
  - done.
Qed.

Lemma imwrite_inv filename img written (s : t) :
  session_inv s → session_inv (imwrite filename img written s).
Proof.
  intros [H1 H2 H3 H4]. unfold imwrite. cbn zeta.
  destruct (written && _); (constructor; [done | done | done |]); simpl;
    by rewrite replay_snoc, H4.
Qed.

Lemma show_temporary_status_session message duration (s : t) :
  same_session s (show_temporary_status message duration s).
Proof.
  unfold show_temporary_status, same_session. simpl.
  by destruct (status_timer s).
Qed.

Lemma take_snapshot_inv now written (s : t) :
  session_inv s → session_inv (take_snapshot now written s).
Proof.
  intros Hs. unfold take_snapshot.
  destruct (negb (is_running s) || is_None (current_frame s));
    [by apply (same_session_inv s)|].
  destruct (current_frame s) as [frame|]; [|done].
  eapply same_session_inv; [apply show_temporary_status_session|].
  by apply imwrite_inv.
Qed.

Lemma update_frame_inv ret frame now (s : t) :
  session_inv s → session_inv (update_frame ret frame now s).
Proof.
  intros Hs. unfold update_frame.
  destruct (negb (is_running s) || is_None (camera s)) eqn:G; [done|].
  destruct (camera s) as [h|] eqn:E; [|done].
  assert (Hread : session_inv (camera_read h s)).
  { destruct Hs as [H1 H2 H3 H4].
    constructor; simpl; try done.
    rewrite replay_snoc, H4, H1, E. simpl. by rewrite Nat.eqb_refl. }
  destruct (negb ret || is_None frame).
  - apply disconnect_camera_inv. by apply (same_session_inv (camera_read h s)).
  - destruct frame as [img|]; simpl.
    + destruct (negb (color_eqb (status_indicator s) GREEN));
        by apply (same_session_inv (camera_read h s)).
    + destruct (negb (color_eqb (status_indicator s) GREEN));
        by apply (same_session_inv (camera_read h s)).
Qed.

Lemma timestamp_checkbox_changed_inv checked io (s s' : t) :
  session_inv s → timestamp_checkbox_changed checked io s = inr s' →
  session_inv s'.
Proof.
  intros Hs. unfold timestamp_checkbox_changed.
  destruct (PrinterConfig.set_include_timestamp _ _ _) as [e|c]; simpl;
    [done|].
  intros [= <-]. by apply (same_session_inv s).
Qed.

Lemma elapse_inv ms (s : t) : session_inv s → session_inv (elapse ms s).
Proof.
  intros Hs. unfold elapse, reset_status.
  destruct (status_timer s) as [r|]; [|done].
  destruct (r <=? ms)%N; simpl; [|by apply (same_session_inv s)].
  destruct (str_truthy (previous_status s)); by apply (same_session_inv s).
Qed.

Lemma closeEvent_inv (s : t) : session_inv s → session_inv (closeEvent s).
Proof.
  intros Hs. unfold closeEvent.
  destruct (camera s); [by apply disconnect_camera_inv | done].
Qed.

Lemma step_inv (c : command) (s s' : t) :
  session_inv s → step c s = inr s' → session_inv s'.
Proof.
  intros Hs. destruct c; simpl.
  - intros [= <-]. by apply connect_to_camera_inv.
  - intros [= <-]. by apply disconnect_camera_inv.
  - intros [= <-]. destruct (snapshot_btn s); [|done].
    by apply take_snapshot_inv.
  - by apply timestamp_checkbox_changed_inv.
  - intros [= <-]. destruct (timer s); [|done]. by apply update_frame_inv.
  - intros [= <-]. by apply elapse_inv.
  - intros [= <-]. by apply closeEvent_inv.
Qed.

Lemma run_inv (cs : list command) (s s' : t) :
  session_inv s → run cs s = inr s' → session_inv s'.
Proof.
  revert s. induction cs as [|c cs IH]; intros s Hs; simpl.
  - by intros [= <-].
  - destruct (step c s) as [e|s1] eqn:E; simpl; [done|].
    apply IH. by apply (step_inv c s).
Qed.

(** The calls a [connect] makes when a session is active: the timer is
    stopped and the old source released, and only then is the new address
    tried. *)
Lemma connect_to_camera_closes_first text cap io (s : t) (h : nat) :
  camera s = Some h →
  strip text ≠ "" →
  ∃ rest,
    trace (connect_to_camera text cap io s)
    = trace s
      ++ EvTimerStop :: EvRelease h
         :: match cap with
            | NotOpened =>
                EvOpenFailed ("rtsp://" +:+ strip text +:+ ":554/video")
            | Opened _ _ _ _ =>
                EvOpen (next_handle s)
                  ("rtsp://" +:+ strip text +:+ ":554/video")
            end :: rest.
Proof.
  intros Hc Hip. apply str_truthy_true in Hip.
  unfold connect_to_camera. rewrite Hip. cbn [negb].
  cbn [camera setText setColor set_status_label set_status_indicator].
  rewrite Hc. unfold disconnect_camera.
  cbn [camera setText setColor set_status_label set_status_indicator].
  rewrite Hc. unfold connect_try.
  destruct cap as [|ret test_frame width height].
  - exists []. simpl. by rewrite <- !app_assoc.
  - cbn [VideoCapture_opened]. destruct (negb ret || is_None test_frame).
    + eexists. simpl. rewrite <- !app_assoc. simpl. reflexivity.
    + cbn zeta.
      match goal with
      | |- context [PrinterConfig.add_printer ?a ?b ?c] =>
          destruct (PrinterConfig.add_printer a b c) as [e|config']
      end.
      * eexists. simpl. rewrite <- !app_assoc. simpl. reflexivity.
      * match goal with
        | |- context [populate_printer_combobox ?x] =>
            pose proof (populate_printer_combobox_session x) as Hpop;
            destruct (populate_printer_combobox x) as [s' [e|]]
        end; destruct Hpop as (_ & _ & _ & _ & P5); simpl in *;
          rewrite P5; eexists; rewrite <- !app_assoc; simpl; reflexivity.
Qed.

(** C1. From a state in which the session invariant holds, after any
    sequence of events: at most one source is open, and it is the one in
    [self.camera]; the calls made were in order at every moment, so no
    source was ever opened while another was open or while the frame
    timer ran; and a [connect] with a session active first stops the timer
    and releases the old source, and only then tries the new address. *)
Theorem one_session_at_a_time (s0 : t) (cs : list command) (s : t) :
  session_inv s0 →
  run cs s0 = inr s →
  (length (open_sources s) ≤ 1)%nat
  ∧ open_sources s = option_list (camera s)
  ∧ replay (trace s) = Some (open_sources s, timer s)
  ∧ (∀ t1 t2, trace s = t1 ++ t2 →
       ∃ sources polling,
         replay t1 = Some (sources, polling) ∧ (length sources ≤ 1)%nat)
  ∧ (∀ text cap io h,
       camera s = Some h → strip text ≠ "" →
       ∃ rest,
         trace (connect_to_camera text cap io s)
         = trace s
           ++ EvTimerStop :: EvRelease h
              :: match cap with
                 | NotOpened =>
                     EvOpenFailed
                       ("rtsp://" +:+ strip text +:+ ":554/video")
                 | Opened _ _ _ _ =>
                     EvOpen (next_handle s)
                       ("rtsp://" +:+ strip text +:+ ":554/video")
                 end :: rest).
Proof.
  intros Hs0 Hrun. pose proof (run_inv cs s0 s Hs0 Hrun) as [H1 H2 H3 H4].
  split_and!; try done.
  - by apply (replay_sources (trace s) _ (timer s)).
  - intros t1 t2 Ht. apply (replay_prefix t1 t2). rewrite <- Ht, H4. by eexists.
  - intros text cap io h. apply connect_to_camera_closes_first.
Qed.

Lemma one_session_at_a_time_witness :
  session_inv fresh_app
  ∧ run reconnect_events fresh_app
    = inr (final (run reconnect_events fresh_app))
  ∧ (length (open_sources (final (run reconnect_events fresh_app))) ≤ 1)%nat.
Proof.
  assert (H0 : session_inv fresh_app) by apply init_session_inv.
  assert (H1 : run reconnect_events fresh_app
               = inr (final (run reconnect_events fresh_app)))
    by (vm_compute; reflexivity).
  split; [exact H0|]. split; [exact H1|].
  exact (proj1 (one_session_at_a_time fresh_app reconnect_events _ H0 H1)).
Defined.

(** C8. [disconnect_camera] without a camera changes nothing, and twice
    is the same as once.  With a camera it stops the timer, releases the
    source, clears [camera] and [camera_url], sets the gray indicator and
    [Not connected], disables the snapshot button and shows the
    placeholder image, which is built from a blank image and two texts. *)
Theorem disconnect_camera_idempotent (s : t) :
  (camera s = None → disconnect_camera s = s)
  ∧ disconnect_camera (disconnect_camera s) = disconnect_camera s
  ∧ run [ClickDisconnect; ClickDisconnect] s = run [ClickDisconnect] s
  ∧ (∀ h, camera s = Some h →
       let s' := disconnect_camera s in
       timer s' = false ∧ is_running s' = false
       ∧ camera s' = None ∧ camera_url s' = None
       ∧ open_sources s'
         = List.filter (λ h', negb (Nat.eqb h' h)) (open_sources s)
       ∧ trace s' = trace s ++ [EvTimerStop; EvRelease h]
       ∧ status_indicator s' = GRAY ∧ status_label s' = "Not connected"
       ∧ snapshot_btn s' = false
       ∧ video_frame s' = Some no_connection_image
       ∧ (session_inv s → open_sources s' = []))
  ∧ no_connection_image
    = PutText (PutText (Zeros 480 640 3) "No camera connected" 180 220)
        "Enter printer IP address and click Connect" 100 260.
Proof.
  assert (Hidem : disconnect_camera (disconnect_camera s) = disconnect_camera s).
  { unfold disconnect_camera.
    destruct (camera s) as [h|] eqn:E; simpl; [done | by rewrite E]. }
  split_and!; try done.
  - intros H. unfold disconnect_camera. by rewrite H.
  - simpl. by rewrite Hidem.
  - intros h Hc. unfold disconnect_camera. rewrite Hc. simpl.
    split_and!; try done.
    + by rewrite <- app_assoc.
    + intros [H1 _ _ _]. rewrite H1, Hc. simpl. by rewrite Nat.eqb_refl.
Qed.

Lemma disconnect_camera_idempotent_witness :
  camera connected_app = Some 0%nat
  ∧ camera (disconnect_camera connected_app) = None
  ∧ status_label (disconnect_camera connected_app) = "Not connected"
  ∧ video_frame (disconnect_camera connected_app) = Some no_connection_image.
Proof.
  assert (Hc : camera connected_app = Some 0%nat) by reflexivity.
  destruct (disconnect_camera_idempotent connected_app) as (_ & _ & _ & H & _).
  destruct (H 0%nat Hc) as (_ & _ & H3 & _ & _ & _ & _ & H8 & _ & H10 & _).
  split; [exact Hc|]. split; [exact H3|]. split; [exact H8 | exact H10].
Defined.

(** C2, as the code has it.  When the timer fires with a camera and the
    read gives no frame, the session is torn down as by
    [disconnect_camera]; the yellow indicator and [Connected but not able
    to stream] are set first and then overwritten by that call, so the
    state that results shows the gray indicator and [Not connected]. *)
Theorem update_frame_failure_status (s : t) (h : nat) (ret : bool)
    (frame : option image) (now : string) :
  camera s = Some h →
  is_running s = true →
  negb ret || is_None frame = true →
  let s' := update_frame ret frame now s in
  s' = disconnect_camera
         (setText "Connected but not able to stream"
            (setColor YELLOW (camera_read h s)))
  ∧ camera s' = None ∧ is_running s' = false ∧ timer s' = false
  ∧ trace s' = trace s ++ [EvRead h; EvTimerStop; EvRelease h]
  ∧ status_indicator s' = GRAY
  ∧ status_label s' = "Not connected"
  ∧ status_label s' ≠ "Connected but not able to stream".
Proof.
  intros Hc Hr Hf s'. subst s'. unfold update_frame.
  rewrite Hr, Hc. cbn [negb is_None orb]. rewrite Hf.
  unfold disconnect_camera. simpl. rewrite Hc. simpl.
  split_and!; try done. by rewrite <- !app_assoc.
Qed.

Lemma update_frame_failure_status_witness :
  camera connected_app = Some 0%nat
  ∧ is_running connected_app = true
  ∧ negb false || is_None (None : option image) = true
  ∧ status_label connected_app = "Connected"
  ∧ status_label (update_frame false None "2024-01-01 00:00:00" connected_app)
    = "Not connected"
  ∧ status_indicator
      (update_frame false None "2024-01-01 00:00:00" connected_app)
    = GRAY.
Proof.
  assert (Hc : camera connected_app = Some 0%nat) by reflexivity.
  assert (Hr : is_running connected_app = true) by reflexivity.
  assert (Hf : negb false || is_None (None : option image) = true)
    by reflexivity.
  destruct (update_frame_failure_status connected_app 0%nat false None
              "2024-01-01 00:00:00" Hc Hr Hf)
    as (_ & _ & _ & _ & _ & H6 & H7 & _).
  split; [exact Hc|]. split; [exact Hr|]. split; [exact Hf|].
  split; [reflexivity|]. split; [exact H7 | exact H6].
Defined.

End Sessions.

(** ** Transient status messages *)

Section Status.
Import StreamyApp.

Lemma same_pending_trans (s1 s2 s3 : t) :
  same_pending s1 s2 → same_pending s2 s3 → same_pending s1 s3.
Proof. intros [H1 H2] [H3 H4]. split; congruence. Qed.

Lemma disconnect_camera_pending (s : t) : same_pending s (disconnect_camera s).
Proof. unfold disconnect_camera. by destruct (camera s). Qed.

Lemma populate_printer_combobox_pending (s : t) :
  same_pending s (populate_printer_combobox s).1.
Proof.
  unfold populate_printer_combobox, same_pending.
  destruct (PrinterConfig.get_recent_printers (config s)) as [e|r]; [done|].
  destruct r; try done. by destruct (str_items l).
Qed.

Lemma connect_try_pending ip url cap io (s : t) :
  same_pending s (connect_try ip url cap io s).1.
Proof.
  unfold connect_try. destruct cap as [|ret test_frame width height]; [done|].
  cbn [VideoCapture_opened]. destruct (negb ret || is_None test_frame); [done|].
  cbn zeta.
  match goal with
  | |- context [PrinterConfig.add_printer ?a ?b ?c] =>
      destruct (PrinterConfig.add_printer a b c) as [e|config']
  end; [done|].
  match goal with
  | |- context [populate_printer_combobox ?x] =>
      pose proof (populate_printer_combobox_pending x) as Hpop;
      destruct (populate_printer_combobox x) as [s' [e|]]
  end; destruct Hpop as [P1 P2]; simpl in *; by split.
Qed.

Lemma connect_to_camera_pending text cap io (s : t) :
  same_pending s (connect_to_camera text cap io s).
Proof.
  unfold connect_to_camera.
  destruct (negb (str_truthy (strip text))); [done|].
  set (s1 := match camera _ with Some _ => _ | None => _ end).
  assert (H1 : same_pending s s1).
  { subst s1. cbn [camera setText setColor set_status_label
                   set_status_indicator].
    destruct (camera s); [|done].
    eapply same_pending_trans; [|apply disconnect_camera_pending]. done. }
  pose proof (connect_try_pending (strip text)
                ("rtsp://" +:+ strip text +:+ ":554/video") cap io s1) as H2.
  destruct (connect_try _ _ cap io s1) as [s2 [e|]]; simpl in H2;
    (eapply same_pending_trans; [exact H1|]);
    (eapply same_pending_trans; [exact H2|]); done.
Qed.

Lemma update_frame_pending ret frame now (s : t) :
  same_pending s (update_frame ret frame now s).
Proof.
  unfold update_frame.
  destruct (negb (is_running s) || is_None (camera s)); [done|].
  destruct (camera s) as [h|]; [|done].
  destruct (negb ret || is_None frame).
  - eapply same_pending_trans; [|apply disconnect_camera_pending]. done.
  - unfold same_pending.
    destruct frame; simpl;
      by destruct (negb (color_eqb (status_indicator s) GREEN)).
Qed.

(** No handler but [take_snapshot] and the status timer itself touches
    the pending revert. *)
Lemma step_pending (c : command) (s s' : t) :
  (∀ now written, c ≠ ClickSnapshot now written) →
  (∀ ms, c ≠ Elapse ms) →
  step c s = inr s' → same_pending s s'.
Proof.
  intros Hsnap Hel. destruct c; simpl.
  - intros [= <-]. apply connect_to_camera_pending.
  - intros [= <-]. apply disconnect_camera_pending.
  - by destruct (Hsnap now written).
  - unfold timestamp_checkbox_changed.
    destruct (PrinterConfig.set_include_timestamp _ _ _); simpl; [done|].
    by intros [= <-].
  - intros [= <-]. destruct (timer s); [|done]. apply update_frame_pending.
  - by destruct (Hel ms).
  - intros [= <-]. unfold closeEvent.
    destruct (camera s); [apply disconnect_camera_pending | done].
Qed.

Lemma take_snapshot_status now written (s : t) (frame : image) :
  is_running s = true → current_frame s = Some frame →
  let s1 := take_snapshot now written s in
  status_label s1 = snapshot_message s
  ∧ previous_status s1 = status_label s
  ∧ status_timer s1 = Some 5000%N
  ∧ is_running s1 = true ∧ current_frame s1 = Some frame.
Proof.
  intros Hr Hf. unfold take_snapshot. rewrite Hr, Hf. cbn [negb is_None orb].
  unfold show_temporary_status, imwrite. cbn zeta.
  destruct (written && _); simpl; by destruct (status_timer s).
Qed.

Lemma elapse_early ms (s : t) (r : N) :
  status_timer s = Some r → (ms < r)%N →
  elapse ms s = set_status_timer (Some (r - ms)%N) s.
Proof.
  intros Ht Hms. unfold elapse. rewrite Ht.
  by rewrite (proj2 (N.leb_gt r ms)).
Qed.

Lemma elapse_fires ms (s : t) (r : N) :
  status_timer s = Some r → (r ≤ ms)%N → previous_status s ≠ "" →
  status_label (elapse ms s) = previous_status s
  ∧ status_timer (elapse ms s) = None.
Proof.
  intros Ht Hms Hp. unfold elapse, reset_status. rewrite Ht.
  rewrite (proj2 (N.leb_le r ms)) by done. simpl.
  by rewrite (proj2 (str_truthy_true _) Hp).
Qed.

(** C7, as the code has it.  After a snapshot the label reads [Snapshot
    saved: <name>]; it keeps reading so for less than 5000 ms and then,
    the time passing in one or in two steps, goes back to the text shown
    before the snapshot.  A second snapshot
    within that time starts the 5000 ms again and records the text then
    shown, the first message, as the text to go back to.  No other
    handler stops the timer or changes the recorded text, so after a
    status change in between the label still goes back to the recorded
    text when the time is up. *)
Theorem transient_status_reverts (s : t) (frame : image) (now : string)
    (written : bool) :
  is_running s = true →
  current_frame s = Some frame →
  status_label s ≠ "" →
  let s1 := take_snapshot now written s in
  status_label s1 = snapshot_message s
  ∧ previous_status s1 = status_label s
  ∧ status_timer s1 = Some 5000%N
  ∧ (∀ ms, (ms < 5000)%N →
       status_label (elapse ms s1) = snapshot_message s
       ∧ status_timer (elapse ms s1) = Some (5000 - ms)%N)
  ∧ (∀ ms, (5000 ≤ ms)%N →
       status_label (elapse ms s1) = status_label s
       ∧ status_timer (elapse ms s1) = None)
  ∧ (∀ ms ms', (ms < 5000)%N → (5000 ≤ ms + ms')%N →
       status_label (elapse ms' (elapse ms s1)) = status_label s)
  ∧ (∀ ms now' written', (ms < 5000)%N →
       let s2 := take_snapshot now' written' (elapse ms s1) in
       status_label s2 = snapshot_message s1
       ∧ previous_status s2 = snapshot_message s
       ∧ status_timer s2 = Some 5000%N
       ∧ status_label (elapse 5000 s2) = snapshot_message s)
  ∧ (∀ c s',
       (∀ now' written', c ≠ ClickSnapshot now' written') →
       (∀ ms, c ≠ Elapse ms) →
       step c s1 = inr s' →
       status_timer s' = Some 5000%N
       ∧ previous_status s' = status_label s
       ∧ status_label (elapse 5000 s') = status_label s).
Proof.
  intros Hr Hf Hl s1.
  destruct (take_snapshot_status now written s frame Hr Hf)
    as (H1 & H2 & H3 & H4 & H5). fold s1 in H1, H2, H3, H4, H5.
  split_and!; try done.
  - intros ms Hms. rewrite (elapse_early ms s1 5000) by done. by simpl.
  - intros ms Hms. rewrite <- H2. apply (elapse_fires ms s1 5000); try done.
    by rewrite H2.
  - intros ms ms' Hms Hsum. rewrite (elapse_early ms s1 5000) by done.
    rewrite <- H2.
    apply (elapse_fires ms' (set_status_timer _ s1) (5000 - ms)); try done.
    + lia.
    + simpl. by rewrite H2.
  - intros ms now' written' Hms s2.
    assert (He : elapse ms s1 = set_status_timer (Some (5000 - ms)%N) s1)
      by by apply elapse_early.
    destruct (take_snapshot_status now' written' (elapse ms s1) frame)
      as (G1 & G2 & G3 & _); [by rewrite He..|].
    fold s2 in G1, G2, G3. rewrite He in G1, G2. simpl in G2.
    unfold snapshot_message in G1 at 1. simpl in G1.
    split_and!; try done.
    + by rewrite G2.
    + rewrite <- H1, <- G2. apply (elapse_fires 5000 s2 5000); try done.
      rewrite G2, H1. unfold snapshot_message. done.
  - intros c s' Hc1 Hc2 Hstep.
    destruct (step_pending c s1 s' Hc1 Hc2 Hstep) as [P1 P2].
    rewrite P1, P2, H2, H3. split_and!; try done.
    rewrite <- H2, <- P2. apply (elapse_fires 5000 s' 5000); try done.
    + by rewrite P1.
    + by rewrite P2, H2.
Qed.

Lemma transient_status_reverts_witness :
  is_running streaming_app = true
  ∧ current_frame streaming_app = Some (Captured 1)
  ∧ status_label streaming_app ≠ ""
  ∧ status_label streaming_app = "Connected"
  ∧ status_label (take_snapshot "2024-01-01 00:00:01" true streaming_app)
    = "Snapshot saved: streamy-0001.png"
  ∧ status_label
      (elapse 5000 (take_snapshot "2024-01-01 00:00:01" true streaming_app))
    = "Connected".
Proof.
  assert (Hr : is_running streaming_app = true) by reflexivity.
  assert (Hf : current_frame streaming_app = Some (Captured 1))
    by reflexivity.
  assert (Hl : status_label streaming_app ≠ "") by discriminate.
  destruct (transient_status_reverts streaming_app (Captured 1)
              "2024-01-01 00:00:01" true Hr Hf Hl)
    as (H1 & _ & _ & _ & H5 & _).
  split; [exact Hr|]. split; [exact Hf|]. split; [exact Hl|].
  split; [reflexivity|]. split; [exact H1|].
  exact (proj1 (H5 5000%N (N.le_refl _))).
Defined.

(** Connected and streaming, a snapshot is taken, the camera is
    disconnected and 5000 ms pass: the camera is gone and the indicator
    gray, and the label reads [Connected]. *)
Lemma status_change_supersedes_revert_fails :
  let s :=
    elapse 5000
      (disconnect_camera
         (take_snapshot "2024-01-01 00:00:01" true streaming_app)) in
  (camera s = None ∧ status_indicator s = GRAY
   ∧ status_label s = "Connected")
  ∧ ¬ status_change_supersedes_revert.
Proof.
  split; [by vm_compute|].
  intros H.
  specialize (H streaming_app 0%nat (Captured 1) "2024-01-01 00:00:01" true
                5000%N eq_refl eq_refl eq_refl).
  vm_compute in H. discriminate H.
Qed.

End Status.

(** ** Connecting *)

Section Connecting.
Import StreamyApp.

Lemma connect_to_camera_unfold text cap io (s : t) :
  strip text ≠ "" →
  connect_to_camera text cap io s
  = connect_finish
      (connect_try (strip text) (rtsp_url (strip text)) cap io
         (connect_prepare s)).
Proof.
  intros Hip. apply str_truthy_true in Hip.
  unfold connect_to_camera, connect_finish, connect_prepare, rtsp_url.
  rewrite Hip. cbn [negb]. cbv zeta.
  by destruct (connect_try _ _ _ _ _) as [s2 [e|]].
Qed.

Lemma connect_to_camera_blank text cap io (s : t) :
  strip text = "" →
  connect_to_camera text cap io s
  = QMessageBox_critical "Error" "Please enter a printer IP address" s.
Proof. intros H. unfold connect_to_camera. by rewrite H. Qed.

Lemma connect_prepare_state (s : t) :
  session_inv s →
  let s1 := connect_prepare s in
  camera s1 = None ∧ is_running s1 = false ∧ timer s1 = false
  ∧ open_sources s1 = []
  ∧ trace s1 = trace s ++ teardown_events s
  ∧ next_handle s1 = next_handle s ∧ config s1 = config s
  ∧ dialogs s1 = dialogs s.
Proof.
  intros Hs. unfold connect_prepare, teardown_events, disconnect_camera.
  cbn [camera setText setColor set_status_label set_status_indicator].
  destruct (camera s) as [h|] eqn:E.
  - simpl. destruct Hs as [H1 _ _ _]. rewrite H1, E. simpl.
    rewrite Nat.eqb_refl, <- app_assoc. done.
  - destruct (no_session_idle s Hs E) as (Ho & Ht & Hr & _). simpl.
    by rewrite E, app_nil_r.
Qed.

Lemma str_items_remove_first (ip : string) (l : list json) :
  is_Some (str_items l) → is_Some (str_items (remove_first ip l)).
Proof.
  induction l as [|x l IH]; simpl; [done|].
  destruct x; try by intros [? ?].
  destruct (str_items l) as [items|] eqn:E; simpl; [|by intros [? ?]].
  intros _. destruct (String.eqb s ip); [by rewrite E|].
  simpl. destruct (IH (ltac:(by eexists))) as [items' ->]. by eexists.
Qed.

Lemma str_items_take (n : nat) (l : list json) :
  is_Some (str_items l) → is_Some (str_items (take n l)).
Proof.
  revert n. induction l as [|x l IH]; intros [|n]; simpl; try by eexists.
  destruct x; try by intros [? ?].
  destruct (str_items l) as [items|] eqn:E; simpl; [|by intros [? ?]].
  intros _. destruct (IH n (ltac:(by eexists))) as [items' ->]. by eexists.
Qed.

(** With a recent list of strings [connect_try] raises nothing once the
    first frame has been read. *)
Lemma connect_config_ok (ip : string) (io : save_outcome) (s : t)
    (d : gmap string json) (l : list json) (f : file_state) :
  ip ≠ "" →
  config s = PrinterConfig.Build (JObj d) f →
  d !! "recent_printers" = Some (JArr l) →
  is_Some (str_items l) →
  ∃ config' items,
    PrinterConfig.add_printer ip io (config s) = inr config'
    ∧ populate_printer_combobox (set_config config' s)
      = (set_ip_combo items (set_config config' s), None)
    ∧ head items = Some ip.
Proof.
  intros Hip Hc Hl Hitems. rewrite Hc.
  rewrite (add_printer_list ip io d l f Hip Hl).
  destruct (str_items_take 4 (remove_first ip l)
              (str_items_remove_first ip l Hitems)) as [items Hi].
  eexists. exists (ip :: items). split; [reflexivity|]. split; [|done].
  unfold populate_printer_combobox, PrinterConfig.get_recent_printers.
  assert (Hrec : ∀ c, PrinterConfig.config (PrinterConfig.save_config io c)
                      = PrinterConfig.config c) by (by destruct io).
  cbn [config set_config]. rewrite Hrec. cbn [PrinterConfig.config py_getitem].
  rewrite lookup_insert_ne by done. rewrite lookup_insert_eq.
  cbn [take str_items]. by rewrite Hi.
Qed.

Lemma populate_printer_combobox_frame (s : t) :
  let s' := (populate_printer_combobox s).1 in
  camera_url s' = camera_url s ∧ frame_width s' = frame_width s
  ∧ frame_height s' = frame_height s ∧ snapshot_btn s' = snapshot_btn s
  ∧ status_indicator s' = status_indicator s
  ∧ status_label s' = status_label s ∧ dialogs s' = dialogs s
  ∧ config s' = config s.
Proof.
  unfold populate_printer_combobox.
  destruct (PrinterConfig.get_recent_printers (config s)) as [e|r]; [done|].
  destruct r; try done. by destruct (str_items l).
Qed.

(** C3. A [connect] with a non-empty address, from a state in which the
    session invariant holds.  If the source does not open: red indicator,
    a Connection Error dialog, no camera kept, nothing open, and no read
    on any source, then or on later timer events.  If it opens and the
    first read gives no frame: yellow indicator, [Connected but not able
    to stream], a Video Error dialog, and the source released again.  If
    both succeed the camera is kept and the status is [Connected] with
    the green indicator, unless recording the address raises; and the
    indicator is green only if both succeeded. *)
Theorem connect_to_camera_outcomes (text : string) (cap : capture_outcome)
    (io : save_outcome) (s : t) :
  session_inv s →
  strip text ≠ "" →
  let url := rtsp_url (strip text) in
  let h := next_handle s in
  let s' := connect_to_camera text cap io s in
  match cap with
  | NotOpened =>
      status_indicator s' = RED
      ∧ status_label s' = "Not connected"
      ∧ (∃ message,
           dialogs s'
           = dialogs s ++ [MessageBox Critical "Connection Error" message])
      ∧ camera s' = None ∧ is_running s' = false ∧ timer s' = false
      ∧ open_sources s' = []
      ∧ trace s' = trace s ++ teardown_events s ++ [EvOpenFailed url]
      ∧ (∀ ret frame now, step (TimerTimeout ret frame now) s' = inr s')
  | Opened ret test_frame width height =>
      if negb ret || is_None test_frame then
        status_indicator s' = YELLOW
        ∧ status_label s' = "Connected but not able to stream"
        ∧ (∃ message,
             dialogs s'
             = dialogs s ++ [MessageBox Critical "Video Error" message])
        ∧ camera s' = None ∧ is_running s' = false ∧ timer s' = false
        ∧ open_sources s' = []
        ∧ trace s'
          = trace s ++ teardown_events s
            ++ [EvOpen h url; EvRead h; EvRelease h]
      else
        camera s' = Some h ∧ camera_url s' = Some url
        ∧ open_sources s' = [h]
        ∧ frame_width s' = width ∧ frame_height s' = height
        ∧ (status_indicator s' = GREEN ∧ status_label s' = "Connected"
           ∧ is_running s' = true ∧ timer s' = true ∧ snapshot_btn s' = true
           ∧ trace s'
             = trace s ++ teardown_events s
               ++ [EvOpen h url; EvRead h; EvTimerStart]
           ∨ status_indicator s' = RED
             ∧ (∃ e, status_label s' = "Error: " +:+ exn_str e)
             ∧ is_running s' = false ∧ timer s' = false)
        ∧ (∀ d l f,
             config s = PrinterConfig.Build (JObj d) f →
             d !! "recent_printers" = Some (JArr l) →
             is_Some (str_items l) →
             status_indicator s' = GREEN ∧ status_label s' = "Connected"
             ∧ is_running s' = true ∧ timer s' = true)
  end
  ∧ (status_indicator s' = GREEN →
     ∃ frame width height, cap = Opened true (Some frame) width height).
Proof.
  intros Hs Hip url h s'. subst s'.
  rewrite connect_to_camera_unfold by done. fold url.
  destruct (connect_prepare_state s Hs)
    as (Hc & Hr & Ht & Ho & Htr & Hn & Hcfg & Hd).
  set (s1 := connect_prepare s) in *.
  unfold connect_try. destruct cap as [|ret test_frame width height].
  - simpl. rewrite Hc, Hr, Ht, Ho, Htr, Hd, <- app_assoc.
    split; [|done]. split_and!; try done; by eexists.
  - cbn [VideoCapture_opened]. rewrite Hn. fold h.
    destruct (negb ret || is_None test_frame) eqn:G.
    + simpl. rewrite Hc, Hr, Ht, Ho, Htr, Hd, <- !app_assoc. simpl.
      rewrite Nat.eqb_refl. split; [|done].
      split_and!; try done; by eexists.
    + cbn zeta.
      assert (Hcap : ∃ frame, ret = true ∧ test_frame = Some frame).
      { destruct ret, test_frame; try done. by eexists. }
      set (s2 := set_camera_url _ _).
      assert (Hcfg2 : config s2 = config s) by (by subst s2).
      destruct (PrinterConfig.add_printer (strip text) io (config s2))
        as [e|config'] eqn:Eadd.
      * simpl. rewrite Ho, Ht, Hr. split.
        -- split_and!; try done.
           ++ right. split_and!; try done. by eexists.
           ++ intros d l f Hd1 Hd2 Hd3.
              destruct (connect_config_ok (strip text) io s2 d l f)
                as (c & items & Hadd & _); try done; [congruence|].
              congruence.
        -- done.
      * pose proof (populate_printer_combobox_session (set_config config' s2))
          as (P1 & P2 & P3 & P4 & P5).
        pose proof (populate_printer_combobox_frame (set_config config' s2))
          as (F1 & F2 & F3 & F4 & F5 & F6 & F7 & F8).
        destruct (populate_printer_combobox (set_config config' s2))
          as [s3 [e|]] eqn:Epop;
          simpl in P1, P2, P3, P4, P5, F1, F2, F3, F4, F5, F6, F7, F8.
        -- simpl. rewrite P1, P2, P3, P4, F1, F2, F3, Ho, Ht, Hr.
           split; [|done]. split_and!; try done.
           ++ right. split_and!; try done. by eexists.
           ++ intros d l f Hd1 Hd2 Hd3.
              destruct (connect_config_ok (strip text) io s2 d l f)
                as (c & items & Hadd & Hpop & _); try done; [congruence|].
              rewrite Eadd in Hadd. injection Hadd as <-.
              rewrite Epop in Hpop. discriminate Hpop.
        -- simpl. rewrite P1, P4, P5, F1, F2, F3, F5, F6, Ho, Htr.
           rewrite <- !app_assoc.
           split; [|intros _; destruct Hcap as (frame & -> & ->); by do 3 eexists].
           split_and!; try done. by left.
Qed.

Lemma connect_to_camera_outcomes_witness :
  session_inv fresh_app
  ∧ strip "bad-host" ≠ ""
  ∧ status_indicator (connect_to_camera "bad-host" NotOpened SaveOk fresh_app)
    = RED
  ∧ camera (connect_to_camera "bad-host" NotOpened SaveOk fresh_app) = None
  ∧ open_sources (connect_to_camera "bad-host" NotOpened SaveOk fresh_app)
    = [].
Proof.
  assert (H1 : session_inv fresh_app) by apply init_session_inv.
  assert (H2 : strip "bad-host" ≠ "") by discriminate.
  pose proof (connect_to_camera_outcomes "bad-host" NotOpened SaveOk
                fresh_app H1 H2) as H.
  cbv beta iota zeta in H.
  destruct H as [(A & _ & _ & B & _ & _ & C & _) _].
  split; [exact H1|]. split; [exact H2|]. split; [exact A|].
  split; [exact B | exact C].
Defined.

Lemma rstrip_last (s u : string) (c : ascii) :
  rstrip s = u +:+ String c "" → isspace c = false.
Proof.
  revert u. induction s as [|a s IH]; intros u; simpl.
  - by destruct u.
  - destruct (rstrip s) as [|d r] eqn:E.
    + destruct (isspace a) eqn:Ha; [by destruct u|].
      destruct u as [|b u]; simpl; [by intros [= <-]|].
      intros [= _ H]. by destruct u.
    + destruct u as [|b u]; simpl; [by intros [= _ ?]|].
      intros [= _ H]. by apply (IH u).
Qed.

Lemma connect_prepare_trace (s : t) :
  trace (connect_prepare s) = trace s ++ teardown_events s
  ∧ next_handle (connect_prepare s) = next_handle s
  ∧ config (connect_prepare s) = config s.
Proof.
  unfold connect_prepare, teardown_events, disconnect_camera.
  cbn [camera setText setColor set_status_label set_status_indicator].
  destruct (camera s) as [h|]; simpl.
  - by rewrite <- app_assoc.
  - by rewrite app_nil_r.
Qed.

Lemma connect_finish_frame (r : t * option exn) :
  trace (connect_finish r) = trace r.1
  ∧ config (connect_finish r) = config r.1
  ∧ camera_url (connect_finish r) = camera_url r.1.
Proof. by destruct r as [s [e|]]. Qed.

(** The address [connect_try] is given is the one it opens and, once a
    frame has been read, the one it records. *)
Lemma connect_try_address ip url cap io (s : t) :
  let r := connect_try ip url cap io s in
  (∃ rest,
     trace r.1
     = trace s
       ++ match cap with
          | NotOpened => EvOpenFailed url
          | Opened _ _ _ _ => EvOpen (next_handle s) url
          end :: rest)
  ∧ (∀ frame width height,
       cap = Opened true (Some frame) width height →
       camera_url r.1 = Some url
       ∧ ∀ config',
           PrinterConfig.add_printer ip io (config s) = inr config' →
           config r.1 = config').
Proof.
  unfold connect_try. destruct cap as [|ret test_frame width height].
  - split; [by exists [] | done].
  - cbn [VideoCapture_opened]. destruct (negb ret || is_None test_frame) eqn:G.
    + split.
      * eexists. simpl. rewrite <- !app_assoc. reflexivity.
      * intros frame w h [= -> -> _ _]. done.
    + cbn zeta. set (s2 := set_camera_url _ _).
      change (config s) with (config s2).
      destruct (PrinterConfig.add_printer ip io (config s2))
        as [e|config'] eqn:Eadd.
      * split; [|done].
        eexists. simpl. rewrite <- !app_assoc. reflexivity.
      * pose proof (populate_printer_combobox_session (set_config config' s2))
          as (_ & _ & _ & _ & P5).
        pose proof (populate_printer_combobox_frame (set_config config' s2))
          as (F1 & _ & _ & _ & _ & _ & _ & F8).
        destruct (populate_printer_combobox (set_config config' s2))
          as [s3 [e|]]; simpl in P5, F1, F8; simpl; rewrite P5, F1, F8;
          (split; [eexists; rewrite <- !app_assoc; reflexivity|]);
          intros frame w h _; (split; [done|]); by intros c [= <-].
Qed.

(** C9. [connect_to_camera] sees the text only through [strip], which
    cuts whitespace off both ends and nothing else.  A text of whitespace
    only is treated as the empty text: the same error dialog and no other
    change.  Otherwise the stripped address is the one in the RTSP URL
    that is opened and, after a successful connect, the one at the front
    of the recent list and recorded as last used. *)
Theorem connect_to_camera_strips (text : string) (cap : capture_outcome)
    (io : save_outcome) (s : t) :
  connect_to_camera text cap io s = connect_to_camera (strip text) cap io s
  ∧ (∃ l r,
       text = l +:+ strip text +:+ r
       ∧ all_space l = true ∧ all_space r = true)
  ∧ (∀ c u, strip text = String c u → isspace c = false)
  ∧ (∀ u c, strip text = u +:+ String c "" → isspace c = false)
  ∧ (all_space text = true →
       connect_to_camera text cap io s = connect_to_camera "" cap io s
       ∧ connect_to_camera text cap io s
         = set_dialogs
             (dialogs s
              ++ [MessageBox Critical "Error"
                    "Please enter a printer IP address"]) s)
  ∧ (strip text ≠ "" →
       let s' := connect_to_camera text cap io s in
       let url := "rtsp://" +:+ strip text +:+ ":554/video" in
       (∃ rest,
          trace s'
          = trace s ++ teardown_events s
            ++ match cap with
               | NotOpened => EvOpenFailed url
               | Opened _ _ _ _ => EvOpen (next_handle s) url
               end :: rest)
       ∧ (∀ frame width height,
            cap = Opened true (Some frame) width height →
            camera_url s' = Some url
            ∧ ∀ d l f,
                config s = PrinterConfig.Build (JObj d) f →
                d !! "recent_printers" = Some (JArr l) →
                ∃ d',
                  PrinterConfig.config (config s') = JObj d'
                  ∧ d' !! "recent_printers"
                    = Some (JArr (take 5 (JStr (strip text)
                                            :: remove_first (strip text) l)))
                  ∧ d' !! "last_used_printer" = Some (JStr (strip text)))).
Proof.
  split_and!.
  - unfold connect_to_camera. by rewrite strip_idem.
  - apply strip_split.
  - apply strip_head.
  - intros u c. unfold strip. apply rstrip_last.
  - intros H. apply strip_all_space in H.
    rewrite !connect_to_camera_blank by done. done.
  - intros Hip s' url. subst s'. rewrite connect_to_camera_unfold by done.
    destruct (connect_finish_frame
                (connect_try (strip text) (rtsp_url (strip text)) cap io
                   (connect_prepare s))) as (T1 & T2 & T3).
    destruct (connect_try_address (strip text) (rtsp_url (strip text)) cap io
                (connect_prepare s)) as ([rest A1] & A2).
    destruct (connect_prepare_trace s) as (Q1 & Q2 & Q3).
    rewrite T1, T2, T3, A1, Q1, Q2, <- app_assoc. split; [by exists rest|].
    intros frame width height Hcap.
    destruct (A2 frame width height Hcap) as [B1 B2]. split; [exact B1|].
    intros d l f Hd Hl. rewrite Q3, Hd in B2.
    rewrite (add_printer_list (strip text) io d l f Hip Hl) in B2.
    rewrite (B2 _ eq_refl).
    eexists. split; [by destruct io|].
    rewrite lookup_insert_ne by done. by rewrite !lookup_insert_eq.
Qed.

Lemma connect_to_camera_strips_witness :
  all_space "   " = true
  ∧ connect_to_camera "   " (good_camera 0) SaveOk fresh_app
    = connect_to_camera "" (good_camera 0) SaveOk fresh_app
  ∧ strip " 10.0.0.5 " ≠ ""
  ∧ camera_url (connect_to_camera " 10.0.0.5 " (good_camera 0) SaveOk fresh_app)
    = Some "rtsp://10.0.0.5:554/video".
Proof.
  assert (H1 : all_space "   " = true) by reflexivity.
  assert (H2 : strip " 10.0.0.5 " ≠ "") by discriminate.
  destruct (connect_to_camera_strips "   " (good_camera 0) SaveOk fresh_app)
    as (_ & _ & _ & _ & A & _).
  destruct (connect_to_camera_strips " 10.0.0.5 " (good_camera 0) SaveOk
              fresh_app) as (_ & _ & _ & _ & _ & B).
  destruct (B H2) as [_ C].
  destruct (C (Captured 0) 640%Z 480%Z eq_refl) as [D _].
  split; [exact H1|]. split; [exact (proj1 (A H1))|]. split; [exact H2|].
  exact D.
Defined.

End Connecting.

Section ConfigWitness.
Import PrinterConfig.

Lemma load_config_defaults_backfill_witness :
  ∃ d',
    load_config (Document (JObj {["include_timestamp" := JBool false]}))
    = inr (JObj d')
    ∧ d' !! "include_timestamp" = Some (JBool false)
    ∧ d' !! "last_used_printer" = Some (JStr "").
Proof.
  destruct load_config_defaults_backfill
    as (_ & _ & _ & _ & _ & _ & _ & _ & _ & H).
  destruct (H {["include_timestamp" := JBool false]}) as (d' & Hload & Hk).
  exists d'. split; [exact Hload|]. split.
  - exact (Hk "include_timestamp").
  - exact (Hk "last_used_printer").
Defined.

End ConfigWitness.

(** ** The configuration record over its life *)

Section ConfigLife.
Import PrinterConfig.

Lemma has_schema_union (d : gmap string json) : has_schema (d ∪ default_config).
Proof.
  intros k Hk. apply default_keys_spec in Hk as [v Hv].
  rewrite union_default_lookup, Hv. by destruct (d !! k).
Qed.

Lemma has_schema_insert (d : gmap string json) (k : string) (v : json) :
  has_schema d → has_schema (<[k := v]> d).
Proof.
  intros H k' Hk'. destruct (decide (k = k')) as [->|Hne].
  - rewrite lookup_insert_eq. by eexists.
  - rewrite lookup_insert_ne by done. by apply H.
Qed.

Lemma has_schema_fixed (d : gmap string json) :
  has_schema d → d ∪ default_config = d.
Proof.
  intros H. apply map_eq. intros k. rewrite union_default_lookup.
  destruct (d !! k) eqn:E; [done|].
  destruct (default_config !! k) eqn:Ed; [|done].
  assert (Hk : k ∈ default_keys) by (apply default_keys_spec; by eexists).
  destruct (H k Hk) as [v Hv]. congruence.
Qed.

Lemma has_schema_default : has_schema default_config.
Proof. intros k Hk. by apply default_keys_spec. Qed.

(** What the constructor loads, when it is a dict, has the whole schema. *)
Lemma init_dict (f : file_state) (p : t) (d : gmap string json) :
  init f = inr p → config p = JObj d → has_schema d ∧ disk p = f.
Proof.
  unfold init. destruct (load_config f) as [e|c] eqn:Hc; simpl; [done|].
  intros [= <-]. simpl. intros ->. split; [|done].
  destruct f as [| | |doc]; try (injection Hc as <-; apply has_schema_default).
  assert (Hdoc : (∃ d0, doc = JObj d0) ∨ ∀ d0, doc ≠ JObj d0)
    by (destruct doc; try (by right); left; by eexists).
  destruct Hdoc as [[d0 ->]|Hdoc].
  - rewrite load_config_dict in Hc. injection Hc as <-.
    apply has_schema_union.
  - destruct (load_config_not_dict doc Hdoc) as [H|H]; rewrite H in Hc.
    + injection Hc as <-. apply has_schema_default.
    + injection Hc as ->. by destruct (Hdoc d).
Qed.

Lemma synced_restart (p : t) (d : gmap string json) :
  synced_view p d → init (disk p) = inr p.
Proof.
  intros (Hc & Hs & Hd). unfold init. rewrite Hd, load_config_dict.
  rewrite (has_schema_fixed d Hs). simpl. destruct p; simpl in *. congruence.
Qed.

Lemma mutate_dict (m : mutation) (io : save_outcome) (p p' : t)
    (d : gmap string json) :
  config p = JObj d → has_schema d → mutate m io p = inr p' →
  ∃ d', config p' = JObj d' ∧ has_schema d'
        ∧ (saves m = true → io = SaveOk → disk p' = Document (JObj d'))
        ∧ (saves m = false → p' = p).
Proof.
  intros Hc Hs. destruct p as [c f]. simpl in Hc. subst c.
  destruct m as [ip|value]; simpl.
  - unfold add_printer. destruct (str_truthy ip) eqn:Hip.
    + simpl. destruct (d !! "recent_printers") as [r|]; [|done]. simpl.
      destruct r as [| | | |s|l|m]; simpl; try done.
      * by destruct (str_contains ip s).
      * destruct (existsb (eq_str ip) l); simpl; intros [= <-];
          (eexists; split; [by destruct io|]);
          (split; [by do 2 apply has_schema_insert|]);
          (split; [by intros _ ->|done]).
      * by destruct (bool_decide _).
    + intros [= <-]. exists d. by split_and!.
  - unfold set_include_timestamp. simpl. intros [= <-].
    eexists. split; [by destruct io|].
    split; [by apply has_schema_insert|]. split; [by intros _ ->|done].
Qed.

Lemma mutate_all_synced (ms : list mutation) (p p' : t)
    (d : gmap string json) :
  config p = JObj d → has_schema d →
  existsb saves ms = true ∨ disk p = Document (JObj d) →
  mutate_all ms p = inr p' → ∃ d', synced_view p' d'.
Proof.
  revert p d. induction ms as [|m ms IH]; intros p d Hc Hs Hsaved; simpl.
  - intros [= <-]. destruct Hsaved as [?|Hd]; [done|]. by exists d.
  - destruct (mutate m SaveOk p) as [e|p1] eqn:E; simpl; [done|].
    destruct (mutate_dict m SaveOk p p1 d Hc Hs E)
      as (d1 & Hc1 & Hs1 & Hd1 & Hp1).
    apply (IH p1 d1 Hc1 Hs1).
    destruct (saves m) eqn:Em.
    + right. by apply Hd1.
    + rewrite (Hp1 eq_refl) in *. assert (d1 = d) as -> by congruence.
      simpl in Hsaved. by rewrite Em in Hsaved.
Qed.

(** X1. A record loaded by the constructor, changed by any calls of
    [add_printer] and [set_include_timestamp] of which at least one saves,
    is what the constructor loads again from the file then on disk. *)
Theorem restart_restores_config (f : file_state) (p0 p : t)
    (d0 : gmap string json) (ms : list mutation) :
  init f = inr p0 →
  config p0 = JObj d0 →
  mutate_all ms p0 = inr p →
  existsb saves ms = true →
  init (disk p) = inr p.
Proof.
  intros Hinit Hc Hms Hsaved.
  destruct (init_dict f p0 d0 Hinit Hc) as [Hs _].
  destruct (mutate_all_synced ms p0 p d0 Hc Hs (or_introl Hsaved) Hms)
    as [d Hd].
  by apply (synced_restart p d).
Qed.

Lemma restart_restores_config_witness :
  init Malformed = inr (Build (JObj default_config) Malformed)
  ∧ mutate_all [AddPrinter "10.0.0.5"; SetIncludeTimestamp false]
      (Build (JObj default_config) Malformed)
    = inr (final_config
             (mutate_all [AddPrinter "10.0.0.5"; SetIncludeTimestamp false]
                (Build (JObj default_config) Malformed)))
  ∧ init (disk (final_config
                  (mutate_all [AddPrinter "10.0.0.5"; SetIncludeTimestamp false]
                     (Build (JObj default_config) Malformed))))
    = inr (final_config
             (mutate_all [AddPrinter "10.0.0.5"; SetIncludeTimestamp false]
                (Build (JObj default_config) Malformed))).
Proof.
  assert (H1 : init Malformed = inr (Build (JObj default_config) Malformed))
    by reflexivity.
  assert (H2 : mutate_all [AddPrinter "10.0.0.5"; SetIncludeTimestamp false]
                 (Build (JObj default_config) Malformed)
               = inr (final_config
                        (mutate_all
                           [AddPrinter "10.0.0.5"; SetIncludeTimestamp false]
                           (Build (JObj default_config) Malformed))))
    by reflexivity.
  split; [exact H1|]. split; [exact H2|].
  exact (restart_restores_config Malformed _ _ default_config _ H1 eq_refl H2
           eq_refl).
Defined.

(** X2. How the write ends changes neither whether a call raises nor the
    dict it leaves in memory; and when the file cannot be opened for
    writing it is left as it was. *)
Theorem save_failure_not_fatal (m : mutation) (io io' : save_outcome)
    (p : t) :
  match mutate m io p, mutate m io' p with
  | inr p1, inr p2 =>
      config p1 = config p2
      ∧ (io = SaveOpenFails ∨ saves m = false → disk p1 = disk p)
      ∧ (io = SaveOk ∧ saves m = true → disk p1 = Document (config p1))
  | inl e1, inl e2 => e1 = e2
  | _, _ => False
  end.
Proof.
  destruct p as [c f]. destruct m as [ip|value]; simpl.
  - unfold add_printer. destruct (str_truthy ip) eqn:Hip; simpl.
    + destruct (py_getitem c "recent_printers") as [e|r]; simpl; [done|].
      destruct (py_in ip r) as [e|b]; simpl; [done|].
      destruct (if b then py_remove r ip else inr r) as [e|r1]; simpl; [done|].
      destruct (py_insert0 r1 ip) as [e|r2]; simpl; [done|].
      destruct (py_slice5 r2) as [e|r3]; simpl; [done|].
      destruct (py_setitem c "recent_printers" r3) as [e|c1]; simpl; [done|].
      destruct (py_setitem c1 "last_used_printer" (JStr ip)) as [e|c2]; simpl;
        [done|].
      split_and!.
      * by destruct io, io'.
      * intros [->|?]; done.
      * by intros [-> _].
    + split_and!; try done. by intros [_ ?].
  - unfold set_include_timestamp. simpl.
    destruct (py_setitem c "include_timestamp" (JBool value)) as [e|c1]; simpl;
      [done|].
    split_and!.
    + by destruct io, io'.
    + intros [->|?]; done.
    + by intros [-> _].
Qed.

(** X3. [add_printer] returns exactly when the address is empty or the
    record is a dict whose [recent_printers] is a list; on a dict without
    that key it raises [KeyError]. *)
Theorem add_printer_returns_iff (ip : string) (io : save_outcome) (p : t) :
  ((∃ p', add_printer ip io p = inr p')
   ↔ ip = "" ∨ ∃ d l, config p = JObj d
                      ∧ d !! "recent_printers" = Some (JArr l))
  ∧ (∀ d, ip ≠ "" → config p = JObj d → d !! "recent_printers" = None →
       add_printer ip io p = inl (Raise KeyError "'recent_printers'")).
Proof.
  destruct p as [c f]. split; [split|].
  - intros [p' H]. destruct (decide (ip = "")) as [|Hip]; [by left|right].
    unfold add_printer in H. rewrite (proj2 (str_truthy_true ip) Hip) in H.
    simpl in H. destruct c as [| | | |s|l|d]; simpl in H; try done.
    destruct (d !! "recent_printers") as [r|] eqn:Er; [|done]. simpl in H.
    destruct r as [| | | |s|l|m]; simpl in H; try done.
    + by destruct (str_contains ip s).
    + by exists d, l.
    + by destruct (bool_decide _).
  - intros [->|(d & l & Hc & Hl)]; [by eexists|]. simpl in Hc. subst c.
    destruct (decide (ip = "")) as [->|Hip]; [by eexists|].
    rewrite (add_printer_list ip io d l f Hip Hl). by eexists.
  - intros d Hip Hc Hl. simpl in Hc. subst c. unfold add_printer.
    rewrite (proj2 (str_truthy_true ip) Hip). simpl. by rewrite Hl.
Qed.

Lemma add_printer_returns_iff_witness :
  "10.0.0.5" ≠ ""
  ∧ add_printer "10.0.0.5" SaveOk (Build (JObj ∅) NoFile)
    = inl (Raise KeyError "'recent_printers'").
Proof.
  assert (H : "10.0.0.5" ≠ "") by discriminate.
  split; [exact H|].
  exact (proj2 (add_printer_returns_iff "10.0.0.5" SaveOk
                  (Build (JObj ∅) NoFile)) ∅ H eq_refl eq_refl).
Defined.

End ConfigLife.

Section ConfigList.
Import PrinterConfig.

Lemma take_cons_remove_first (ip : string) (l : list json) :
  take 5 (JStr ip :: remove_first ip (take 5 (JStr ip :: l)))
  = take 5 (JStr ip :: l).
Proof.
  cbn [take remove_first eq_str]. rewrite String.eqb_refl.
  by rewrite take_take.
Qed.

Lemma add_printer_inr_list (ip : string) (io : save_outcome) (p p' : t) :
  ip ≠ "" → add_printer ip io p = inr p' →
  ∃ d l, config p = JObj d ∧ d !! "recent_printers" = Some (JArr l).
Proof.
  intros Hip H. destruct p as [c f].
  unfold add_printer in H. rewrite (proj2 (str_truthy_true ip) Hip) in H.
  simpl in H. destruct c as [| | | |s|l|d]; simpl in H; try done.
  destruct (d !! "recent_printers") as [r|] eqn:Er; [|done]. simpl in H.
  destruct r as [| | | |s|l|m]; simpl in H; try done.
  - by destruct (str_contains ip s).
  - by exists d, l.
  - by destruct (bool_decide _).
Qed.

(** X4. Adding an address that was just added changes nothing, in
    memory or on disk. *)
Theorem add_printer_twice (ip : string) (io : save_outcome) (p p1 : t) :
  add_printer ip io p = inr p1 → add_printer ip io p1 = inr p1.
Proof.
  destruct (decide (ip = "")) as [->|Hip]; [by intros [= <-]|].
  intros H.
  destruct (add_printer_inr_list ip io p p1 Hip H) as (d & l & Hc & Hl).
  destruct p as [c f]. simpl in Hc. subst c.
  rewrite (add_printer_list ip io d l f Hip Hl) in H. injection H as <-.
  set (r := take 5 (JStr ip :: remove_first ip l)).
  set (d1 := <["last_used_printer" := JStr ip]> (<["recent_printers" := JArr r]> d)).
  assert (Hl1 : d1 !! "recent_printers" = Some (JArr r)).
  { subst d1. rewrite lookup_insert_ne by done. by rewrite lookup_insert_eq. }
  assert (Hd1 : <["last_used_printer" := JStr ip]>
                  (<["recent_printers" :=
                       JArr (take 5 (JStr ip :: remove_first ip r))]> d1) = d1).
  { pose proof (take_cons_remove_first ip (remove_first ip l)) as Ht.
    fold r in Ht. rewrite Ht.
    rewrite (insert_id d1 "recent_printers") by done.
    apply insert_id. subst d1. by rewrite lookup_insert_eq. }
  destruct io; simpl.
  - rewrite (add_printer_list ip SaveOk d1 r _ Hip Hl1). by rewrite Hd1.
  - rewrite (add_printer_list ip SaveOpenFails d1 r _ Hip Hl1). by rewrite Hd1.
  - rewrite (add_printer_list ip SaveWriteFails d1 r _ Hip Hl1). by rewrite Hd1.
Qed.

Lemma add_printer_twice_witness :
  add_printer "10.0.0.5" SaveOk fresh_config
  = inr (final_config (add_printer "10.0.0.5" SaveOk fresh_config))
  ∧ add_printer "10.0.0.5" SaveOk
      (final_config (add_printer "10.0.0.5" SaveOk fresh_config))
    = inr (final_config (add_printer "10.0.0.5" SaveOk fresh_config)).
Proof.
  assert (H : add_printer "10.0.0.5" SaveOk fresh_config
              = inr (final_config (add_printer "10.0.0.5" SaveOk fresh_config)))
    by reflexivity.
  split; [exact H|].
  exact (add_printer_twice "10.0.0.5" SaveOk fresh_config _ H).
Defined.

Lemma str_items_cons (ip : string) (l : list json) :
  is_Some (StreamyApp.str_items l) →
  is_Some (StreamyApp.str_items (JStr ip :: l)).
Proof. intros [items H]. simpl. rewrite H. by eexists. Qed.

Lemma mutate_recent_wf (m : mutation) (p : t) :
  recent_wf p → ∃ p', mutate m SaveOk p = inr p' ∧ recent_wf p'.
Proof.
  intros (d & l & Hc & Hl & Hstr & Hnd & Hlen & Hhead).
  destruct p as [c f]. simpl in Hc. subst c. destruct m as [ip|value]; simpl.
  - destruct (decide (ip = "")) as [->|Hip].
    { eexists. split; [done|]. by exists d, l. }
    rewrite (add_printer_list ip SaveOk d l f Hip Hl).
    eexists. split; [done|].
    exists (<["last_used_printer" := JStr ip]>
              (<["recent_printers" :=
                   JArr (take 5 (JStr ip :: remove_first ip l))]> d)),
      (take 5 (JStr ip :: remove_first ip l)).
    split_and!; try done.
    + rewrite lookup_insert_ne by done. by rewrite lookup_insert_eq.
    + apply str_items_take, str_items_cons.
      by apply str_items_remove_first.
    + eapply sublist_NoDup; [|apply sublist_take].
      constructor; by apply remove_first_NoDup.
    + rewrite length_take. lia.
    + intros x [= <-]. by rewrite lookup_insert_eq.
  - eexists. split; [done|].
    exists (<["include_timestamp" := JBool value]> d), l.
    split_and!; try done.
    + by rewrite lookup_insert_ne.
    + intros x Hx. rewrite lookup_insert_ne by done. by apply Hhead.
Qed.

(** X5. On a record whose recent list holds strings without duplicates,
    at most five, with the first one recorded as last used, no sequence
    of [add_printer] and [set_include_timestamp] raises, and the record
    it ends in is again of that kind. *)
Theorem mutations_keep_recent_list (ms : list mutation) (p : t) :
  recent_wf p → ∃ p', mutate_all ms p = inr p' ∧ recent_wf p'.
Proof.
  revert p. induction ms as [|m ms IH]; intros p Hp; simpl.
  - by exists p.
  - destruct (mutate_recent_wf m p Hp) as (p1 & -> & Hp1). simpl.
    by apply IH.
Qed.

Lemma mutations_keep_recent_list_witness :
  recent_wf fresh_config
  ∧ ∃ p',
      mutate_all [AddPrinter "10.0.0.5"; AddPrinter ""; AddPrinter "10.0.0.6";
                  SetIncludeTimestamp false; AddPrinter "10.0.0.5"]
        fresh_config = inr p'
      ∧ recent_wf p'.
Proof.
  assert (H : recent_wf fresh_config).
  { exists default_config, [].
    split_and!; try done; try (by eexists); try (by constructor).
    simpl. lia. }
  split; [exact H|].
  exact (mutations_keep_recent_list _ fresh_config H).
Defined.

(** X6. After [set_include_timestamp] the getter returns the value set,
    and the recent list and the last used address read as before;
    [add_printer] leaves the flag as it was.  On a dict without the key
    the flag reads [True], where the other two getters raise
    [KeyError]. *)
Theorem include_timestamp_set_get (p : t) :
  (∀ value io p',
     set_include_timestamp value io p = inr p' →
     get_include_timestamp p' = inr (JBool value)
     ∧ get_recent_printers p' = get_recent_printers p
     ∧ get_last_used_printer p' = get_last_used_printer p)
  ∧ (∀ ip io p',
       add_printer ip io p = inr p' →
       get_include_timestamp p' = get_include_timestamp p)
  ∧ (∀ d,
       config p = JObj d →
       (d !! "include_timestamp" = None →
        get_include_timestamp p = inr (JBool true))
       ∧ (d !! "recent_printers" = None →
          get_recent_printers p = inl (Raise KeyError "'recent_printers'"))
       ∧ (d !! "last_used_printer" = None →
          get_last_used_printer p
          = inl (Raise KeyError "'last_used_printer'"))).
Proof.
  destruct p as [c f]. split_and!.
  - intros value io p'. unfold set_include_timestamp. simpl.
    destruct c as [| | | |s|l|d]; simpl; try done.
    intros [= <-].
    unfold get_include_timestamp, get_recent_printers, get_last_used_printer.
    assert (Hrec : ∀ c, config (save_config io c) = config c)
      by (by destruct io).
    rewrite !Hrec. simpl. rewrite lookup_insert_eq.
    by rewrite !lookup_insert_ne.
  - intros ip io p' H. destruct (decide (ip = "")) as [->|Hip].
    { by injection H as <-. }
    destruct (add_printer_inr_list ip io (Build c f) p' Hip H)
      as (d & l & Hc & Hl).
    simpl in Hc. subst c.
    rewrite (add_printer_list ip io d l f Hip Hl) in H. injection H as <-.
    unfold get_include_timestamp.
    assert (Hrec : ∀ c, config (save_config io c) = config c)
      by (by destruct io).
    rewrite Hrec. simpl. by rewrite !lookup_insert_ne.
  - intros d Hc. simpl in Hc. subst c.
    unfold get_include_timestamp, get_recent_printers, get_last_used_printer.
    simpl. split_and!; by intros ->.
Qed.

(** X7. After the constructor, whatever the file held, a record that is
    a dict answers all three getters; a key the document had is read as
    the document had it. *)
Theorem getters_after_load (f : file_state) (p : t) (d : gmap string json) :
  init f = inr p →
  config p = JObj d →
  (∃ r u b,
     get_recent_printers p = inr r
     ∧ get_last_used_printer p = inr u
     ∧ get_include_timestamp p = inr b)
  ∧ (∀ d0 v,
       f = Document (JObj d0) →
       (d0 !! "recent_printers" = Some v → get_recent_printers p = inr v)
       ∧ (d0 !! "last_used_printer" = Some v →
          get_last_used_printer p = inr v)
       ∧ (d0 !! "include_timestamp" = Some v →
          get_include_timestamp p = inr v)).
Proof.
  intros Hinit Hc. destruct (init_dict f p d Hinit Hc) as [Hs _].
  unfold get_include_timestamp, get_recent_printers, get_last_used_printer.
  rewrite Hc. simpl. split.
  - destruct (Hs "recent_printers") as [r Hr]; [set_solver|].
    destruct (Hs "last_used_printer") as [u Hu]; [set_solver|].
    destruct (Hs "include_timestamp") as [b Hb]; [set_solver|].
    rewrite Hr, Hu, Hb. by exists r, u, b.
  - intros d0 v ->. unfold init in Hinit. rewrite load_config_dict in Hinit.
    simpl in Hinit. injection Hinit as <-. simpl in Hc. injection Hc as <-.
    rewrite !union_default_lookup. split_and!; by intros ->.
Qed.

Lemma getters_after_load_witness :
  init (Document (JObj {["last_used_printer" := JStr "10.0.0.9"]}))
  = inr (final_config
           (init (Document (JObj {["last_used_printer" := JStr "10.0.0.9"]}))))
  ∧ get_last_used_printer
      (final_config
         (init (Document (JObj {["last_used_printer" := JStr "10.0.0.9"]}))))
    = inr (JStr "10.0.0.9").
Proof.
  assert (H : init (Document (JObj {["last_used_printer" := JStr "10.0.0.9"]}))
              = inr (final_config
                       (init (Document
                                (JObj {["last_used_printer"
                                        := JStr "10.0.0.9"]})))))
    by reflexivity.
  split; [exact H|].
  destruct (getters_after_load _ _ _ H eq_refl) as [_ G].
  destruct (G {["last_used_printer" := JStr "10.0.0.9"]} (JStr "10.0.0.9")
              eq_refl) as (_ & G2 & _).
  exact (G2 eq_refl).
Defined.

End ConfigList.

(** ** Snapshot numbers as files come and go *)

Section SnapshotSequence.

Lemma py_max_highest (first : N) (others : list N) :
  py_max first others = highest (first :: others).
Proof.
  unfold py_max, highest. revert first.
  induction others as [|x others IH]; intros first; simpl; [lia|].
  rewrite IH. simpl. lia.
Qed.

(** The next number is one more than the highest number found. *)
Lemma get_next_snapshot_number_highest (p : string) (listing : list string)
    (matches : matched_dirs) :
  get_next_snapshot_number p listing matches
  = (highest (omap path_number (existing_files p listing matches)) + 1)%N.
Proof.
  rewrite get_next_snapshot_number_spec.
  destruct (omap _ _) as [|first others]; [done|].
  by rewrite py_max_highest.
Qed.

Lemma highest_upper (numbers : list N) (n : N) :
  n ∈ numbers → (n ≤ highest numbers)%N.
Proof.
  unfold highest. induction numbers as [|x numbers IH]; simpl.
  - by intros ?%elem_of_nil.
  - rewrite elem_of_cons. intros [->|H]; [lia|]. specialize (IH H). lia.
Qed.

Lemma highest_least (numbers : list N) (bound : N) :
  (∀ n, n ∈ numbers → (n ≤ bound)%N) → (highest numbers ≤ bound)%N.
Proof.
  unfold highest. induction numbers as [|x numbers IH]; simpl; [lia|].
  intros H. assert (x ≤ bound)%N by (apply H; by left).
  assert (foldr N.max 0 numbers ≤ bound)%N
    by (apply IH; intros n Hn; apply H; by right).
  lia.
Qed.

Lemma highest_app (l1 l2 : list N) :
  highest (l1 ++ l2) = N.max (highest l1) (highest l2).
Proof.
  unfold highest. induction l1 as [|x l1 IH]; simpl; [lia|].
  rewrite IH. lia.
Qed.

Lemma glob_in_dir_mono (d : string) (l l' : list string) (file : string) :
  (∀ name, name ∈ l → name ∈ l') →
  file ∈ glob_in_dir (d, l) → file ∈ glob_in_dir (d, l').
Proof.
  intros Hsub. unfold glob_in_dir. cbn [fst snd].
  intros (name & -> & Hname)%list_elem_of_fmap.
  apply list_elem_of_fmap. exists name. split; [done|].
  apply list_elem_of_In, filter_In in Hname as [Hname Hm].
  apply list_elem_of_In, filter_In. split; [|done].
  by apply list_elem_of_In, Hsub, list_elem_of_In.
Qed.

Lemma existing_files_mono (p : string) (l l' : list string)
    (matches : matched_dirs) (file : string) :
  (∀ name, name ∈ l → name ∈ l') →
  file ∈ existing_files p l matches → file ∈ existing_files p l' matches.
Proof.
  intros Hsub. unfold existing_files, glob_dirs.
  destruct (has_magic p); [destruct (matches_itself matches)|]; simpl;
    rewrite ?elem_of_app; try done.
  - intros [H|H]; [left; by apply (glob_in_dir_mono p l l') | by right].
  - intros [H|H]; [left; by apply (glob_in_dir_mono p l l') | by right].
Qed.

Lemma path_numbers_mono (p : string) (l l' : list string)
    (matches : matched_dirs) (n : N) :
  (∀ name, name ∈ l → name ∈ l') →
  n ∈ omap path_number (existing_files p l matches) →
  n ∈ omap path_number (existing_files p l' matches).
Proof.
  intros Hsub. rewrite !list_elem_of_omap.
  intros (file & Hfile & Hn). exists file. split; [|done].
  by apply (existing_files_mono p l l').
Qed.

(** X8. The next number is at least 1; it never goes down when files
    are added and never up when files are removed; and it depends only on
    which names the directory holds, not on their order or on
    repetitions. *)
Theorem get_next_snapshot_number_monotone (p : string)
    (l l' : list string) (matches : matched_dirs) :
  (1 ≤ get_next_snapshot_number p l matches)%N
  ∧ ((∀ name, name ∈ l → name ∈ l') →
     (get_next_snapshot_number p l matches
      ≤ get_next_snapshot_number p l' matches)%N)
  ∧ ((∀ name, name ∈ l ↔ name ∈ l') →
     get_next_snapshot_number p l matches
     = get_next_snapshot_number p l' matches)
  ∧ (l ≡ₚ l' →
     get_next_snapshot_number p l matches
     = get_next_snapshot_number p l' matches).
Proof.
  assert (Hmono : ∀ a b, (∀ name, name ∈ a → name ∈ b) →
            (get_next_snapshot_number p a matches
             ≤ get_next_snapshot_number p b matches)%N).
  { intros a b Hsub. rewrite !get_next_snapshot_number_highest.
    apply N.add_le_mono_r, highest_least. intros n Hn.
    apply highest_upper. by apply (path_numbers_mono p a b). }
  assert (Hsame : ∀ a b, (∀ name, name ∈ a ↔ name ∈ b) →
            get_next_snapshot_number p a matches
            = get_next_snapshot_number p b matches).
  { intros a b Hab. apply N.le_antisymm; apply Hmono; intros name;
      by apply Hab. }
  split_and!.
  - rewrite get_next_snapshot_number_highest. lia.
  - apply Hmono.
  - apply Hsame.
  - intros Hperm. apply Hsame. intros name. by rewrite Hperm.
Qed.


(** X9. When the Desktop path has no magic character of [glob] and
    holds no match of the pattern [streamy-(\d+)\.png] itself: with the
    name just chosen added to the directory, the next number is one
    more, so successive snapshots are numbered consecutively. *)
Theorem get_next_snapshot_number_consecutive (p : string)
    (l : list string) (matches : matched_dirs) :
  has_magic p = false →
  re_search p = None →
  get_next_snapshot_number p
    (l ++ [snapshot_filename (get_next_snapshot_number p l matches)]) matches
  = (get_next_snapshot_number p l matches + 1)%N.
Proof.
  intros Hm Hp.
  rewrite (get_next_snapshot_number_highest p (l ++ _)).
  rewrite numbers_of_names by done. unfold snapshot_numbers.
  rewrite List.filter_app, omap_app, highest_app. cbn [List.filter].
  destruct (snapshot_filename_number (get_next_snapshot_number p l matches))
    as [-> Hn].
  cbn [omap list_omap]. rewrite Hn. cbn [highest foldr].
  rewrite get_next_snapshot_number_highest, numbers_of_names by done.
  unfold snapshot_numbers. lia.
Qed.

Lemma get_next_snapshot_number_consecutive_witness :
  has_magic "/home/user/Desktop" = false
  ∧ re_search "/home/user/Desktop" = None
  ∧ get_next_snapshot_number "/home/user/Desktop"
      (["streamy-0041.png"; "notes.txt"]
       ++ [snapshot_filename
             (get_next_snapshot_number "/home/user/Desktop"
                ["streamy-0041.png"; "notes.txt"] (MatchedDirs false []))])
      (MatchedDirs false [])
    = (get_next_snapshot_number "/home/user/Desktop"
         ["streamy-0041.png"; "notes.txt"] (MatchedDirs false []) + 1)%N.
Proof.
  assert (Hm : has_magic "/home/user/Desktop" = false) by reflexivity.
  assert (H : re_search "/home/user/Desktop" = None) by reflexivity.
  split; [exact Hm|]. split; [exact H|].
  exact (get_next_snapshot_number_consecutive "/home/user/Desktop"
           ["streamy-0041.png"; "notes.txt"] (MatchedDirs false []) Hm H).
Defined.

End SnapshotSequence.

(** ** The dependency check *)

Section Dependencies.

Lemma check_packages_filter (found : string → bool)
    (items : list (string * string)) (acc : list string) :
  foldl (check_package found) acc items
  = acc ++ (List.filter (λ item, negb (found item.2)) items).*1.
Proof.
  revert acc. induction items as [|[package module_name] items IH];
    intros acc; simpl.
  - by rewrite app_nil_r.
  - rewrite IH. destruct (String.eqb_spec module_name "cv2") as [->|_];
      destruct (negb (found _)); simpl; by rewrite <- ?app_assoc.
Qed.

Lemma check_and_install_dependencies_fields (found : string → bool)
    (pip : pip_outcome) :
  let r := check_and_install_dependencies found pip in
  let missing :=
    (List.filter (λ item, negb (found item.2)) required_packages).*1 in
  missing_packages r = missing
  ∧ pip_command r
    = match missing with
      | [] => None
      | _ :: _ => Some (["-m"; "pip"; "install"] ++ missing)
      end
  ∧ exit_status r
    = match missing, pip with
      | _ :: _, PipFails => Some 1%Z
      | _, _ => None
      end.
Proof.
  unfold check_and_install_dependencies.
  rewrite check_packages_filter. cbn [app].
  destruct ((List.filter _ required_packages).*1); [done|]. by destruct pip.
Qed.

(** X10. The packages collected are those whose module is not found, in
    the order of the dict.  pip is run exactly when one is missing, and
    then to install exactly the missing ones; the process exits, with
    status 1, exactly when pip is run and fails. *)
Theorem check_and_install_dependencies_spec (found : string → bool)
    (pip : pip_outcome) :
  let r := check_and_install_dependencies found pip in
  missing_packages r
  = (List.filter (λ item, negb (found item.2)) required_packages).*1
  ∧ (∀ package,
       package ∈ missing_packages r
       ↔ ∃ module_name,
           (package, module_name) ∈ required_packages
           ∧ found module_name = false)
  ∧ (pip_command r = None
     ↔ ∀ item, item ∈ required_packages → found item.2 = true)
  ∧ (∀ command,
       pip_command r = Some command →
       command = ["-m"; "pip"; "install"] ++ missing_packages r)
  ∧ (exit_status r = Some 1%Z
     ↔ pip = PipFails ∧ ∃ item, item ∈ required_packages ∧ found item.2 = false)
  ∧ (exit_status r = None ∨ exit_status r = Some 1%Z).
Proof.
  intros r.
  destruct (check_and_install_dependencies_fields found pip) as (F1 & F2 & F3).
  fold r in F1, F2, F3. rewrite F1, F2, F3.
  set (M := (List.filter (λ item, negb (found item.2)) required_packages).*1).
  assert (Hin : ∀ package,
            package ∈ M
            ↔ ∃ module_name,
                (package, module_name) ∈ required_packages
                ∧ found module_name = false).
  { intros package. subst M. rewrite list_elem_of_fmap. split.
    - intros ([pk m] & -> & H). apply list_elem_of_In, filter_In in H as [H Hf].
      exists m. split; [by apply list_elem_of_In|].
      by apply negb_true_iff in Hf.
    - intros (m & H & Hf). exists (package, m). split; [done|].
      apply list_elem_of_In, filter_In. split; [by apply list_elem_of_In|].
      by apply negb_true_iff. }
  assert (Hnil : M = []
            ↔ ∀ item, item ∈ required_packages → found item.2 = true).
  { split.
    - intros HM [pk m] Hitem. simpl. destruct (found m) eqn:Hf; [done|].
      assert (pk ∈ M) as Hpk by (apply Hin; by exists m).
      rewrite HM in Hpk. by apply elem_of_nil in Hpk.
    - intros Hall. destruct M as [|pk M']; [done|].
      assert (pk ∈ pk :: M') as Hpk by (by left).
      apply Hin in Hpk as (m & Hm & Hf).
      specialize (Hall (pk, m) Hm). simpl in Hall. congruence. }
  split_and!; try done.
  - rewrite <- Hnil. by destruct M.
  - intros command. destruct M; [done|]. by intros [= <-].
  - split.
    + intros H. destruct M as [|pk M']; [done|].
      destruct pip; [done|]. split; [done|].
      assert (pk ∈ pk :: M') as Hpk by (by left).
      apply Hin in Hpk as (m & Hm & Hf).
      by exists (pk, m).
    + intros [-> ([pk m] & Hitem & Hf)]. simpl in Hf.
      destruct M as [|pk' M']; [|done].
      pose proof (proj1 Hnil eq_refl (pk, m) Hitem) as Ht. simpl in Ht.
      congruence.
  - destruct M, pip; by (left + right).
Qed.

End Dependencies.

(** ** The window over a run *)

Section Window.
Import StreamyApp.

Lemma connect_prepare_ui (s : t) :
  session_inv s → ui_inv s →
  snapshot_btn (connect_prepare s) = false
  ∧ is_running (connect_prepare s) = false
  ∧ status_indicator (connect_prepare s) ≠ GREEN.
Proof.
  intros Hs [Hb Hg]. unfold connect_prepare, disconnect_camera.
  cbn [camera setText setColor set_status_label set_status_indicator].
  destruct (camera s) as [h|] eqn:E; simpl; [done|].
  destruct (no_session_idle s Hs E) as (_ & _ & Hr & _).
  by rewrite Hb, Hr.
Qed.

Lemma populate_printer_combobox_ui (s : t) :
  let s' := (populate_printer_combobox s).1 in
  snapshot_btn s' = snapshot_btn s ∧ is_running s' = is_running s
  ∧ status_indicator s' = status_indicator s.
Proof.
  unfold populate_printer_combobox. cbv zeta.
  destruct (PrinterConfig.get_recent_printers (config s)) as [e|r]; [done|].
  destruct r; try done. by destruct (str_items l).
Qed.

Lemma connect_to_camera_ui text cap io (s : t) :
  session_inv s → ui_inv s → ui_inv (connect_to_camera text cap io s).
Proof.
  intros Hs Hui. destruct (decide (strip text = "")) as [Hip|Hip].
  { rewrite connect_to_camera_blank by done. exact Hui. }
  rewrite connect_to_camera_unfold by done.
  destruct (connect_prepare_ui s Hs Hui) as (Hb & Hr & Hg).
  set (s1 := connect_prepare s) in *. unfold ui_inv, connect_try.
  destruct cap as [|ret test_frame width height]; simpl.
  - by rewrite Hb, Hr.
  - destruct (negb ret || is_None test_frame); simpl.
    + by rewrite Hb, Hr.
    + match goal with
      | |- context [PrinterConfig.add_printer ?a ?b ?c] =>
          destruct (PrinterConfig.add_printer a b c) as [e|config']
      end; simpl.
      * by rewrite Hb, Hr.
      * match goal with
        | |- context [populate_printer_combobox ?x] =>
            pose proof (populate_printer_combobox_ui x) as (P1 & P2 & P3);
            destruct (populate_printer_combobox x) as [s3 [e|]]
        end; simpl in P1, P2, P3; simpl.
        -- by rewrite P1, P2, Hb, Hr.
        -- by rewrite P3.
Qed.

Lemma disconnect_camera_ui (s : t) : ui_inv s → ui_inv (disconnect_camera s).
Proof. intros H. unfold disconnect_camera. by destruct (camera s). Qed.

Lemma update_frame_ui ret frame now (s : t) :
  ui_inv s → ui_inv (update_frame ret frame now s).
Proof.
  intros Hui. pose proof Hui as [Hb Hg]. unfold update_frame.
  destruct (is_running s) eqn:Hr; cbn [negb orb]; [|exact Hui].
  destruct (camera s) as [h|] eqn:E; cbn [is_None]; [|exact Hui].
  destruct (negb ret || is_None frame).
  - unfold disconnect_camera. simpl. by rewrite E.
  - destruct frame; simpl; rewrite Hg; simpl; unfold ui_inv; simpl;
      by rewrite ?Hb, ?Hr, ?Hg.
Qed.

Lemma take_snapshot_fields now written (s : t) :
  let s' := take_snapshot now written s in
  snapshot_btn s' = snapshot_btn s ∧ is_running s' = is_running s
  ∧ status_indicator s' = status_indicator s
  ∧ timestamp_checkbox s' = timestamp_checkbox s ∧ config s' = config s
  ∧ current_frame s' = current_frame s ∧ camera s' = camera s
  ∧ video_frame s' = video_frame s ∧ ip_combo s' = ip_combo s
  ∧ desktop_path s' = desktop_path s
  ∧ desktop_matches s' = desktop_matches s.
Proof.
  unfold take_snapshot. cbv zeta.
  destruct (negb (is_running s) || is_None (current_frame s)); [done|].
  destruct (current_frame s) as [frame|] eqn:E; [|done].
  unfold show_temporary_status, imwrite. cbn zeta.
  destruct (written && _); simpl; by destruct (status_timer s).
Qed.

Lemma elapse_fields ms (s : t) :
  let s' := elapse ms s in
  snapshot_btn s' = snapshot_btn s ∧ is_running s' = is_running s
  ∧ status_indicator s' = status_indicator s
  ∧ timestamp_checkbox s' = timestamp_checkbox s ∧ config s' = config s
  ∧ current_frame s' = current_frame s ∧ dialogs s' = dialogs s
  ∧ previous_status s' = previous_status s.
Proof.
  unfold elapse, reset_status. cbv zeta.
  destruct (status_timer s) as [r|]; [|done].
  destruct (r <=? ms)%N; simpl; [|done].
  by destruct (str_truthy (previous_status s)).
Qed.

Lemma step_ui (c : command) (s s' : t) :
  session_inv s → ui_inv s → step c s = inr s' → ui_inv s'.
Proof.
  intros Hs Hui. destruct c; simpl.
  - intros [= <-]. by apply connect_to_camera_ui.
  - intros [= <-]. by apply disconnect_camera_ui.
  - intros [= <-]. destruct (snapshot_btn s); [|done].
    destruct (take_snapshot_fields now written s) as (F1 & F2 & F3 & _).
    unfold ui_inv. rewrite F1, F2, F3. exact Hui.
  - unfold timestamp_checkbox_changed.
    destruct (PrinterConfig.set_include_timestamp _ _ _); simpl; [done|].
    by intros [= <-].
  - intros [= <-]. destruct (timer s); [|done]. by apply update_frame_ui.
  - intros [= <-]. destruct (elapse_fields ms s) as (F1 & F2 & F3 & _).
    unfold ui_inv. rewrite F1, F2, F3. exact Hui.
  - intros [= <-]. unfold closeEvent.
    destruct (camera s); [by apply disconnect_camera_ui | done].
Qed.

Lemma run_ui (cs : list command) (s s' : t) :
  session_inv s → ui_inv s → run cs s = inr s' → ui_inv s'.
Proof.
  revert s. induction cs as [|c cs IH]; intros s Hs Hui; simpl.
  - by intros [= <-].
  - destruct (step c s) as [e|s1] eqn:E; simpl; [done|].
    apply IH; [by apply (step_inv c s) | by apply (step_ui c s)].
Qed.

Lemma color_eqb_GREEN (c : color) : color_eqb c GREEN = true ↔ c = GREEN.
Proof. by destruct c. Qed.

(** X11. From a state in which the session invariant holds and the
    Snapshot button and the indicator agree with the stream flag, as in
    the window just built: after any sequence of events the Snapshot
    button is enabled exactly while the stream runs, the indicator is
    green exactly then, and then a camera is held and the poll timer
    runs. *)
Theorem snapshot_button_follows_stream (s0 : t) (cs : list command) (s : t) :
  session_inv s0 →
  ui_inv s0 →
  run cs s0 = inr s →
  snapshot_btn s = is_running s
  ∧ (status_indicator s = GREEN ↔ is_running s = true)
  ∧ (is_running s = true → is_Some (camera s))
  ∧ (snapshot_btn s = true → timer s = true).
Proof.
  intros Hs Hui Hrun. destruct (run_ui cs s0 s Hs Hui Hrun) as [Hb Hg].
  destruct (run_inv cs s0 s Hs Hrun) as [_ Ht Hc _].
  split_and!; try done.
  - by rewrite <- color_eqb_GREEN, Hg.
  - rewrite Hb, Ht. done.
Qed.

Lemma snapshot_button_follows_stream_witness :
  session_inv fresh_app
  ∧ ui_inv fresh_app
  ∧ run reconnect_events fresh_app
    = inr (final (run reconnect_events fresh_app))
  ∧ snapshot_btn (final (run reconnect_events fresh_app))
    = is_running (final (run reconnect_events fresh_app)).
Proof.
  assert (H0 : session_inv fresh_app) by apply init_session_inv.
  assert (H1 : ui_inv fresh_app) by (by split).
  assert (H2 : run reconnect_events fresh_app
               = inr (final (run reconnect_events fresh_app)))
    by (vm_compute; reflexivity).
  split; [exact H0|]. split; [exact H1|]. split; [exact H2|].
  exact (proj1 (snapshot_button_follows_stream fresh_app reconnect_events _
                  H0 H1 H2)).
Defined.

End Window.

(** ** The status text and the check box over a run *)

Section Labels.
Import StreamyApp.

Lemma connect_to_camera_label text cap io (s : t) :
  status_label s ≠ "" → status_label (connect_to_camera text cap io s) ≠ "".
Proof.
  intros Hl. destruct (decide (strip text = "")) as [Hip|Hip].
  { by rewrite connect_to_camera_blank. }
  rewrite connect_to_camera_unfold by done.
  set (s1 := connect_prepare s). unfold connect_try.
  destruct cap as [|ret test_frame width height]; simpl; [done|].
  destruct (negb ret || is_None test_frame); simpl; [done|].
  match goal with
  | |- context [PrinterConfig.add_printer ?a ?b ?c] =>
      destruct (PrinterConfig.add_printer a b c) as [e|config']
  end; simpl; [done|].
  match goal with
  | |- context [populate_printer_combobox ?x] =>
      pose proof (populate_printer_combobox_frame x) as (_&_&_&_&_&P&_);
      destruct (populate_printer_combobox x) as [s3 [e|]]
  end; simpl in P; simpl; [done|]. by rewrite P.
Qed.

Lemma step_labels (c : command) (s s' : t) :
  labels_inv s → step c s = inr s' → labels_inv s'.
Proof.
  intros [Hl Hp]. destruct c; simpl.
  - intros [= <-]. split; [by apply connect_to_camera_label|].
    by rewrite (proj2 (connect_to_camera_pending text cap io s)).
  - intros [= <-]. split.
    + unfold disconnect_camera. by destruct (camera s).
    + by rewrite (proj2 (disconnect_camera_pending s)).
  - intros [= <-]. destruct (snapshot_btn s); [|done].
    unfold take_snapshot.
    destruct (negb (is_running s) || is_None (current_frame s)); [done|].
    destruct (current_frame s) as [frame|]; [|done].
    unfold show_temporary_status, imwrite. cbn zeta.
    destruct (written && _); simpl; by destruct (status_timer s).
  - unfold timestamp_checkbox_changed.
    destruct (PrinterConfig.set_include_timestamp _ _ _); simpl; [done|].
    by intros [= <-].
  - intros [= <-]. destruct (timer s); [|done]. split.
    + unfold update_frame.
      destruct (negb (is_running s) || is_None (camera s)); [done|].
      destruct (camera s) as [h|] eqn:E; [|done].
      destruct (negb ret || is_None frame).
      * unfold disconnect_camera. simpl. by rewrite E.
      * destruct frame; simpl;
          by destruct (negb (color_eqb (status_indicator s) GREEN)).
    + by rewrite (proj2 (update_frame_pending ret frame now s)).
  - intros [= <-]. unfold elapse, reset_status.
    destruct (status_timer s) as [r|]; [|done].
    destruct (r <=? ms)%N; simpl; [|done].
    by rewrite (proj2 (str_truthy_true _) Hp).
  - intros [= <-]. unfold closeEvent. destruct (camera s) eqn:E; [|done].
    split.
    + unfold disconnect_camera. by rewrite E.
    + by rewrite (proj2 (disconnect_camera_pending s)).
Qed.

Lemma run_labels (cs : list command) (s s' : t) :
  labels_inv s → run cs s = inr s' → labels_inv s'.
Proof.
  revert s. induction cs as [|c cs IH]; intros s Hl; simpl.
  - by intros [= <-].
  - destruct (step c s) as [e|s1] eqn:E; simpl; [done|].
    apply IH. by apply (step_labels c s).
Qed.

(** X12. After any sequence of events the status label is not empty, and
    neither is the text recorded for the revert; so whenever the status
    timer runs out, the label goes back to exactly the recorded text. *)
Theorem status_label_never_empty (s0 : t) (cs : list command) (s : t) :
  labels_inv s0 →
  run cs s0 = inr s →
  status_label s ≠ ""
  ∧ previous_status s ≠ ""
  ∧ ∀ (remaining ms : N),
      status_timer s = Some remaining → (remaining ≤ ms)%N →
      status_label (elapse ms s) = previous_status s
      ∧ status_timer (elapse ms s) = None.
Proof.
  intros H0 Hrun. destruct (run_labels cs s0 s H0 Hrun) as [Hl Hp].
  split_and!; try done. intros r ms Ht Hms. by apply (elapse_fires ms s r).
Qed.

Lemma status_label_never_empty_witness :
  labels_inv fresh_app
  ∧ run reconnect_events fresh_app
    = inr (final (run reconnect_events fresh_app))
  ∧ status_label (final (run reconnect_events fresh_app)) ≠ "".
Proof.
  assert (H0 : labels_inv fresh_app) by (by split).
  assert (H1 : run reconnect_events fresh_app
               = inr (final (run reconnect_events fresh_app)))
    by (vm_compute; reflexivity).
  split; [exact H0|]. split; [exact H1|].
  exact (proj1 (status_label_never_empty fresh_app reconnect_events _ H0 H1)).
Defined.

Lemma save_config_config (io : save_outcome) (p : PrinterConfig.t) :
  PrinterConfig.config (PrinterConfig.save_config io p)
  = PrinterConfig.config p.
Proof. by destruct io. Qed.

Lemma add_printer_keeps_flag (ip : string) (io : save_outcome)
    (p p' : PrinterConfig.t) :
  PrinterConfig.add_printer ip io p = inr p' →
  PrinterConfig.get_include_timestamp p'
  = PrinterConfig.get_include_timestamp p.
Proof.
  unfold PrinterConfig.add_printer. destruct (str_truthy ip); [|by intros [= <-]].
  destruct p as [c f]. cbn [PrinterConfig.config PrinterConfig.disk].
  destruct c as [| | | |x|l|d]; try done. simpl.
  destruct (d !! "recent_printers") as [r|]; [|done]. simpl.
  destruct (py_in ip r) as [e|present]; [done|]. simpl.
  destruct (if present then py_remove r ip else inr r) as [e|r1]; [done|].
  simpl. destruct (py_insert0 r1 ip) as [e|r2]; [done|]. simpl.
  destruct (py_slice5 r2) as [e|r3]; [done|]. simpl.
  intros [= <-]. unfold PrinterConfig.get_include_timestamp.
  rewrite save_config_config. simpl.
  by rewrite !lookup_insert_ne by done.
Qed.

Lemma populate_printer_combobox_checkbox (s : t) :
  timestamp_checkbox (populate_printer_combobox s).1 = timestamp_checkbox s.
Proof.
  unfold populate_printer_combobox. cbv zeta.
  destruct (PrinterConfig.get_recent_printers (config s)) as [e|r]; [done|].
  destruct r; try done. by destruct (str_items l).
Qed.

Lemma connect_prepare_config (s : t) :
  timestamp_checkbox (connect_prepare s) = timestamp_checkbox s
  ∧ config (connect_prepare s) = config s.
Proof.
  unfold connect_prepare, disconnect_camera.
  cbn [camera setText setColor set_status_label set_status_indicator].
  by destruct (camera s).
Qed.

Lemma connect_to_camera_config text cap io (s : t) :
  let s' := connect_to_camera text cap io s in
  timestamp_checkbox s' = timestamp_checkbox s
  ∧ (config s' = config s
     ∨ PrinterConfig.add_printer (strip text) io (config s)
       = inr (config s')).
Proof.
  cbv zeta. destruct (decide (strip text = "")) as [Hip|Hip].
  { rewrite connect_to_camera_blank by done. split; [done | by left]. }
  rewrite connect_to_camera_unfold by done.
  destruct (connect_prepare_config s) as [Hc1 Hc2].
  set (s1 := connect_prepare s) in *. unfold connect_try.
  destruct cap as [|ret test_frame width height]; simpl;
    [split; [done | by left]|].
  destruct (negb ret || is_None test_frame); simpl;
    [split; [done | by left]|].
  rewrite Hc2.
  destruct (PrinterConfig.add_printer (strip text) io (config s))
    as [e|config'] eqn:Ea; simpl; [split; [done | by left]|].
  match goal with
  | |- context [populate_printer_combobox ?x] =>
      pose proof (populate_printer_combobox_frame x) as (_&_&_&_&_&_&_&P);
      pose proof (populate_printer_combobox_checkbox x) as Q;
      destruct (populate_printer_combobox x) as [s3 [e|]]
  end; simpl in P, Q; simpl; rewrite P, Q; split; try done; by right.
Qed.

Lemma flag_inv_dict (s : t) :
  flag_inv s → ∃ d, PrinterConfig.config (config s) = JObj d.
Proof.
  unfold flag_inv, PrinterConfig.get_include_timestamp.
  destruct (PrinterConfig.config (config s)); try done. by eexists.
Qed.

Lemma step_flag (c : command) (s : t) :
  flag_inv s → ∃ s', step c s = inr s' ∧ flag_inv s'.
Proof.
  intros Hf. destruct c; simpl.
  - eexists. split; [done|].
    destruct (connect_to_camera_config text cap io s) as [Hc [Hk|Hk]];
      unfold flag_inv; rewrite Hc.
    + by rewrite Hk.
    + by rewrite (add_printer_keeps_flag _ _ _ _ Hk).
  - eexists. split; [done|]. unfold flag_inv, disconnect_camera.
    by destruct (camera s).
  - eexists. split; [done|]. destruct (snapshot_btn s); [|done].
    destruct (take_snapshot_fields now written s) as (_&_&_&F1&F2&_).
    unfold flag_inv. by rewrite F1, F2.
  - destruct (flag_inv_dict s Hf) as [d Hd].
    unfold timestamp_checkbox_changed, PrinterConfig.set_include_timestamp.
    cbn [config set_timestamp_checkbox]. rewrite Hd. simpl.
    eexists. split; [done|]. unfold flag_inv; simpl.
    unfold PrinterConfig.get_include_timestamp.
    rewrite save_config_config. simpl. by rewrite lookup_insert_eq.
  - eexists. split; [done|]. destruct (timer s); [|done].
    unfold flag_inv, update_frame.
    destruct (negb (is_running s) || is_None (camera s)); [done|].
    destruct (camera s) as [h|] eqn:E; [|done].
    destruct (negb ret || is_None frame).
    + unfold disconnect_camera. simpl. by rewrite E.
    + destruct frame; simpl;
        by destruct (negb (color_eqb (status_indicator s) GREEN)).
  - eexists. split; [done|].
    destruct (elapse_fields ms s) as (_&_&_&F1&F2&_).
    unfold flag_inv. by rewrite F1, F2.
  - eexists. split; [done|]. unfold flag_inv, closeEvent, disconnect_camera.
    by destruct (camera s).
Qed.

(** X13. With the check box showing what the record holds, no sequence
    of events raises, and afterwards the box still shows what the record
    holds: connecting, which rewrites the record, leaves the flag alone,
    and ticking the box stores its new state whether or not the file
    could be written. *)
Theorem checkbox_matches_config (s0 : t) (cs : list command) :
  flag_inv s0 →
  ∃ s, run cs s0 = inr s
       ∧ PrinterConfig.get_include_timestamp (config s)
         = inr (JBool (timestamp_checkbox s)).
Proof.
  revert s0. induction cs as [|c cs IH]; intros s0 Hf; simpl.
  - by exists s0.
  - destruct (step_flag c s0 Hf) as (s1 & -> & Hf1). simpl. by apply IH.
Qed.

Lemma checkbox_matches_config_witness :
  flag_inv fresh_app
  ∧ ∃ s, run (ToggleTimestamp false SaveWriteFails :: reconnect_events)
           fresh_app = inr s
         ∧ PrinterConfig.get_include_timestamp (config s)
           = inr (JBool (timestamp_checkbox s)).
Proof.
  assert (H0 : flag_inv fresh_app) by reflexivity.
  split; [exact H0|].
  exact (checkbox_matches_config fresh_app
           (ToggleTimestamp false SaveWriteFails :: reconnect_events) H0).
Defined.

End Labels.

(** ** Snapshots and frames *)

Section Frames.
Import StreamyApp.







(** X16. A timer event that delivers a frame while the stream runs: the
    frame is read from the held camera, once; it is kept, as delivered,
    for snapshots; what is shown is that frame with the time drawn on
    it; the indicator is green, and the label is set to [Connected]
    only if the indicator was not green before.  The session, the
    dialogs and the record are left alone. *)
Theorem update_frame_success now (s : t) (h : nat) (img : image) :
  is_running s = true →
  camera s = Some h →
  let s' := update_frame true (Some img) now s in
  trace s' = trace s ++ [EvRead h]
  ∧ current_frame s' = Some img
  ∧ video_frame s' = Some (PutText img now 10 30)
  ∧ status_indicator s' = GREEN
  ∧ status_label s'
    = (if color_eqb (status_indicator s) GREEN then status_label s
       else "Connected")
  ∧ camera s' = Some h ∧ is_running s' = true ∧ timer s' = timer s
  ∧ open_sources s' = open_sources s
  ∧ dialogs s' = dialogs s ∧ config s' = config s
  ∧ snapshot_btn s' = snapshot_btn s ∧ desktop s' = desktop s.
Proof.
  intros Hr Hc. cbv zeta. unfold update_frame. rewrite Hr, Hc.
  cbn [negb is_None orb]. simpl.
  destruct (status_indicator s) eqn:Ei; simpl; by rewrite ?Ei.
Qed.

Lemma update_frame_success_witness :
  is_running connected_app = true
  ∧ camera connected_app = Some 0%nat
  ∧ current_frame
      (update_frame true (Some (Captured 7)) "2024-01-01 00:00:00"
         connected_app)
    = Some (Captured 7).
Proof.
  assert (H0 : is_running connected_app = true) by reflexivity.
  assert (H1 : camera connected_app = Some 0%nat) by reflexivity.
  split; [exact H0|]. split; [exact H1|].
  exact (proj1 (proj2 (update_frame_success "2024-01-01 00:00:00"
                         connected_app 0%nat (Captured 7) H0 H1))).
Defined.

Lemma connect_prepare_frame (s : t) :
  current_frame (connect_prepare s) = current_frame s.
Proof.
  unfold connect_prepare, disconnect_camera.
  cbn [camera setText setColor set_status_label set_status_indicator].
  by destruct (camera s).
Qed.

Lemma populate_printer_combobox_current (s : t) :
  current_frame (populate_printer_combobox s).1 = current_frame s
  ∧ desktop (populate_printer_combobox s).1 = desktop s.
Proof.
  unfold populate_printer_combobox. cbv zeta.
  destruct (PrinterConfig.get_recent_printers (config s)) as [e|r]; [done|].
  destruct r; try done. by destruct (str_items l).
Qed.

Lemma connect_to_camera_frame text cap io (s : t) :
  current_frame (connect_to_camera text cap io s) = current_frame s.
Proof.
  destruct (decide (strip text = "")) as [Hip|Hip].
  { by rewrite connect_to_camera_blank. }
  rewrite connect_to_camera_unfold by done.
  pose proof (connect_prepare_frame s) as Hc.
  set (s1 := connect_prepare s) in *. unfold connect_try.
  destruct cap as [|ret test_frame width height]; simpl; [done|].
  destruct (negb ret || is_None test_frame); simpl; [done|].
  match goal with
  | |- context [PrinterConfig.add_printer ?a ?b ?c] =>
      destruct (PrinterConfig.add_printer a b c) as [e|config']
  end; simpl; [done|].
  match goal with
  | |- context [populate_printer_combobox ?x] =>
      pose proof (populate_printer_combobox_current x) as [P _];
      destruct (populate_printer_combobox x) as [s3 [e|]]
  end; simpl in P; simpl; by rewrite P.
Qed.

(** X17. The frame kept for snapshots changes only when a timer event
    delivers a frame: connecting, disconnecting, a failed read, a
    snapshot, the check box, the status timer and closing all leave it
    as it is.  So after a disconnect the last frame is still held. *)
Theorem current_frame_kept (c : command) (s s' : t) :
  step c s = inr s' →
  delivers_frame c = false →
  current_frame s' = current_frame s.
Proof.
  destruct c; simpl.
  - intros [= <-] _. apply connect_to_camera_frame.
  - intros [= <-] _. unfold disconnect_camera. by destruct (camera s).
  - intros [= <-] _. destruct (snapshot_btn s); [|done].
    apply take_snapshot_fields.
  - unfold timestamp_checkbox_changed.
    destruct (PrinterConfig.set_include_timestamp _ _ _); simpl; [done|].
    by intros [= <-].
  - intros [= <-] Hd. destruct (timer s); [|done]. unfold update_frame.
    destruct (negb (is_running s) || is_None (camera s)); [done|].
    destruct (camera s) as [h|] eqn:E; [|done].
    destruct ret; [destruct frame as [img|]; [done|] |];
      cbn [negb is_None orb]; unfold disconnect_camera; simpl;
      by rewrite E.
  - intros [= <-] _. apply elapse_fields.
  - intros [= <-] _. unfold closeEvent, disconnect_camera.
    by destruct (camera s).
Qed.

Lemma current_frame_kept_witness :
  step ClickDisconnect streaming_app
  = inr (disconnect_camera streaming_app)
  ∧ delivers_frame ClickDisconnect = false
  ∧ current_frame (disconnect_camera streaming_app)
    = current_frame streaming_app.
Proof.
  assert (H0 : step ClickDisconnect streaming_app
               = inr (disconnect_camera streaming_app)) by reflexivity.
  assert (H1 : delivers_frame ClickDisconnect = false) by reflexivity.
  split; [exact H0|]. split; [exact H1|].
  exact (current_frame_kept ClickDisconnect streaming_app _ H0 H1).
Defined.

Lemma connect_to_camera_dialogs text cap io (s : t) :
  dialogs (connect_to_camera text cap io s) = dialogs s
  ∨ ∃ title message,
      dialogs (connect_to_camera text cap io s)
      = dialogs s ++ [MessageBox Critical title message].
Proof.
  destruct (decide (strip text = "")) as [Hip|Hip].
  { rewrite connect_to_camera_blank by done. right. by do 2 eexists. }
  rewrite connect_to_camera_unfold by done.
  assert (Hc : dialogs (connect_prepare s) = dialogs s).
  { unfold connect_prepare, disconnect_camera.
    cbn [camera setText setColor set_status_label set_status_indicator].
    by destruct (camera s). }
  set (s1 := connect_prepare s) in *. unfold connect_try.
  destruct cap as [|ret test_frame width height]; simpl;
    [right; rewrite Hc; by do 2 eexists|].
  destruct (negb ret || is_None test_frame); simpl;
    [right; rewrite Hc; by do 2 eexists|].
  match goal with
  | |- context [PrinterConfig.add_printer ?a ?b ?c] =>
      destruct (PrinterConfig.add_printer a b c) as [e|config']
  end; simpl; [right; rewrite Hc; by do 2 eexists|].
  match goal with
  | |- context [populate_printer_combobox ?x] =>
      pose proof (populate_printer_combobox_frame x) as (_&_&_&_&_&_&P&_);
      destruct (populate_printer_combobox x) as [s3 [e|]]
  end; simpl in P; simpl; rewrite P, Hc; [right; by do 2 eexists | by left].
Qed.

(** X18. An event opens at most one message box.  Only a click on
    Connect or on Snapshot ever opens one: a failed read on the timer, a
    disconnect, the check box, the status timer and closing the window
    show none.  The box of a click on Snapshot is the warning that no
    stream is active, and it is shown exactly when the click arrives
    while no frame is held. *)
Theorem message_boxes (c : command) (s s' : t) :
  step c s = inr s' →
  (dialogs s' = dialogs s ∨ ∃ d, dialogs s' = dialogs s ++ [d])
  ∧ (silent c = true → dialogs s' = dialogs s)
  ∧ ∀ now written, c = ClickSnapshot now written →
      snapshot_btn s = is_running s →
      if snapshot_btn s && is_None (current_frame s)
      then dialogs s' = dialogs s ++ [no_stream_warning]
           ∧ trace s' = trace s ∧ status_label s' = status_label s
      else dialogs s' = dialogs s.
Proof.
  assert (Hsnap : ∀ now written,
            (if negb (is_running s) || is_None (current_frame s)
             then dialogs (take_snapshot now written s)
                  = dialogs s ++ [no_stream_warning]
                  ∧ trace (take_snapshot now written s) = trace s
                  ∧ status_label (take_snapshot now written s)
                    = status_label s
             else dialogs (take_snapshot now written s) = dialogs s)).
  { intros now written. unfold take_snapshot.
    destruct (negb (is_running s) || is_None (current_frame s)) eqn:G;
      [done|].
    destruct (current_frame s) as [frame|]; [|done].
    unfold show_temporary_status, imwrite. cbv zeta.
    destruct (written && _); simpl; by destruct (status_timer s). }
  assert (Hdis : dialogs (disconnect_camera s) = dialogs s).
  { unfold disconnect_camera. by destruct (camera s). }
  destruct c; simpl.
  - intros [= <-]. split_and!; try done.
    destruct (connect_to_camera_dialogs text cap io s) as [H|(?&?&H)];
      [by left | right; by eexists].
  - intros [= <-]. split_and!; try done. by left.
  - intros [= <-]. split_and!; try done.
    + destruct (snapshot_btn s); [|by left].
      specialize (Hsnap now written).
      destruct (negb (is_running s) || is_None (current_frame s));
        [right; eexists; apply Hsnap | by left].
    + intros now' written' [= <- <-] Hb.
      specialize (Hsnap now written). rewrite <- Hb in Hsnap.
      destruct (snapshot_btn s); simpl in *; [|done].
      by destruct (is_None (current_frame s)).
  - unfold timestamp_checkbox_changed.
    destruct (PrinterConfig.set_include_timestamp _ _ _); simpl; [done|].
    intros [= <-]. split_and!; try done. by left.
  - intros [= <-].
    assert (H : dialogs (if timer s then update_frame ret frame now s else s)
                = dialogs s).
    { destruct (timer s); [|done]. unfold update_frame.
      destruct (negb (is_running s) || is_None (camera s)); [done|].
      destruct (camera s) as [h|] eqn:E; [|done].
      destruct (negb ret || is_None frame).
      - unfold disconnect_camera. simpl. by rewrite E.
      - destruct frame; simpl;
          by destruct (negb (color_eqb (status_indicator s) GREEN)). }
    split_and!; try done. by left.
  - intros [= <-].
    destruct (elapse_fields ms s) as (_&_&_&_&_&_&H&_).
    split_and!; try done. by left.
  - intros [= <-].
    assert (H : dialogs (closeEvent s) = dialogs s).
    { unfold closeEvent. by destruct (camera s). }
    split_and!; try done. by left.
Qed.

Lemma message_boxes_witness :
  step (ClickSnapshot "2024-01-01 00:00:00" true) connected_app
  = inr (take_snapshot "2024-01-01 00:00:00" true connected_app)
  ∧ dialogs (take_snapshot "2024-01-01 00:00:00" true connected_app)
    = dialogs connected_app ++ [no_stream_warning].
Proof.
  assert (H0 : step (ClickSnapshot "2024-01-01 00:00:00" true) connected_app
               = inr (take_snapshot "2024-01-01 00:00:00" true
                        connected_app)) by reflexivity.
  split; [exact H0|].
  exact (proj1 (proj2 (proj2 (message_boxes _ connected_app _ H0))
                  "2024-01-01 00:00:00" true eq_refl eq_refl)).
Defined.

End Frames.

(** ** Connecting and closing *)

Section Closing.
Import StreamyApp.

Lemma run_snoc (cs : list command) (c : command) (s : t) :
  run (cs ++ [c]) s = bind (run cs s) (step c).
Proof.
  revert s. induction cs as [|c' cs IH]; intros s; simpl.
  - by destruct (step c s).
  - destruct (step c' s) as [e|s1]; simpl; [done|]. apply IH.
Qed.

(** X19. Closing the window after any sequence of events: the camera, if
    one is held, is disconnected, so that afterwards no camera is held,
    no source is open, the poll timer is stopped, every source that was
    opened has been released, and a late timer event reads nothing.
    With no camera held, closing changes nothing. *)
Theorem closeEvent_releases (s0 : t) (cs : list command) (s : t) :
  session_inv s0 →
  run cs s0 = inr s →
  run (cs ++ [CloseWindow]) s0 = inr (closeEvent s)
  ∧ camera (closeEvent s) = None
  ∧ open_sources (closeEvent s) = []
  ∧ timer (closeEvent s) = false
  ∧ is_running (closeEvent s) = false
  ∧ replay (trace (closeEvent s)) = Some ([], false)
  ∧ trace (closeEvent s) = trace s ++ teardown_events s
  ∧ (camera s = None → closeEvent s = s)
  ∧ (∀ ret frame now,
       step (TimerTimeout ret frame now) (closeEvent s)
       = inr (closeEvent s)).
Proof.
  intros H0 Hrun. pose proof (run_inv cs s0 s H0 Hrun) as Hs.
  pose proof (closeEvent_inv s Hs) as Hs'.
  assert (Hc : camera (closeEvent s) = None).
  { unfold closeEvent, disconnect_camera. by destruct (camera s) eqn:E. }
  destruct (no_session_idle _ Hs' Hc) as (Ho & Ht & Hr & Htr).
  split_and!; try done.
  - by rewrite run_snoc, Hrun.
  - unfold closeEvent, teardown_events, disconnect_camera.
    destruct (camera s); simpl; [by rewrite <- app_assoc|].
    by rewrite app_nil_r.
  - unfold closeEvent. by intros ->.
  - intros ret frame now. simpl. by rewrite Ht.
Qed.

Lemma closeEvent_releases_witness :
  session_inv fresh_app
  ∧ run [ClickConnect "10.0.0.5" (good_camera 0) SaveOk] fresh_app
    = inr connected_app
  ∧ open_sources (closeEvent connected_app) = [].
Proof.
  assert (H0 : session_inv fresh_app) by apply init_session_inv.
  assert (H1 : run [ClickConnect "10.0.0.5" (good_camera 0) SaveOk] fresh_app
               = inr connected_app) by (vm_compute; reflexivity).
  split; [exact H0|]. split; [exact H1|].
  exact (proj1 (proj2 (proj2 (closeEvent_releases fresh_app _ _ H0 H1)))).
Defined.

Lemma connect_prepare_combo (s : t) :
  ip_combo (connect_prepare s) = ip_combo s
  ∧ config (connect_prepare s) = config s
  ∧ desktop (connect_prepare s) = desktop s.
Proof.
  unfold connect_prepare, disconnect_camera.
  cbn [camera setText setColor set_status_label set_status_indicator].
  by destruct (camera s).
Qed.

(** X20. The address is recorded only once the first frame has been
    read: a click on Connect with a blank address, with a source that
    does not open, or with one that opens but gives no frame, leaves the
    record, the file behind it and the entries of the combo box as they
    were, and shows exactly one message box. *)
Theorem failed_connect_records_nothing text cap io (s : t) :
  strip text = "" ∨ first_frame_read cap = false →
  let s' := connect_to_camera text cap io s in
  config s' = config s
  ∧ ip_combo s' = ip_combo s
  ∧ desktop s' = desktop s
  ∧ ∃ title message,
      dialogs s' = dialogs s ++ [MessageBox Critical title message].
Proof.
  intros H. cbv zeta. destruct (decide (strip text = "")) as [Hip|Hip].
  { rewrite connect_to_camera_blank by done. split_and!; try done.
    by do 2 eexists. }
  destruct H as [H|H]; [done|].
  rewrite connect_to_camera_unfold by done.
  destruct (connect_prepare_combo s) as (C1 & C2 & C3).
  assert (C4 : dialogs (connect_prepare s) = dialogs s).
  { unfold connect_prepare, disconnect_camera.
    cbn [camera setText setColor set_status_label set_status_indicator].
    by destruct (camera s). }
  set (s1 := connect_prepare s) in *. unfold connect_try.
  destruct cap as [|ret test_frame width height]; simpl.
  - rewrite C4. split_and!; try done. by do 2 eexists.
  - assert (G : negb ret || is_None test_frame = true).
    { destruct ret; [|done]. by destruct test_frame. }
    rewrite G. simpl. rewrite C4. split_and!; try done. by do 2 eexists.
Qed.

Lemma failed_connect_records_nothing_witness :
  (strip "10.0.0.9" = "" ∨ first_frame_read NotOpened = false)
  ∧ config (connect_to_camera "10.0.0.9" NotOpened SaveOk connected_app)
    = config connected_app.
Proof.
  assert (H : strip "10.0.0.9" = "" ∨ first_frame_read NotOpened = false)
    by (right; reflexivity).
  split; [exact H|].
  exact (proj1 (failed_connect_records_nothing "10.0.0.9" NotOpened SaveOk
                  connected_app H)).
Defined.

Lemma str_items_fmap (l : list json) (items : list string) :
  str_items l = Some items → l = JStr <$> items.
Proof.
  revert items. induction l as [|x l IH]; intros items; simpl.
  - by intros [= <-].
  - destruct x; try done. destruct (str_items l) as [items'|]; [|done].
    simpl. intros [= <-]. simpl. by rewrite (IH items').
Qed.

Lemma populate_printer_combobox_items (s s' : t) :
  populate_printer_combobox s = (s', None) →
  PrinterConfig.get_recent_printers (config s)
  = inr (JArr (JStr <$> ip_combo s'))
  ∧ s' = set_ip_combo (ip_combo s') s.
Proof.
  unfold populate_printer_combobox. cbv zeta.
  destruct (PrinterConfig.get_recent_printers (config s)) as [e|r]; [done|].
  destruct r; try done. destruct (str_items l) as [items|] eqn:E; [|done].
  intros [= <-]. simpl. by rewrite (str_items_fmap l items E).
Qed.

(** X21. A click on Connect with a non-empty address, a source that
    opens and gives a first frame, and a record whose recent list is a
    list of strings: the stream runs whether or not the file could be
    written; the combo box then shows the recent list of the record, at
    most five entries with the stripped address first; the file holds
    the new record if it was written, is as before if it could not be
    opened, and is left truncated if the write failed; no message box is
    shown. *)
Theorem connect_fills_combo text io (s : t) (frame : image)
    (width height : Z) (d : gmap string json) (l : list json)
    (f : file_state) :
  strip text ≠ "" →
  config s = PrinterConfig.Build (JObj d) f →
  d !! "recent_printers" = Some (JArr l) →
  is_Some (str_items l) →
  let s' := connect_to_camera text (Opened true (Some frame) width height)
              io s in
  is_running s' = true
  ∧ PrinterConfig.get_recent_printers (config s')
    = inr (JArr (JStr <$> ip_combo s'))
  ∧ head (ip_combo s') = Some (strip text)
  ∧ (length (ip_combo s') ≤ 5)%nat
  ∧ PrinterConfig.get_last_used_printer (config s')
    = inr (JStr (strip text))
  ∧ PrinterConfig.disk (config s')
    = disk_after io (PrinterConfig.config (config s')) f
  ∧ dialogs s' = dialogs s.
Proof.
  intros Hip Hcfg Hl Hstr. cbv zeta.
  rewrite connect_to_camera_unfold by done.
  destruct (connect_prepare_combo s) as (_ & C2 & _).
  assert (C4 : dialogs (connect_prepare s) = dialogs s).
  { unfold connect_prepare, disconnect_camera.
    cbn [camera setText setColor set_status_label set_status_indicator].
    by destruct (camera s). }
  set (s1 := connect_prepare s) in *. unfold connect_try.
  cbn [VideoCapture_opened negb is_None orb]. cbn zeta.
  set (s2 := set_camera_url _ _).
  assert (Hcfg2 : config s2 = PrinterConfig.Build (JObj d) f).
  { subst s2. simpl. by rewrite C2. }
  assert (Hd2 : dialogs s2 = dialogs s) by (subst s2; simpl; exact C4).
  destruct (connect_config_ok (strip text) io s2 d l f Hip Hcfg2 Hl Hstr)
    as (config' & items & Hadd & Hpop & Hhead).
  rewrite Hadd. cbn zeta.
  destruct (populate_printer_combobox_items _ _ Hpop) as [Hrec _].
  rewrite Hpop. simpl. simpl in Hrec.
  rewrite Hcfg2, (add_printer_list (strip text) io d l f Hip Hl) in Hadd.
  injection Hadd as <-.
  split_and!; try done.
  - unfold PrinterConfig.get_recent_printers in Hrec.
    rewrite save_config_config in Hrec. simpl in Hrec.
    rewrite lookup_insert_ne in Hrec by done.
    rewrite lookup_insert_eq in Hrec. injection Hrec as Hrec.
    apply (f_equal length) in Hrec.
    rewrite length_fmap in Hrec. simpl in Hrec.
    rewrite ?length_take in Hrec. lia.
  - unfold PrinterConfig.get_last_used_printer.
    rewrite save_config_config. simpl. by rewrite lookup_insert_eq.
  - by destruct io.
Qed.

Lemma connect_fills_combo_witness :
  strip " 10.0.0.6 " ≠ ""
  ∧ config connected_app
    = PrinterConfig.Build
        (JObj (<["last_used_printer" := JStr "10.0.0.5"]>
                 (<["recent_printers" := JArr [JStr "10.0.0.5"]]>
                    PrinterConfig.default_config)))
        (Document
           (JObj (<["last_used_printer" := JStr "10.0.0.5"]>
                    (<["recent_printers" := JArr [JStr "10.0.0.5"]]>
                       PrinterConfig.default_config))))
  ∧ head (ip_combo (connect_to_camera " 10.0.0.6 " (good_camera 1)
                      SaveWriteFails connected_app))
    = Some (strip " 10.0.0.6 ").
Proof.
  assert (H0 : strip " 10.0.0.6 " ≠ "") by (vm_compute; discriminate).
  assert (H1 : config connected_app
    = PrinterConfig.Build
        (JObj (<["last_used_printer" := JStr "10.0.0.5"]>
                 (<["recent_printers" := JArr [JStr "10.0.0.5"]]>
                    PrinterConfig.default_config)))
        (Document
           (JObj (<["last_used_printer" := JStr "10.0.0.5"]>
                    (<["recent_printers" := JArr [JStr "10.0.0.5"]]>
                       PrinterConfig.default_config))))) by reflexivity.
  assert (H2 : (<["last_used_printer" := JStr "10.0.0.5"]>
                  (<["recent_printers" := JArr [JStr "10.0.0.5"]]>
                     PrinterConfig.default_config)) !! "recent_printers"
               = Some (JArr [JStr "10.0.0.5"])) by reflexivity.
  assert (H3 : is_Some (str_items [JStr "10.0.0.5"])) by (by eexists).
  split; [exact H0|]. split; [exact H1|].
  exact (proj1 (proj2 (proj2
           (connect_fills_combo " 10.0.0.6 " SaveWriteFails connected_app
              (Captured 1) 640 480 _ _ _ H0 H1 H2 H3)))).
Defined.

(** X22. From the window as [__init__] builds it, whatever the record,
    the entries and the Desktop, and also when a first connect follows
    at once because [--ip] was given: after any sequence of events at
    most one source is open, it is the held camera, the poll timer runs
    exactly while the stream runs, the Snapshot button is enabled and
    the indicator green exactly then, and the status label is not
    empty. *)
Theorem startup_invariants config0 items checked path files matches
    (cs : list command) (s : t) :
  run cs (init config0 items checked path files matches) = inr s →
  open_sources s = option_list (camera s)
  ∧ timer s = is_running s
  ∧ snapshot_btn s = is_running s
  ∧ (status_indicator s = GREEN ↔ is_running s = true)
  ∧ (is_running s = true → is_Some (camera s))
  ∧ status_label s ≠ "".
Proof.
  intros Hrun.
  set (s0 := init config0 items checked path files matches) in *.
  assert (H0 : session_inv s0) by apply init_session_inv.
  assert (H1 : ui_inv s0) by (by split).
  assert (H2 : labels_inv s0) by (by split).
  destruct (run_inv cs s0 s H0 Hrun) as [I1 I2 I3 _].
  destruct (run_ui cs s0 s H0 H1 Hrun) as [U1 U2].
  destruct (run_labels cs s0 s H2 Hrun) as [L1 _].
  split_and!; try done. by rewrite <- color_eqb_GREEN, U2.
Qed.

Lemma startup_invariants_witness :
  run reconnect_events fresh_app
  = inr (final (run reconnect_events fresh_app))
  ∧ timer (final (run reconnect_events fresh_app))
    = is_running (final (run reconnect_events fresh_app)).
Proof.
  assert (H : run reconnect_events
                (init (PrinterConfig.Build
                         (JObj PrinterConfig.default_config) NoFile)
                   [] true "/home/user/Desktop" [] (MatchedDirs false []))
              = inr (final (run reconnect_events fresh_app)))
    by (vm_compute; reflexivity).
  split; [exact H|].
  exact (proj1 (proj2 (startup_invariants _ _ _ _ _ _ _ _ H))).
Defined.

End Closing.

(** ** Connecting with a damaged record; files on the Desktop *)

Section Damaged.
Import StreamyApp.

Lemma populate_printer_combobox_ok (s : t) :
  (populate_printer_combobox s).2 = None
  ↔ ∃ l, PrinterConfig.get_recent_printers (config s) = inr (JArr l)
         ∧ is_Some (str_items l).
Proof.
  unfold populate_printer_combobox. cbv zeta.
  destruct (PrinterConfig.get_recent_printers (config s)) as [e|r].
  { split; [done|]. by intros (l & ? & _). }
  destruct r; try (split; [done|]; by intros (? & ? & _)).
  destruct (str_items l) as [items|] eqn:E; simpl.
  - split; [|done]. intros _. exists l. split; [done|]. by eexists.
  - split; [done|]. intros (l' & [= <-] & [items Hi]). congruence.
Qed.

Lemma connect_starts_iff text io (s : t) (frame : image)
    (width height : Z) :
  session_inv s →
  strip text ≠ "" →
  is_running (connect_to_camera text
                (Opened true (Some frame) width height) io s) = true
  ↔ usable_record (strip text) (config s).
Proof.
  intros Hs Hip. rewrite connect_to_camera_unfold by done.
  destruct (connect_prepare_state s Hs)
    as (Hc & Hr & Ht & Ho & Htr & Hn & Hcfg & Hd).
  set (s1 := connect_prepare s) in *. unfold connect_try.
  cbn [VideoCapture_opened negb is_None orb]. cbn zeta.
  set (s2 := set_camera_url _ _).
  assert (Hcfg2 : config s2 = config s) by (by subst s2).
  assert (Hr2 : is_running s2 = false) by (by subst s2).
  destruct (PrinterConfig.add_printer (strip text) io (config s2))
    as [e|config'] eqn:Eadd.
  - simpl. rewrite Hr. split; [done|]. intros (d & l & Hd1 & Hd2 & _).
    rewrite Hcfg2 in Eadd. destruct (config s) as [c f]. simpl in Hd1.
    subst c. by rewrite (add_printer_list _ io d l f Hip Hd2) in Eadd.
  - rewrite Hcfg2 in Eadd.
    destruct (add_printer_inr_list _ _ _ _ Hip Eadd) as (d & l & Hd1 & Hd2).
    destruct (config s) as [c f] eqn:Ec. simpl in Hd1. subst c.
    rewrite (add_printer_list _ io d l f Hip Hd2) in Eadd.
    injection Eadd as <-.
    assert (Hrec : ∀ x,
              config x
              = PrinterConfig.save_config io
                  (PrinterConfig.Build
                     (JObj (<["last_used_printer" := JStr (strip text)]>
                              (<["recent_printers" :=
                                   JArr (take 5 (JStr (strip text)
                                     :: remove_first (strip text) l))]> d)))
                     f) →
              PrinterConfig.get_recent_printers (config x)
              = inr (JArr (take 5 (JStr (strip text)
                                     :: remove_first (strip text) l)))).
    { intros x ->. unfold PrinterConfig.get_recent_printers.
      rewrite save_config_config.
      cbn [PrinterConfig.config py_getitem].
      rewrite lookup_insert_ne by done. by rewrite lookup_insert_eq. }
    match goal with
    | |- context [populate_printer_combobox ?x] =>
        pose proof (populate_printer_combobox_ok x) as Hok;
        pose proof (populate_printer_combobox_session x) as (_ & P2 & _);
        rewrite (Hrec x eq_refl) in Hok;
        destruct (populate_printer_combobox x) as [s3 [e|]]
    end; cbn [fst snd] in Hok, P2; simpl in P2; simpl.
    + rewrite P2, Hr. split; [done|].
      intros (d' & l' & [= <-] & Hl' & Hstr). rewrite Hd2 in Hl'.
      injection Hl' as <-.
      assert (Hn' : Some e = None); [|done]. apply Hok. by eexists.
    + split; [|done]. intros _. exists d, l. split_and!; try done.
      destruct (proj1 Hok eq_refl) as (l' & [= <-] & Hstr). exact Hstr.
Qed.

Lemma connect_not_started text io (s : t) (frame : image)
    (width height : Z) :
  session_inv s →
  strip text ≠ "" →
  let s' := connect_to_camera text (Opened true (Some frame) width height)
              io s in
  is_running s' = false →
  camera s' = Some (next_handle s)
  ∧ open_sources s' = [next_handle s]
  ∧ timer s' = false
  ∧ status_indicator s' = RED
  ∧ ∃ e,
      status_label s' = "Error: " +:+ exn_str e
      ∧ dialogs s'
        = dialogs s
          ++ [MessageBox Critical "Error"
                ("An error occurred while trying to connect:"
                 +:+ newline +:+ newline +:+ exn_str e)].
Proof.
  intros Hs Hip. cbv zeta. rewrite connect_to_camera_unfold by done.
  destruct (connect_prepare_state s Hs)
    as (Hc & Hr & Ht & Ho & Htr & Hn & Hcfg & Hd).
  set (s1 := connect_prepare s) in *. unfold connect_try.
  cbn [VideoCapture_opened negb is_None orb]. cbn zeta.
  set (s2 := set_camera_url _ _).
  destruct (PrinterConfig.add_printer (strip text) io (config s2))
    as [e|config'] eqn:Eadd.
  - simpl. rewrite Ho, Ht, Hd, Hn. intros _. split_and!; try done.
    by eexists.
  - pose proof (populate_printer_combobox_session (set_config config' s2))
      as (P1 & P2 & P3 & P4 & _).
    pose proof (populate_printer_combobox_frame (set_config config' s2))
      as (_ & _ & _ & _ & _ & _ & F7 & _).
    destruct (populate_printer_combobox (set_config config' s2))
      as [s3 [e|]]; simpl in P1, P2, P3, P4, F7; simpl; [|done].
    rewrite P1, P3, P4, F7, Ho, Ht, Hd, Hn. intros _.
    split_and!; try done. by eexists.
Qed.

(** X23. A click on Connect with a non-empty address and a source that
    opens and gives a first frame.  The stream starts exactly when the
    record is usable: a dict whose recent list is a list that, with the
    address moved to the front and cut to five entries, holds only
    strings.  Otherwise the exception is caught: the indicator is red,
    the label reads [Error: ] and the message, one Error box is shown,
    and the poll timer is not started; but the camera just opened is
    kept and its source stays open until a disconnect. *)
Theorem connect_with_damaged_record text io (s : t) (frame : image)
    (width height : Z) :
  session_inv s →
  strip text ≠ "" →
  let s' := connect_to_camera text (Opened true (Some frame) width height)
              io s in
  (is_running s' = true ↔ usable_record (strip text) (config s))
  ∧ (is_running s' = false →
     camera s' = Some (next_handle s)
     ∧ open_sources s' = [next_handle s]
     ∧ timer s' = false
     ∧ status_indicator s' = RED
     ∧ ∃ e,
         status_label s' = "Error: " +:+ exn_str e
         ∧ dialogs s'
           = dialogs s
             ++ [MessageBox Critical "Error"
                   ("An error occurred while trying to connect:"
                    +:+ newline +:+ newline +:+ exn_str e)])
  ∧ open_sources (disconnect_camera s') = [].
Proof.
  intros Hs Hip s'. split; [by apply connect_starts_iff|].
  split; [by apply connect_not_started|].
  assert (Hinv : session_inv s') by (by apply connect_to_camera_inv).
  pose proof (disconnect_camera_inv _ Hinv) as Hi.
  refine (proj1 (no_session_idle _ Hi _)). unfold disconnect_camera.
  by destruct (camera s') eqn:E.
Qed.

Lemma connect_with_damaged_record_witness :
  session_inv fresh_app
  ∧ strip "10.0.0.5" ≠ ""
  ∧ (is_running (connect_to_camera "10.0.0.5" (good_camera 0) SaveOk
                   fresh_app) = true
     ↔ usable_record (strip "10.0.0.5") (config fresh_app)).
Proof.
  assert (H0 : session_inv fresh_app) by apply init_session_inv.
  assert (H1 : strip "10.0.0.5" ≠ "") by (vm_compute; discriminate).
  split; [exact H0|]. split; [exact H1|].
  exact (proj1 (connect_with_damaged_record "10.0.0.5" SaveOk fresh_app
                  (Captured 0) 640 480 H0 H1)).
Defined.







End Damaged.
